(** * Academic Service (acad-service/main.py): grade-point engine and record store

    A shallow embedding of the FastAPI handlers of [acad-service/main.py]
    and the properties of the specification settled on them.

    Conventions of the embedding.
    - A Python [float] is an IEEE 754 binary64 value: [spec_float] of the
      Standard Library at precision 53 and exponent bound 1024.  [+], [*]
      and [/] are the correctly rounded [SFadd], [SFmul] and [SFdiv];
      [round(x, 2)] is [py_round2]; the conversions from [int] and from a
      decimal are correctly rounded, the former raising [OverflowError].
    - Python [int] values are [Z]; [str] is [string], one [ascii] per
      character (code points below 256); [Optional[T]] and SQL NULL are
      [option].
    - A relational table is the list of its rows in insertion order; a
      [SELECT] is written out as the filter / join its SQL text denotes.
      The order in which a [SELECT] delivers its rows is the database's
      choice: it is the parameter [engine] of every handler that reads more
      than the existence of a row.  [ORDER BY] sorts the delivered rows.
    - The order of text values in [ORDER BY] is the database's collation,
      a parameter of the listing handlers.
    - An exception is a value of [exception]; a handler returns a [result].
    - The database driver refuses a string parameter that contains a NUL
      character; the HTTP client refuses a header value that is not ASCII.
    - The database is up and holds the four tables: a failing connection
      (which every handler would answer with 500) is outside the model. *)

From Stdlib Require Import ZArith QArith Qround List String Ascii Bool Lia.
From Stdlib Require Import Permutation Sorted DecimalString SpecFloat.
Import ListNotations.

Local Open Scope Z_scope.

(** ** Exceptions and results *)

Inductive exception : Type :=
| HTTPException (status_code : Z) (detail : string)
| ZeroDivisionError
| OverflowError
| RequestError (msg : string)        (* httpx.RequestError, timeouts included *)
| UnicodeEncodeError (msg : string)  (* a header value that is not ASCII *)
| JSONDecodeError (msg : string)     (* response.json() on a body that is not JSON *)
| AttributeError (msg : string)      (* .get on a value that is not a dict *)
| ValueError (msg : string).         (* psycopg2: a string parameter with a NUL *)

Definition str_exc (e : exception) : string :=
  match e with
  | HTTPException _ d => d
  | ZeroDivisionError => "float division by zero"
  | OverflowError => "int too large to convert to float"
  | RequestError m => m
  | UnicodeEncodeError m => m
  | JSONDecodeError m => m
  | AttributeError m => m
  | ValueError m => m
  end.

Inductive result (A : Type) : Type :=
| Ok (a : A)
| Raise (e : exception).

Arguments Ok {A} a.
Arguments Raise {A} e.

Definition bind {A B} (r : result A) (k : A -> result B) : result B :=
  match r with
  | Ok a => k a
  | Raise e => Raise e
  end.

Notation "x <- r ;; k" := (bind r (fun x => k))
  (at level 61, r at next level, right associativity).

(** [for x in l: a = step(a, x)], where the body may raise. *)
Fixpoint for_each {A B} (step : A -> B -> result A) (l : list B) (a : A) : result A :=
  match l with
  | [] => Ok a
  | x :: l' => a' <- step a x ;; for_each step l' a'
  end.

(** The handlers' closing clauses
    [except HTTPException: raise] / [except Exception as e: raise HTTPException(500, str(e))]. *)
Definition except_500 {A} (r : result A) : result A :=
  match r with
  | Ok a => Ok a
  | Raise (HTTPException c d) => Raise (HTTPException c d)
  | Raise e => Raise (HTTPException 500 (str_exc e))
  end.

Definition is_http {A} (code : Z) (r : result A) : Prop :=
  exists d, r = Raise (HTTPException code d).

(** ** Numbers *)

(** A binary64 value and its arithmetic. *)
Definition float : Type := spec_float.

Definition fadd : float -> float -> float := SFadd 53 1024.
Definition fmul : float -> float -> float := SFmul 53 1024.
Definition fdiv : float -> float -> float := SFdiv 53 1024.

(** The literal [0.0]. *)
Definition pos_zero : float := S754_zero false.

(** The float nearest to an integer (ties to even), infinite beyond the
    range of binary64. *)
Definition float_of_Z (z : Z) : float := binary_normalize 53 1024 z 0 false.

(** The conversion of an [int] operand of a float operation. *)
Definition float_of_int (z : Z) : result float :=
  match float_of_Z z with
  | S754_infinity _ => Raise OverflowError
  | f => Ok f
  end.

(** The float nearest to the quotient of two positive integers, with the
    sign [s]. *)
Definition float_of_ratio (s : bool) (num den : positive) : float :=
  let '(mz, ez, lz) := SFdiv_core_binary 53 1024 (Zpos num) 0 (Zpos den) 0 in
  binary_round_aux 53 1024 s mz ez lz.

(** [float(d)] on a decimal: the float nearest to its value. *)
Definition float_of_Q (q : Q) : float :=
  match Qnum q with
  | Z0 => pos_zero
  | Zpos p => float_of_ratio false p (Qden q)
  | Zneg p => float_of_ratio true p (Qden q)
  end.

(** [x / n] on a float and an int: the divisor is converted, then a zero
    divisor raises. *)
Definition truediv (x : float) (n : Z) : result float :=
  d <- float_of_int n ;;
  if n =? 0 then Raise ZeroDivisionError else Ok (fdiv x d).

(** Nearest integer, ties to even. *)
Definition round_half_even (x : Q) : Z :=
  let f := Qfloor x in
  match ((x - inject_Z f) ?= 1 # 2)%Q with
  | Lt => f
  | Gt => f + 1
  | Eq => if Z.even f then f else f + 1
  end.

(** The value [m * 2^e] of a finite float, sign apart. *)
Definition magnitude (m : positive) (e : Z) : Q :=
  match e with
  | Z0 => Zpos m # 1
  | Zpos p => (Zpos m * 2 ^ Zpos p) # 1
  | Zneg p => Zpos m # (2 ^ p)
  end.

(** [round(x, 2)]: the float nearest to the multiple of 1/100 nearest to
    the exact value of [x] (ties to even); zeros, infinities and NaN are
    returned as they are, and the sign is kept. *)
Definition py_round2 (x : float) : float :=
  match x with
  | S754_finite s m e =>
    match round_half_even (magnitude m e * 100) with
    | Zpos k => float_of_ratio s k 100
    | _ => S754_zero s
    end
  | _ => x
  end.

Definition str_Z (z : Z) : string := NilZero.string_of_int (Z.to_int z).

(** ** Pydantic models (request bodies) *)

Record Mahasiswa := {
  nim : string;
  nama : string;
  jurusan : string;
  angkatan : Z            (* Field(ge=2000, le=2100) *)
}.

Record MataKuliah := {
  kode_mk : string;
  nama_mk : string;
  sks : Z                 (* Field(ge=1, le=6) *)
}.

Record KRS := {
  krs_nim : string;
  krs_kode_mk : string;
  krs_nilai : option string;
  krs_semester : Z        (* Field(ge=1, le=14) *)
}.

Definition valid_Mahasiswa (m : Mahasiswa) : bool :=
  (2000 <=? angkatan m) && (angkatan m <=? 2100).

Definition valid_MataKuliah (mk : MataKuliah) : bool :=
  (1 <=? sks mk) && (sks mk <=? 6).

Definition valid_KRS (k : KRS) : bool :=
  (1 <=? krs_semester k) && (krs_semester k <=? 14).

(** ** The record store *)

(** A row of table [krs]: the request's columns and the generated [id_krs]. *)
Record krs_row := {
  id_krs : Z;
  k_nim : string;
  k_kode_mk : string;
  k_nilai : option string;
  k_semester : Z
}.

(** A row of the grade weight table [bobot_nilai]: the weight is a (finite)
    decimal number, which the driver hands over as such. *)
Record bobot_nilai_row := {
  bn_nilai : string;
  bn_bobot : Q
}.

(** Modelled from the spec: the relational schema (the SQL that creates the
    tables is not part of the sources).  Three entity tables, the read-only
    grade weight table, and the sequence behind the "generated sequential
    identifier" of an enrollment.  Uniqueness and referential constraints
    are not built into the type: they are the invariant [wf] below, which the
    handlers' own checks maintain. *)
Record database := {
  mahasiswa : list Mahasiswa;
  mata_kuliah : list MataKuliah;
  krs : list krs_row;
  bobot_nilai : list bobot_nilai_row;
  krs_id_seq : Z
}.

(** The order in which the database delivers the rows of a [SELECT]: for a
    result of [n] rows, a rearrangement of their positions. *)
Record engine : Type := {
  order : nat -> list nat;
  order_perm : forall n, Permutation (order n) (seq 0 n)
}.

Definition arrange {A} (e : engine) (rows : list A) : list A :=
  flat_map (fun i => match nth_error rows i with
                     | Some r => [r]
                     | None => []
                     end)
           (order e (List.length rows)).

(** A query parameter, as handed to [cursor.execute]. *)
Inductive param : Type :=
| PStr (s : string)
| PInt (z : Z)
| PNone.

Definition param_of_option (o : option string) : param :=
  match o with
  | Some s => PStr s
  | None => PNone
  end.

Fixpoint has_nul (s : string) : bool :=
  match s with
  | EmptyString => false
  | String c s' => Ascii.eqb c Ascii.zero || has_nul s'
  end.

Definition adaptable (p : param) : bool :=
  match p with
  | PStr s => negb (has_nul s)
  | _ => true
  end.

(** What [cursor.execute(query, params)] does before the query reaches the
    database: the driver quotes the parameters and refuses a string that
    contains a NUL character. *)
Definition nul_refused : exception :=
  ValueError "A string literal cannot contain NUL (0x00) characters.".

Definition adapt (params : list param) : result unit :=
  if forallb adaptable params then Ok tt else Raise nul_refused.

Definition fetchone {A} (rows : list A) : option A := hd_error rows.

(** [SELECT * FROM mahasiswa WHERE nim = %s] *)
Definition select_mahasiswa (db : database) (n : string) : list Mahasiswa :=
  filter (fun m => String.eqb (nim m) n) (mahasiswa db).

(** [SELECT kode_mk FROM mata_kuliah WHERE kode_mk = %s] *)
Definition select_mata_kuliah (db : database) (c : string) : list MataKuliah :=
  filter (fun mk => String.eqb (kode_mk mk) c) (mata_kuliah db).

(** [SELECT id_krs FROM krs WHERE nim = %s AND kode_mk = %s AND semester = %s] *)
Definition select_krs (db : database) (n c : string) (s : Z) : list krs_row :=
  filter (fun k => String.eqb (k_nim k) n && String.eqb (k_kode_mk k) c
                   && (k_semester k =? s))
         (krs db).

(** [LEFT JOIN bobot_nilai bn ON k.nilai = bn.nilai]: the weights matching a
    grade, or one NULL when none matches (a NULL grade matches nothing). *)
Definition nilai_matches (g : option string) (bn : bobot_nilai_row) : bool :=
  match g with
  | Some s => String.eqb s (bn_nilai bn)
  | None => false
  end.

Definition left_join_bobot (db : database) (g : option string) : list (option Q) :=
  match filter (nilai_matches g) (bobot_nilai db) with
  | [] => [None]
  | ms => map (fun bn => Some (bn_bobot bn)) ms
  end.

(** [JOIN mata_kuliah mk ON k.kode_mk = mk.kode_mk] *)
Definition join_mata_kuliah (db : database) (k : krs_row) : list MataKuliah :=
  filter (fun mk => String.eqb (k_kode_mk k) (kode_mk mk)) (mata_kuliah db).

(** A row of the two grade-point queries
    ([k.semester, k.kode_mk, mk.nama_mk, mk.sks, k.nilai, bn.bobot]; the
    semester query does not select the first column). *)
Record nilai_row := {
  r_semester : Z;
  r_kode_mk : string;
  r_nama_mk : string;
  r_sks : Z;
  r_nilai : option string;
  r_bobot : option Q
}.

Definition joined (db : database) (k : krs_row) : list nilai_row :=
  flat_map (fun mk =>
    map (fun b => {| r_semester := k_semester k; r_kode_mk := k_kode_mk k;
                     r_nama_mk := nama_mk mk; r_sks := sks mk;
                     r_nilai := k_nilai k; r_bobot := b |})
        (left_join_bobot db (k_nilai k)))
    (join_mata_kuliah db k).

(** The rows of the semester query, [... WHERE k.nim = %s AND k.semester = %s],
    and of the cumulative query, [... WHERE k.nim = %s]. *)
Definition rows_ips (db : database) (n : string) (s : Z) : list nilai_row :=
  flat_map (joined db)
    (filter (fun k => String.eqb (k_nim k) n && (k_semester k =? s)) (krs db)).

Definition rows_ipk (db : database) (n : string) : list nilai_row :=
  flat_map (joined db) (filter (fun k => String.eqb (k_nim k) n) (krs db)).

(** The semester query has no [ORDER BY]: its rows come as the engine
    delivers them. *)
Definition query_ips (e : engine) (db : database) (n : string) (s : Z) : list nilai_row :=
  arrange e (rows_ips db n s).

(** [ORDER BY] on an integer key: a stable insertion sort of the delivered
    rows, so that rows with equal keys stay in the engine's order. *)
Fixpoint insert_by {A} (key : A -> Z) (x : A) (l : list A) : list A :=
  match l with
  | [] => [x]
  | y :: l' => if key x <=? key y then x :: l else y :: insert_by key x l'
  end.

Definition sort_by {A} (key : A -> Z) (l : list A) : list A :=
  fold_right (insert_by key) [] l.

(** The cumulative query: [... WHERE k.nim = %s ORDER BY k.semester]. *)
Definition query_ipk (e : engine) (db : database) (n : string) : list nilai_row :=
  sort_by r_semester (arrange e (rows_ipk db n)).

(** ** Grade-point engine *)

(** [float(row[i]) if row[i] else 0.0]: NULL and a zero weight are both falsy. *)
Definition bobot_of (b : option Q) : float :=
  match b with
  | Some q => if Qeq_bool q 0 then pos_zero else float_of_Q q
  | None => pos_zero
  end.

(** An element of the ["mata_kuliah"] list of the semester report. *)
Record mk_entry := {
  e_kode_mk : string;
  e_nama_mk : string;
  e_sks : Z;
  e_nilai : option string;
  e_bobot : float;
  e_mutu : float
}.

(** The loop variables of [hitung_ips]. *)
Record ips_acc := {
  acc_total_mutu : float;
  acc_total_sks : Z;
  acc_mata_kuliah_list : list mk_entry
}.

Definition ips_init : ips_acc :=
  {| acc_total_mutu := pos_zero; acc_total_sks := 0; acc_mata_kuliah_list := [] |}.

(** One iteration of [for row in rows] in [hitung_ips]. *)
Definition ips_step (a : ips_acc) (row : nilai_row) : result ips_acc :=
  let bobot := bobot_of (r_bobot row) in
  sks_ <- float_of_int (r_sks row) ;;
  let mutu := fmul bobot sks_ in
  Ok {| acc_total_mutu := fadd (acc_total_mutu a) mutu;
        acc_total_sks := acc_total_sks a + r_sks row;
        acc_mata_kuliah_list :=
          acc_mata_kuliah_list a ++
          [{| e_kode_mk := r_kode_mk row; e_nama_mk := r_nama_mk row;
              e_sks := r_sks row; e_nilai := r_nilai row;
              e_bobot := bobot; e_mutu := mutu |}] |}.

Definition ips_loop (rows : list nilai_row) : result ips_acc :=
  for_each ips_step rows ips_init.

(** [total_mutu / total_sks if total_sks > 0 else 0.0] *)
Definition guarded_div (total_mutu : float) (total_sks : Z) : result float :=
  if total_sks >? 0 then truediv total_mutu total_sks else Ok pos_zero.

Record ips_report := {
  ips_nim : string;
  ips_nama : string;
  ips_semester : Z;
  ips_mata_kuliah : list mk_entry;
  ips_total_sks : Z;
  ips_total_mutu : float;
  ips : float
}.

Definition not_found {A} (d : string) : result A := Raise (HTTPException 404 d).

(** The [try] block of [hitung_ips(nim, semester)]. *)
Definition hitung_ips_try (e : engine) (db : database) (n : string) (semester : Z)
  : result ips_report :=
  _ <- adapt [PStr n] ;;
  match fetchone (arrange e (select_mahasiswa db n)) with
  | None => not_found "Mahasiswa tidak ditemukan"
  | Some mhs =>
    _ <- adapt [PStr n; PInt semester] ;;
    let rows := query_ips e db n semester in
    match rows with
    | [] => not_found ("Tidak ada data nilai untuk mahasiswa " ++ n
                         ++ " di semester " ++ str_Z semester)
    | _ =>
      a <- ips_loop rows ;;
      v <- guarded_div (acc_total_mutu a) (acc_total_sks a) ;;
      Ok {| ips_nim := n; ips_nama := nama mhs; ips_semester := semester;
            ips_mata_kuliah := acc_mata_kuliah_list a;
            ips_total_sks := acc_total_sks a;
            ips_total_mutu := py_round2 (acc_total_mutu a);
            ips := py_round2 v |}
    end
  end.

(** The handler [hitung_ips(nim, semester)]. *)
Definition hitung_ips (e : engine) (db : database) (n : string) (semester : Z)
  : result ips_report :=
  except_500 (hitung_ips_try e db n semester).

(** The endpoint [GET /api/acad/ips/{nim}?semester=]: the declaration
    [semester: int = Query(..., ge=1)] is checked before the handler runs. *)
Definition get_ips (e : engine) (db : database) (n : string) (semester : Z)
  : result ips_report :=
  if semester <? 1
  then Raise (HTTPException 422 "Input should be greater than or equal to 1")
  else hitung_ips e db n semester.

(** A value of the dict [per_semester]. *)
Record sem_entry := {
  s_semester : Z;
  s_total_sks : Z;
  s_total_mutu : float;
  s_ips : float
}.

(** The dict [per_semester], keys in insertion order. *)
Definition per_semester_dict := list (Z * sem_entry).

Fixpoint dict_mem (s : Z) (d : per_semester_dict) : bool :=
  match d with
  | [] => false
  | (k, _) :: d' => (k =? s) || dict_mem s d'
  end.

(** [d[s] = f(d[s])] on a key that is present. *)
Fixpoint dict_update (s : Z) (f : sem_entry -> sem_entry) (d : per_semester_dict)
  : per_semester_dict :=
  match d with
  | [] => []
  | (k, e) :: d' => if k =? s then (k, f e) :: d' else (k, e) :: dict_update s f d'
  end.

Definition dict_values (d : per_semester_dict) : list sem_entry := map snd d.

(** The loop variables of the first loop of [hitung_ipk]. *)
Record ipk_acc := {
  acc_total_mutu_kumulatif : float;
  acc_total_sks_kumulatif : Z;
  acc_per_semester : per_semester_dict
}.

Definition ipk_init : ipk_acc :=
  {| acc_total_mutu_kumulatif := pos_zero; acc_total_sks_kumulatif := 0;
     acc_per_semester := [] |}.

Definition sem_fresh (semester : Z) : sem_entry :=
  {| s_semester := semester; s_total_sks := 0; s_total_mutu := pos_zero;
     s_ips := pos_zero |}.

Definition sem_add (sks_ : Z) (mutu : float) (e : sem_entry) : sem_entry :=
  {| s_semester := s_semester e; s_total_sks := s_total_sks e + sks_;
     s_total_mutu := fadd (s_total_mutu e) mutu; s_ips := s_ips e |}.

(** One iteration of the first loop of [hitung_ipk]. *)
Definition ipk_step (a : ipk_acc) (row : nilai_row) : result ipk_acc :=
  let semester := r_semester row in
  let bobot := bobot_of (r_bobot row) in
  sks_ <- float_of_int (r_sks row) ;;
  let mutu := fmul bobot sks_ in
  let d := if dict_mem semester (acc_per_semester a)
           then acc_per_semester a
           else acc_per_semester a ++ [(semester, sem_fresh semester)] in
  Ok {| acc_total_mutu_kumulatif := fadd (acc_total_mutu_kumulatif a) mutu;
        acc_total_sks_kumulatif := acc_total_sks_kumulatif a + r_sks row;
        acc_per_semester := dict_update semester (sem_add (r_sks row) mutu) d |}.

Definition ipk_loop (rows : list nilai_row) : result ipk_acc :=
  for_each ipk_step rows ipk_init.

(** The body of the second loop: the term average from the unrounded term
    totals, then the total rounded in place. *)
Definition sem_finish (e : sem_entry) : result sem_entry :=
  let total_sks := s_total_sks e in
  let total_mutu := s_total_mutu e in
  v <- guarded_div total_mutu total_sks ;;
  Ok {| s_semester := s_semester e; s_total_sks := total_sks;
        s_total_mutu := py_round2 total_mutu; s_ips := py_round2 v |}.

(** [for semester in per_semester: ...] *)
Fixpoint finish_all (d : per_semester_dict) : result per_semester_dict :=
  match d with
  | [] => Ok []
  | (k, e) :: d' =>
    e' <- sem_finish e ;;
    d'' <- finish_all d' ;;
    Ok ((k, e') :: d'')
  end.

Record ipk_report := {
  ipk_nim : string;
  ipk_nama : string;
  ipk_jurusan : string;
  ipk_angkatan : Z;
  total_sks_kumulatif : Z;
  total_mutu_kumulatif : float;
  ipk : float;
  detail_per_semester : list sem_entry
}.

(** The [try] block of [hitung_ipk(nim)]. *)
Definition hitung_ipk_try (e : engine) (db : database) (n : string) : result ipk_report :=
  _ <- adapt [PStr n] ;;
  match fetchone (arrange e (select_mahasiswa db n)) with
  | None => not_found "Mahasiswa tidak ditemukan"
  | Some mhs =>
    _ <- adapt [PStr n] ;;
    let rows := query_ipk e db n in
    match rows with
    | [] => not_found ("Tidak ada data nilai untuk mahasiswa " ++ n)
    | _ =>
      a <- ipk_loop rows ;;
      d <- finish_all (acc_per_semester a) ;;
      v <- guarded_div (acc_total_mutu_kumulatif a) (acc_total_sks_kumulatif a) ;;
      Ok {| ipk_nim := n; ipk_nama := nama mhs; ipk_jurusan := jurusan mhs;
            ipk_angkatan := angkatan mhs;
            total_sks_kumulatif := acc_total_sks_kumulatif a;
            total_mutu_kumulatif := py_round2 (acc_total_mutu_kumulatif a);
            ipk := py_round2 v;
            detail_per_semester := sort_by s_semester (dict_values d) |}
    end
  end.

(** The handler [hitung_ipk(nim)]. *)
Definition hitung_ipk (e : engine) (db : database) (n : string) : result ipk_report :=
  except_500 (hitung_ipk_try e db n).

(** ** Admission gate *)

(** A decoded JSON value (the result of [response.json()]); a dict is the
    list of its items. *)
#[warnings="-register-all"]
Inductive json : Type :=
| JNull
| JBool (b : bool)
| JInt (z : Z)
| JFloat (f : float)
| JStr (s : string)
| JArr (items : list json)
| JObj (fields : list (string * json)).

(** Python truthiness of a decoded value. *)
Definition truthy (j : json) : bool :=
  match j with
  | JNull => false
  | JBool b => b
  | JInt z => negb (z =? 0)
  | JFloat f => match f with S754_zero _ => false | _ => true end
  | JStr s => negb (String.eqb s "")
  | JArr l => match l with [] => false | _ => true end
  | JObj l => match l with [] => false | _ => true end
  end.

Definition type_name (j : json) : string :=
  match j with
  | JNull => "NoneType"
  | JBool _ => "bool"
  | JInt _ => "int"
  | JFloat _ => "float"
  | JStr _ => "str"
  | JArr _ => "list"
  | JObj _ => "dict"
  end.

Fixpoint assoc (key : string) (l : list (string * json)) : option json :=
  match l with
  | [] => None
  | (k, v) :: l' => if String.eqb k key then Some v else assoc key l'
  end.

(** [j.get(key)]: only a dict has the method; [None] is the default. *)
Definition json_get (j : json) (key : string) : result json :=
  match j with
  | JObj l => Ok (match assoc key l with Some v => v | None => JNull end)
  | _ => Raise (AttributeError ("'" ++ type_name j ++ "' object has no attribute 'get'"))
  end.

Definition is_admin_role (j : json) : bool :=
  match j with
  | JStr s => String.eqb s "admin"
  | _ => false
  end.

(** The body of a response: a JSON document, or anything else, for which
    [response.json()] raises with the message [err]. *)
Inductive response_body : Type :=
| Json (j : json)
| NotJson (err : string).

(** What the authority does with a request that reaches it: the external
    service is an input of the model. *)
Inductive authority : Type :=
| Unreachable (msg : string)   (* httpx.RequestError: no connection, timeout, broken answer *)
| Responds (status : Z) (body : response_body).

(** The characters of a header value the client cannot encode. *)
Definition non_ascii (c : ascii) : bool :=
  match c with
  | Ascii _ _ _ _ _ _ _ b7 => b7
  end.

Fixpoint ascii_only (s : string) : bool :=
  match s with
  | EmptyString => true
  | String c s' => negb (non_ascii c) && ascii_only s'
  end.

Definition hex_digit (n : N) : ascii :=
  match n with
  | 0%N => "0" | 1%N => "1" | 2%N => "2" | 3%N => "3" | 4%N => "4"
  | 5%N => "5" | 6%N => "6" | 7%N => "7" | 8%N => "8" | 9%N => "9"
  | 10%N => "a" | 11%N => "b" | 12%N => "c" | 13%N => "d" | 14%N => "e"
  | _ => "f"
  end%char.

Definition hex2 (c : ascii) : string :=
  String (hex_digit (N_of_ascii c / 16)) (String (hex_digit (N_of_ascii c mod 16)) "").

(** The number of characters at the head of [s] that are not ASCII. *)
Fixpoint run_length (s : string) : nat :=
  match s with
  | EmptyString => O
  | String c s' => if non_ascii c then S (run_length s') else O
  end.

(** [str(e)] of the error [value.encode("ascii")] raises, [i] being the
    position reached. *)
Fixpoint encode_error (s : string) (i : nat) : string :=
  match s with
  | EmptyString => ""
  | String c s' =>
    if non_ascii c then
      match run_length s' with
      | O => "'ascii' codec can't encode character '\x" ++ hex2 c ++ "' in position "
               ++ str_Z (Z.of_nat i) ++ ": ordinal not in range(128)"
      | S k => "'ascii' codec can't encode characters in position "
                 ++ str_Z (Z.of_nat i) ++ "-" ++ str_Z (Z.of_nat (i + S k))
                 ++ ": ordinal not in range(128)"
      end
    else encode_error s' (S i)
  end.

(** The header values the client's HTTP layer sends ([field-value] of h11):
    no NUL and no whitespace other than space and tab, and neither a leading
    nor a trailing space or tab. *)
Definition is_break (c : ascii) : bool :=
  match N_of_ascii c with
  | 0%N | 10%N | 11%N | 12%N | 13%N => true
  | _ => false
  end.

Definition is_blank (c : ascii) : bool :=
  match N_of_ascii c with
  | 9%N | 32%N => true
  | _ => false
  end.

Fixpoint has_break (s : string) : bool :=
  match s with
  | EmptyString => false
  | String c s' => is_break c || has_break s'
  end.

Definition starts_blank (s : string) : bool :=
  match s with
  | EmptyString => false
  | String c _ => is_blank c
  end.

Fixpoint ends_blank (s : string) : bool :=
  match s with
  | EmptyString => false
  | String c EmptyString => is_blank c
  | String _ s' => ends_blank s'
  end.

Definition field_value (s : string) : bool :=
  negb (has_break s) && negb (starts_blank s) && negb (ends_blank s).

(** [client.post(AUTH_SERVICE_URL/api/auth/verify,
                 headers={"Authorization": authorization}, timeout=5.0)]:
    the client encodes the header value as ASCII when it builds the request,
    before it contacts the authority; on the connection it refuses to send a
    header value that is not a [field_value] ([LocalProtocolError], an
    [httpx.RequestError]). *)
Definition client_post (authorization : string) (auth : authority)
  : result (Z * response_body) :=
  if ascii_only authorization then
    match auth with
    | Unreachable m => Raise (RequestError m)
    | Responds status body =>
      if field_value authorization then Ok (status, body)
      else Raise (RequestError "Illegal header value")
    end
  else Raise (UnicodeEncodeError (encode_error authorization 0)).

(** [response.json()] *)
Definition response_json (body : response_body) : result json :=
  match body with
  | Json j => Ok j
  | NotJson err => Raise (JSONDecodeError err)
  end.

(** The [try] block of [verify_admin]. *)
Definition verify_admin_try (authorization : string) (auth : authority) : result json :=
  response <- client_post authorization auth ;;
  if negb (fst response =? 200) then Raise (HTTPException 401 "Invalid token")
  else
    data <- response_json (snd response) ;;
    user <- json_get data "user" ;;
    if negb (truthy user) then Raise (HTTPException 403 "Access denied. Admin only.")
    else
      role <- json_get user "role" ;;
      if negb (is_admin_role role)
      then Raise (HTTPException 403 "Access denied. Admin only.")
      else Ok user.

(** The [except] clauses of [verify_admin], in their order. *)
Definition verify_admin_except (r : result json) : result json :=
  match r with
  | Ok u => Ok u
  | Raise (RequestError _) => Raise (HTTPException 503 "Auth service unavailable")
  | Raise (HTTPException c d) => Raise (HTTPException c d)
  | Raise e => Raise (HTTPException 401 (str_exc e))
  end.

(** [verify_admin(authorization)]: a missing or empty header is falsy. *)
Definition verify_admin (authorization : option string) (auth : authority) : result json :=
  match authorization with
  | None => Raise (HTTPException 401 "No authorization header")
  | Some h =>
    if String.eqb h "" then Raise (HTTPException 401 "No authorization header")
    else verify_admin_except (verify_admin_try h auth)
  end.

(** ** Mutating handlers *)

(** A unit of work on the store: the body's result and the store it leaves. *)
Definition txn (A : Type) : Type := database -> result A * database.

(** [with get_db_connection() as conn]: commit when the body returns,
    roll back when it raises. *)
Definition get_db_connection {A} (body : txn A) : txn A :=
  fun db =>
    match body db with
    | (Ok a, db') => (Ok a, db')
    | (Raise e, _) => (Raise e, db)
    end.

Definition tbind {A B} (m : txn A) (k : A -> txn B) : txn B :=
  fun db =>
    match m db with
    | (Ok a, db') => k a db'
    | (Raise e, db') => (Raise e, db')
    end.

Definition tret {A} (a : A) : txn A := fun db => (Ok a, db).
Definition traise {A} (e : exception) : txn A := fun db => (Raise e, db).

Notation "x <~ m ;; k" := (tbind m (fun x => k))
  (at level 61, m at next level, right associativity).

(** [cursor.execute(select, params)] followed by [cursor.fetchone()], of
    which the handlers below only test whether it is a row: no order of
    delivery changes that. *)
Definition execute_fetchone {A} (params : list param) (q : database -> list A)
  : txn (option A) :=
  fun db => (_ <- adapt params ;; Ok (fetchone (q db)), db).

(** [cursor.execute(insert, params)] followed by [cursor.fetchone()] on the
    [RETURNING] row. *)
Definition execute_insert {A} (params : list param) (ins : database -> A * database)
  : txn A :=
  fun db =>
    match adapt params with
    | Ok _ => let (row, db') := ins db in (Ok row, db')
    | Raise e => (Raise e, db)
    end.

Definition texcept_500 {A} (m : txn A) : txn A :=
  fun db => let (r, db') := m db in (except_500 r, db').

(** [INSERT INTO mahasiswa ... RETURNING ...] *)
Definition insert_mahasiswa (m : Mahasiswa) (db : database) : Mahasiswa * database :=
  (m, {| mahasiswa := mahasiswa db ++ [m]; mata_kuliah := mata_kuliah db;
         krs := krs db; bobot_nilai := bobot_nilai db;
         krs_id_seq := krs_id_seq db |}).

(** [INSERT INTO mata_kuliah ... RETURNING ...] *)
Definition insert_mata_kuliah (mk : MataKuliah) (db : database) : MataKuliah * database :=
  (mk, {| mahasiswa := mahasiswa db; mata_kuliah := mata_kuliah db ++ [mk];
          krs := krs db; bobot_nilai := bobot_nilai db;
          krs_id_seq := krs_id_seq db |}).

(** [INSERT INTO krs (nim, kode_mk, nilai, semester) ... RETURNING ...]:
    the identifier is the next value of the sequence. *)
Definition insert_krs (k : KRS) (db : database) : krs_row * database :=
  let row := {| id_krs := krs_id_seq db + 1; k_nim := krs_nim k;
                k_kode_mk := krs_kode_mk k; k_nilai := krs_nilai k;
                k_semester := krs_semester k |} in
  (row, {| mahasiswa := mahasiswa db; mata_kuliah := mata_kuliah db;
           krs := krs db ++ [row]; bobot_nilai := bobot_nilai db;
           krs_id_seq := krs_id_seq db + 1 |}).

(** The body of a 201 response. *)
Record created (A : Type) := {
  message : string;
  data : A;
  created_by : json       (* [admin.get('username')] *)
}.

Arguments message {A} _.
Arguments data {A} _.
Arguments created_by {A} _.

Definition admin_username (admin : json) : json :=
  match admin with
  | JObj l => match assoc "username" l with Some v => v | None => JNull end
  | _ => JNull
  end.

(** The handler [create_mahasiswa(mahasiswa, admin)]. *)
Definition create_mahasiswa (m : Mahasiswa) (admin : json) : txn (created Mahasiswa) :=
  texcept_500 (get_db_connection (
    found <~ execute_fetchone [PStr (nim m)] (fun db => select_mahasiswa db (nim m)) ;;
    match found with
    | Some _ => traise (HTTPException 400 "NIM sudah terdaftar")
    | None =>
      row <~ execute_insert
               [PStr (nim m); PStr (nama m); PStr (jurusan m); PInt (angkatan m)]
               (insert_mahasiswa m) ;;
      tret {| message := "Mahasiswa berhasil ditambahkan"; data := row;
              created_by := admin_username admin |}
    end)).

(** The handler [create_mata_kuliah(mata_kuliah, admin)]. *)
Definition create_mata_kuliah (mk : MataKuliah) (admin : json) : txn (created MataKuliah) :=
  texcept_500 (get_db_connection (
    found <~ execute_fetchone [PStr (kode_mk mk)]
               (fun db => select_mata_kuliah db (kode_mk mk)) ;;
    match found with
    | Some _ => traise (HTTPException 400 "Kode mata kuliah sudah ada")
    | None =>
      row <~ execute_insert [PStr (kode_mk mk); PStr (nama_mk mk); PInt (sks mk)]
               (insert_mata_kuliah mk) ;;
      tret {| message := "Mata kuliah berhasil ditambahkan"; data := row;
              created_by := admin_username admin |}
    end)).

(** The handler [create_nilai(krs, admin)]. *)
Definition create_nilai (k : KRS) (admin : json) : txn (created krs_row) :=
  texcept_500 (get_db_connection (
    m <~ execute_fetchone [PStr (krs_nim k)]
           (fun db => select_mahasiswa db (krs_nim k)) ;;
    match m with
    | None => traise (HTTPException 404 "Mahasiswa tidak ditemukan")
    | Some _ =>
      c <~ execute_fetchone [PStr (krs_kode_mk k)]
             (fun db => select_mata_kuliah db (krs_kode_mk k)) ;;
      match c with
      | None => traise (HTTPException 404 "Mata kuliah tidak ditemukan")
      | Some _ =>
        dup <~ execute_fetchone
                 [PStr (krs_nim k); PStr (krs_kode_mk k); PInt (krs_semester k)]
                 (fun db => select_krs db (krs_nim k) (krs_kode_mk k) (krs_semester k)) ;;
        match dup with
        | Some _ =>
          traise (HTTPException 400
                    "Mahasiswa sudah mengambil mata kuliah ini di semester yang sama")
        | None =>
          row <~ execute_insert
                   [PStr (krs_nim k); PStr (krs_kode_mk k);
                    param_of_option (krs_nilai k); PInt (krs_semester k)]
                   (insert_krs k) ;;
          tret {| message := "Nilai/KRS berhasil ditambahkan"; data := row;
                  created_by := admin_username admin |}
        end
      end
    end)).

(** A POST endpoint: the dependency [Depends(verify_admin)] runs first, then
    the declared field ranges of the body are checked, then the handler. *)
Definition post {B A} (valid : B -> bool) (handler : B -> json -> txn A)
  (authorization : option string) (auth : authority) (body : B) : txn A :=
  fun db =>
    match verify_admin authorization auth with
    | Raise e => (Raise e, db)
    | Ok admin =>
      if valid body then handler body admin db
      else (Raise (HTTPException 422 "Input out of the declared range"), db)
    end.

Definition post_mahasiswa := post valid_Mahasiswa create_mahasiswa.
Definition post_mata_kuliah := post valid_MataKuliah create_mata_kuliah.
Definition post_nilai := post valid_KRS create_nilai.

(** ** Listing handlers *)

(** [ORDER BY] on a list of columns: a stable insertion sort of the
    delivered rows under the order [le] of the sort key. *)
Fixpoint insert_le {A} (le : A -> A -> bool) (x : A) (l : list A) : list A :=
  match l with
  | [] => [x]
  | y :: l' => if le x y then x :: l else y :: insert_le le x l'
  end.

Definition sort_le {A} (le : A -> A -> bool) (l : list A) : list A :=
  fold_right (insert_le le) [] l.

Definition not_gt (c : comparison) : bool :=
  match c with
  | Gt => false
  | _ => true
  end.

(** The listing handlers' only clause, [except Exception as e: raise
    HTTPException(500, str(e))]. *)
Definition except_all_500 {A} (r : result A) : result A :=
  match r with
  | Ok a => Ok a
  | Raise e => Raise (HTTPException 500 (str_exc e))
  end.

(** The handler [get_mahasiswas()]: [SELECT * FROM mahasiswa ORDER BY nim].
    The order of text values is the database's collation, which the sources
    do not fix: it is the parameter [collate]. *)
Definition get_mahasiswas (e : engine) (collate : string -> string -> comparison)
  (db : database) : result (list Mahasiswa) :=
  except_all_500
    (Ok (sort_le (fun a b => not_gt (collate (nim a) (nim b)))
                 (arrange e (mahasiswa db)))).

(** The handler [get_mata_kuliah()]: [SELECT * FROM mata_kuliah ORDER BY kode_mk]. *)
Definition get_mata_kuliah (e : engine) (collate : string -> string -> comparison)
  (db : database) : result (list MataKuliah) :=
  except_all_500
    (Ok (sort_le (fun a b => not_gt (collate (kode_mk a) (kode_mk b)))
                 (arrange e (mata_kuliah db)))).

(** A row of the query of [get_nilai]:
    [k.id_krs, k.nim, m.nama, mk.kode_mk, mk.nama_mk, mk.sks, k.nilai,
     k.semester, bn.bobot]. *)
Record krs_join_row := {
  j_id_krs : Z;
  j_nim : string;
  j_nama : string;
  j_kode_mk : string;
  j_nama_mk : string;
  j_sks : Z;
  j_nilai : option string;
  j_semester : Z;
  j_bobot : option Q
}.

(** An element of the list [get_nilai] returns. *)
Record nilai_record := {
  n_id_krs : Z;
  n_nim : string;
  n_nama_mahasiswa : string;
  n_kode_mk : string;
  n_nama_mk : string;
  n_sks : Z;
  n_nilai : option string;
  n_semester : Z;
  n_bobot : float
}.

(** [if nim: query += " AND k.nim = %s"]: an absent or empty value adds no
    condition. *)
Definition nim_condition (n : option string) (k : krs_row) : bool :=
  match n with
  | None => true
  | Some s => if String.eqb s "" then true else String.eqb (k_nim k) s
  end.

(** [if semester: query += " AND k.semester = %s"]: an absent or zero value
    adds no condition. *)
Definition semester_condition (s : option Z) (k : krs_row) : bool :=
  match s with
  | None => true
  | Some z => if z =? 0 then true else k_semester k =? z
  end.

(** The list [params] the two conditions build. *)
Definition nilai_params (n : option string) (s : option Z) : list param :=
  match n with
  | None => []
  | Some x => if String.eqb x "" then [] else [PStr x]
  end ++
  match s with
  | None => []
  | Some z => if z =? 0 then [] else [PInt z]
  end.

(** [JOIN mahasiswa m ON k.nim = m.nim] *)
Definition join_mahasiswa (db : database) (k : krs_row) : list Mahasiswa :=
  filter (fun m => String.eqb (k_nim k) (nim m)) (mahasiswa db).

(** The rows the three joins give for one enrollment. *)
Definition joined_nilai (db : database) (k : krs_row) : list krs_join_row :=
  flat_map (fun m =>
    flat_map (fun mk =>
      map (fun b => {| j_id_krs := id_krs k; j_nim := k_nim k; j_nama := nama m;
                       j_kode_mk := kode_mk mk; j_nama_mk := nama_mk mk;
                       j_sks := sks mk; j_nilai := k_nilai k;
                       j_semester := k_semester k; j_bobot := b |})
          (left_join_bobot db (k_nilai k)))
      (join_mata_kuliah db k))
    (join_mahasiswa db k).

(** [ORDER BY k.nim, k.semester, mk.kode_mk] *)
Definition nilai_order (collate : string -> string -> comparison)
  (a b : krs_join_row) : bool :=
  match collate (j_nim a) (j_nim b) with
  | Lt => true
  | Gt => false
  | Eq =>
    match j_semester a ?= j_semester b with
    | Lt => true
    | Gt => false
    | Eq => not_gt (collate (j_kode_mk a) (j_kode_mk b))
    end
  end.

Definition rows_nilai (db : database) (n : option string) (s : option Z)
  : list krs_join_row :=
  flat_map (joined_nilai db)
    (filter (fun k => nim_condition n k && semester_condition s k) (krs db)).

Definition query_nilai (e : engine) (collate : string -> string -> comparison)
  (db : database) (n : option string) (s : option Z) : list krs_join_row :=
  sort_le (nilai_order collate) (arrange e (rows_nilai db n s)).

Definition nilai_record_of (row : krs_join_row) : nilai_record :=
  {| n_id_krs := j_id_krs row; n_nim := j_nim row; n_nama_mahasiswa := j_nama row;
     n_kode_mk := j_kode_mk row; n_nama_mk := j_nama_mk row; n_sks := j_sks row;
     n_nilai := j_nilai row; n_semester := j_semester row;
     n_bobot := bobot_of (j_bobot row) |}.

(** The handler [get_nilai(nim, semester)]. *)
Definition get_nilai (e : engine) (collate : string -> string -> comparison)
  (db : database) (n : option string) (s : option Z) : result (list nilai_record) :=
  except_all_500
    (_ <- adapt (nilai_params n s) ;;
     Ok (map nilai_record_of (query_nilai e collate db n s))).

(** A request to one of the three POST endpoints, and the store it leaves. *)
Inductive post_request : Type :=
| PostMahasiswa (authorization : option string) (auth : authority) (m : Mahasiswa)
| PostMataKuliah (authorization : option string) (auth : authority) (mk : MataKuliah)
| PostNilai (authorization : option string) (auth : authority) (k : KRS).

Definition serve (db : database) (rq : post_request) : database :=
  match rq with
  | PostMahasiswa a auth m => snd (post_mahasiswa a auth m db)
  | PostMataKuliah a auth mk => snd (post_mata_kuliah a auth mk db)
  | PostNilai a auth k => snd (post_nilai a auth k db)
  end.

(** The store after a sequence of POST requests, served one after another. *)
Definition serve_all (db : database) (rqs : list post_request) : database :=
  fold_left serve rqs db.

(** * Specification-level definitions and example stores *)

(** ** The specification's reading of the store *)

(** The student, the course, the (student, course, term) triple is on record. *)
Definition student_known (db : database) (n : string) : Prop :=
  In n (map nim (mahasiswa db)).

Definition course_known (db : database) (c : string) : Prop :=
  In c (map kode_mk (mata_kuliah db)).

Definition enrolled (db : database) (n c : string) (s : Z) : Prop :=
  exists k, In k (krs db) /\ k_nim k = n /\ k_kode_mk k = c /\ k_semester k = s.

(** The invariants of the data model: identifiers are unique, the grade
    weight table is a mapping with weights on the 0.0-4.0 scale, an
    enrollment references an existing student and course within a term
    1-14, no two enrollments share a (student, course, term) triple,
    credit-weights are within 1-6, and no stored text holds a NUL character
    (which the database cannot store). *)
Record wf (db : database) : Prop := {
  wf_nim_unique : NoDup (map nim (mahasiswa db));
  wf_kode_unique : NoDup (map kode_mk (mata_kuliah db));
  wf_nilai_unique : NoDup (map bn_nilai (bobot_nilai db));
  wf_triple_unique :
    NoDup (map (fun k => (k_nim k, k_kode_mk k, k_semester k)) (krs db));
  wf_krs_student : forall k, In k (krs db) -> student_known db (k_nim k);
  wf_krs_course : forall k, In k (krs db) -> course_known db (k_kode_mk k);
  wf_krs_term : forall k, In k (krs db) -> 1 <= k_semester k <= 14;
  wf_sks : forall mk, In mk (mata_kuliah db) -> 1 <= sks mk <= 6;
  wf_bobot : forall bn, In bn (bobot_nilai db) -> (0 <= bn_bobot bn <= 4)%Q;
  wf_text_mahasiswa :
    forall m, In m (mahasiswa db) ->
      has_nul (nim m) = false /\ has_nul (nama m) = false /\ has_nul (jurusan m) = false;
  wf_text_mata_kuliah :
    forall mk, In mk (mata_kuliah db) ->
      has_nul (kode_mk mk) = false /\ has_nul (nama_mk mk) = false;
  wf_text_krs :
    forall k, In k (krs db) -> adaptable (param_of_option (k_nilai k)) = true
}.

(** The weight of a grade: the table's entry as a float, 0.0 for an absent
    grade or a grade the table does not list. *)
Definition spec_weight (db : database) (g : option string) : float :=
  match g with
  | None => pos_zero
  | Some s =>
    match find (fun bn => String.eqb s (bn_nilai bn)) (bobot_nilai db) with
    | Some bn => float_of_Q (bn_bobot bn)
    | None => pos_zero
    end
  end.

(** The credit-weight of a course. *)
Definition spec_credit (db : database) (c : string) : Z :=
  match find (fun mk => String.eqb c (kode_mk mk)) (mata_kuliah db) with
  | Some mk => sks mk
  | None => 0
  end.

(** The enrollments of a student in a term, and in all terms. *)
Definition term_enrollments (db : database) (n : string) (s : Z) : list krs_row :=
  filter (fun k => String.eqb (k_nim k) n && (k_semester k =? s)) (krs db).

Definition all_enrollments (db : database) (n : string) : list krs_row :=
  filter (fun k => String.eqb (k_nim k) n) (krs db).

(** The same enrollments in the order in which the semester query and the
    cumulative query deliver them. *)
Definition delivered_ips (e : engine) (db : database) (n : string) (s : Z) : list krs_row :=
  arrange e (term_enrollments db n s).

Definition delivered_ipk (e : engine) (db : database) (n : string) : list krs_row :=
  sort_by k_semester (arrange e (all_enrollments db n)).

(** The enrollments of one term in the order in which the cumulative query
    delivers them. *)
Definition delivered_term (e : engine) (db : database) (n : string) (s : Z)
  : list krs_row :=
  filter (fun k => k_semester k =? s) (arrange e (all_enrollments db n)).

(** The sum of a list of integers; the sum of a list of floats, added from
    left to right onto 0.0. *)
Definition sumZ (l : list Z) : Z := fold_right Z.add 0 l.
Definition fsum (l : list float) : float := fold_left fadd l pos_zero.

(** Quality points of one enrollment: weight(grade) x credit-weight. *)
Definition spec_quality (db : database) (k : krs_row) : float :=
  fmul (spec_weight db (k_nilai k)) (float_of_Z (spec_credit db (k_kode_mk k))).

Definition spec_total_credit (db : database) (ks : list krs_row) : Z :=
  sumZ (map (fun k => spec_credit db (k_kode_mk k)) ks).

Definition spec_total_quality (db : database) (ks : list krs_row) : float :=
  fsum (map (spec_quality db) ks).

(** The grade point average over a list of enrollments, before rounding. *)
Definition spec_gpa (db : database) (ks : list krs_row) : float :=
  fdiv (spec_total_quality db ks) (float_of_Z (spec_total_credit db ks)).

(** The grade is absent, or the weight table has no entry for it. *)
Definition ungraded (db : database) (k : krs_row) : Prop :=
  k_nilai k = None \/
  exists g, k_nilai k = Some g /\ ~ In g (map bn_nilai (bobot_nilai db)).


(** The mean of the per-term GPAs of a cumulative report. *)
Definition mean_of_term_gpas (r : ipk_report) : float :=
  fdiv (fsum (map s_ips (detail_per_semester r)))
       (float_of_Z (Z.of_nat (List.length (detail_per_semester r)))).

(** The total a computation would reach that rounded every quality-point
    value before adding it. *)
Definition total_of_rounded_mutu (entries : list mk_entry) : float :=
  fsum (map (fun e => py_round2 (e_mutu e)) entries).

(** ** Closed forms of what the handlers compute *)

(** The conversion of an [int] where it does not raise. *)
Definition converts (z : Z) : Prop := float_of_int z = Ok (float_of_Z z).

(** [x / n if n > 0 else 0.0], where the conversion of [n] does not raise. *)
Definition quotient (x : float) (n : Z) : float :=
  if n >? 0 then fdiv x (float_of_Z n) else pos_zero.

Definition mutu_of (r : nilai_row) : float :=
  fmul (bobot_of (r_bobot r)) (float_of_Z (r_sks r)).

(** The course-list element [hitung_ips] appends for a query row. *)
Definition entry_of (row : nilai_row) : mk_entry :=
  {| e_kode_mk := r_kode_mk row; e_nama_mk := r_nama_mk row; e_sks := r_sks row;
     e_nilai := r_nilai row; e_bobot := bobot_of (r_bobot row); e_mutu := mutu_of row |}.

(** One iteration of the loop of [hitung_ips], where the conversion does
    not raise. *)
Definition ips_next (a : ips_acc) (row : nilai_row) : ips_acc :=
  {| acc_total_mutu := fadd (acc_total_mutu a) (mutu_of row);
     acc_total_sks := acc_total_sks a + r_sks row;
     acc_mata_kuliah_list := acc_mata_kuliah_list a ++ [entry_of row] |}.

(** What the loop of [hitung_ips] leaves after the rows [rows]. *)
Definition ips_total (rows : list nilai_row) : ips_acc :=
  {| acc_total_mutu := fsum (map mutu_of rows);
     acc_total_sks := sumZ (map r_sks rows);
     acc_mata_kuliah_list := map entry_of rows |}.

(** The report [hitung_ips] builds for the student row [mhs] and the
    delivered rows [rows]. *)
Definition ips_report_of (n : string) (s : Z) (mhs : Mahasiswa) (rows : list nilai_row)
  : ips_report :=
  {| ips_nim := n; ips_nama := nama mhs; ips_semester := s;
     ips_mata_kuliah := map entry_of rows;
     ips_total_sks := sumZ (map r_sks rows);
     ips_total_mutu := py_round2 (fsum (map mutu_of rows));
     ips := py_round2 (quotient (fsum (map mutu_of rows)) (sumZ (map r_sks rows))) |}.

(** One iteration of the first loop of [hitung_ipk], where the conversion
    does not raise. *)
Definition ipk_next (a : ipk_acc) (row : nilai_row) : ipk_acc :=
  let semester := r_semester row in
  let d := if dict_mem semester (acc_per_semester a)
           then acc_per_semester a
           else acc_per_semester a ++ [(semester, sem_fresh semester)] in
  {| acc_total_mutu_kumulatif := fadd (acc_total_mutu_kumulatif a) (mutu_of row);
     acc_total_sks_kumulatif := acc_total_sks_kumulatif a + r_sks row;
     acc_per_semester := dict_update semester (sem_add (r_sks row) (mutu_of row)) d |}.

Definition ipk_total (rows : list nilai_row) : ipk_acc :=
  fold_left ipk_next rows ipk_init.

(** What the second loop of [hitung_ipk] leaves in a dictionary value. *)
Definition sem_finished (e : sem_entry) : sem_entry :=
  {| s_semester := s_semester e; s_total_sks := s_total_sks e;
     s_total_mutu := py_round2 (s_total_mutu e);
     s_ips := py_round2 (quotient (s_total_mutu e) (s_total_sks e)) |}.

(** The report [hitung_ipk] builds for the student row [mhs] and the
    delivered rows [rows]. *)
Definition ipk_report_of (n : string) (mhs : Mahasiswa) (rows : list nilai_row)
  : ipk_report :=
  {| ipk_nim := n; ipk_nama := nama mhs; ipk_jurusan := jurusan mhs;
     ipk_angkatan := angkatan mhs;
     total_sks_kumulatif := sumZ (map r_sks rows);
     total_mutu_kumulatif := py_round2 (fsum (map mutu_of rows));
     ipk := py_round2 (quotient (fsum (map mutu_of rows)) (sumZ (map r_sks rows)));
     detail_per_semester :=
       sort_by s_semester
         (map sem_finished (dict_values (acc_per_semester (ipk_total rows)))) |}.

(** The row the two queries produce for an enrollment. *)
Definition row_of (db : database) (k : krs_row) : nilai_row :=
  {| r_semester := k_semester k; r_kode_mk := k_kode_mk k;
     r_nama_mk :=
       match find (fun mk => String.eqb (k_kode_mk k) (kode_mk mk)) (mata_kuliah db) with
       | Some mk => nama_mk mk
       | None => ""
       end;
     r_sks := spec_credit db (k_kode_mk k);
     r_nilai := k_nilai k;
     r_bobot :=
       match k_nilai k with
       | None => None
       | Some s =>
         match find (fun bn => String.eqb s (bn_nilai bn)) (bobot_nilai db) with
         | Some bn => Some (bn_bobot bn)
         | None => None
         end
       end |}.

(** The query rows of one term. *)
Definition sem_rows (s : Z) (rows : list nilai_row) : list nilai_row :=
  filter (fun r => r_semester r =? s) rows.

(** What the dictionary holds after the first loop has consumed [rows]. *)
Definition dict_ok (rows : list nilai_row) (d : per_semester_dict) : Prop :=
  NoDup (map fst d) /\
  (forall s, In s (map fst d) <-> In s (map r_semester rows)) /\
  (forall s e, In (s, e) d ->
     s_semester e = s /\
     s_total_sks e = sumZ (map r_sks (sem_rows s rows)) /\
     s_total_mutu e = fsum (map mutu_of (sem_rows s rows)) /\
     s_ips e = pos_zero).

(** A float whose sign bit is clear (NaN included). *)
Definition unsigned (x : float) : Prop :=
  match x with
  | S754_zero s => s = false
  | S754_infinity s => s = false
  | S754_finite s _ _ => s = false
  | S754_nan => True
  end.

(** The row [insert_krs] generates, and the stores the inserts leave. *)
Definition new_krs_row (db : database) (k : KRS) : krs_row :=
  {| id_krs := krs_id_seq db + 1; k_nim := krs_nim k; k_kode_mk := krs_kode_mk k;
     k_nilai := krs_nilai k; k_semester := krs_semester k |}.

Definition with_krs_row (db : database) (row : krs_row) : database :=
  {| mahasiswa := mahasiswa db; mata_kuliah := mata_kuliah db;
     krs := krs db ++ [row]; bobot_nilai := bobot_nilai db;
     krs_id_seq := id_krs row |}.

Definition with_mahasiswa (db : database) (m : Mahasiswa) : database :=
  {| mahasiswa := mahasiswa db ++ [m]; mata_kuliah := mata_kuliah db;
     krs := krs db; bobot_nilai := bobot_nilai db; krs_id_seq := krs_id_seq db |}.

Definition with_mata_kuliah (db : database) (mk : MataKuliah) : database :=
  {| mahasiswa := mahasiswa db; mata_kuliah := mata_kuliah db ++ [mk];
     krs := krs db; bobot_nilai := bobot_nilai db; krs_id_seq := krs_id_seq db |}.


(** A request with its grade replaced. *)
Definition with_nilai (k : KRS) (g : option string) : KRS :=
  {| krs_nim := krs_nim k; krs_kode_mk := krs_kode_mk k; krs_nilai := g;
     krs_semester := krs_semester k |}.

(** The credentials the client can send to the authority. *)
Definition sendable (h : string) : bool := ascii_only h && field_value h.

(** The strings of a create request that the driver quotes. *)
Definition clean_Mahasiswa (m : Mahasiswa) : bool :=
  negb (has_nul (nim m)) && negb (has_nul (nama m)) && negb (has_nul (jurusan m)).

Definition clean_MataKuliah (mk : MataKuliah) : bool :=
  negb (has_nul (kode_mk mk)) && negb (has_nul (nama_mk mk)).

Definition clean_KRS (k : KRS) : bool :=
  negb (has_nul (krs_nim k)) && negb (has_nul (krs_kode_mk k))
  && adaptable (param_of_option (krs_nilai k)).

(** Query rows and course-list elements with the letter grade blanked. *)
Definition strip_nilai (r : nilai_row) : nilai_row :=
  {| r_semester := r_semester r; r_kode_mk := r_kode_mk r; r_nama_mk := r_nama_mk r;
     r_sks := r_sks r; r_nilai := None; r_bobot := r_bobot r |}.

Definition forget_nilai (e : mk_entry) : mk_entry :=
  {| e_kode_mk := e_kode_mk e; e_nama_mk := e_nama_mk e; e_sks := e_sks e;
     e_nilai := None; e_bobot := e_bobot e; e_mutu := e_mutu e |}.

(** A semester report with the letter grades of its course list blanked. *)
Definition forget_grades (r : ips_report) : ips_report :=
  {| ips_nim := ips_nim r; ips_nama := ips_nama r; ips_semester := ips_semester r;
     ips_mata_kuliah := map forget_nilai (ips_mata_kuliah r);
     ips_total_sks := ips_total_sks r; ips_total_mutu := ips_total_mutu r;
     ips := ips r |}.

Definition map_result {A B} (f : A -> B) (r : result A) : result B :=
  match r with
  | Ok a => Ok (f a)
  | Raise e => Raise e
  end.

(** ** Example stores and requests *)

(** Two engines: one delivers the rows in table order, one in the reverse
    order. *)
Definition in_order : engine :=
  {| order := seq 0; order_perm := fun n => Permutation_refl (seq 0 n) |}.

Definition reversed : engine :=
  {| order := fun n => rev (seq 0 n);
     order_perm := fun n => Permutation_sym (Permutation_rev (seq 0 n)) |}.

(** The float a decimal literal denotes. *)
Definition dec (num : Z) (den : positive) : float := float_of_Q (num # den).

(** A five-letter weight table. *)
Definition bobot_table : list bobot_nilai_row :=
  [ {| bn_nilai := "A"; bn_bobot := 4 |}; {| bn_nilai := "B"; bn_bobot := 3 |};
    {| bn_nilai := "C"; bn_bobot := 2 |}; {| bn_nilai := "D"; bn_bobot := 1 |};
    {| bn_nilai := "E"; bn_bobot := 0 |} ].

Definition budi : Mahasiswa :=
  {| nim := "2101"; nama := "Budi"; jurusan := "Informatika"; angkatan := 2021 |}.

(** One term: course IF101 (3 credits) graded A, course IF102 (2 credits)
    graded B. *)
Definition db_two_courses : database :=
  {| mahasiswa := [budi];
     mata_kuliah := [ {| kode_mk := "IF101"; nama_mk := "Algoritma"; sks := 3 |};
                      {| kode_mk := "IF102"; nama_mk := "Kalkulus"; sks := 2 |} ];
     krs := [ {| id_krs := 1; k_nim := "2101"; k_kode_mk := "IF101";
                 k_nilai := Some "A"%string; k_semester := 1 |};
              {| id_krs := 2; k_nim := "2101"; k_kode_mk := "IF102";
                 k_nilai := Some "B"%string; k_semester := 1 |} ];
     bobot_nilai := bobot_table;
     krs_id_seq := 2 |}.

(** One term: course IF103 (1 credit) graded A, course IF102 (2 credits)
    graded B: 10 quality points on 3 credits. *)
Definition db_thirds : database :=
  {| mahasiswa := [budi];
     mata_kuliah := [ {| kode_mk := "IF103"; nama_mk := "Seminar"; sks := 1 |};
                      {| kode_mk := "IF102"; nama_mk := "Kalkulus"; sks := 2 |} ];
     krs := [ {| id_krs := 1; k_nim := "2101"; k_kode_mk := "IF103";
                 k_nilai := Some "A"%string; k_semester := 1 |};
              {| id_krs := 2; k_nim := "2101"; k_kode_mk := "IF102";
                 k_nilai := Some "B"%string; k_semester := 1 |} ];
     bobot_nilai := bobot_table;
     krs_id_seq := 2 |}.

(** Term 1: 3 credits at weight 4; term 2: 1 credit at weight 2. *)
Definition db_two_terms : database :=
  {| mahasiswa := [budi];
     mata_kuliah := [ {| kode_mk := "IF101"; nama_mk := "Algoritma"; sks := 3 |};
                      {| kode_mk := "IF103"; nama_mk := "Seminar"; sks := 1 |} ];
     krs := [ {| id_krs := 1; k_nim := "2101"; k_kode_mk := "IF101";
                 k_nilai := Some "A"%string; k_semester := 1 |};
              {| id_krs := 2; k_nim := "2101"; k_kode_mk := "IF103";
                 k_nilai := Some "C"%string; k_semester := 2 |} ];
     bobot_nilai := bobot_table;
     krs_id_seq := 2 |}.

(** Term 1: 1 credit at weight 4; term 2: 2 credits at weight 3. *)
Definition db_thirds_two_terms : database :=
  {| mahasiswa := [budi];
     mata_kuliah := [ {| kode_mk := "IF103"; nama_mk := "Seminar"; sks := 1 |};
                      {| kode_mk := "IF102"; nama_mk := "Kalkulus"; sks := 2 |} ];
     krs := [ {| id_krs := 1; k_nim := "2101"; k_kode_mk := "IF103";
                 k_nilai := Some "A"%string; k_semester := 1 |};
              {| id_krs := 2; k_nim := "2101"; k_kode_mk := "IF102";
                 k_nilai := Some "B"%string; k_semester := 2 |} ];
     bobot_nilai := bobot_table;
     krs_id_seq := 2 |}.

(** A weight table with three-decimal weights, and one term of three
    1-credit courses graded X, X, Y: the quality points are 1.004, 1.004 and
    1.008. *)
Definition db_fine_weights : database :=
  {| mahasiswa := [budi];
     mata_kuliah := [ {| kode_mk := "IF101"; nama_mk := "Algoritma"; sks := 1 |};
                      {| kode_mk := "IF102"; nama_mk := "Kalkulus"; sks := 1 |};
                      {| kode_mk := "IF103"; nama_mk := "Seminar"; sks := 1 |} ];
     krs := [ {| id_krs := 1; k_nim := "2101"; k_kode_mk := "IF101";
                 k_nilai := Some "X"%string; k_semester := 1 |};
              {| id_krs := 2; k_nim := "2101"; k_kode_mk := "IF102";
                 k_nilai := Some "X"%string; k_semester := 1 |};
              {| id_krs := 3; k_nim := "2101"; k_kode_mk := "IF103";
                 k_nilai := Some "Y"%string; k_semester := 1 |} ];
     bobot_nilai := [ {| bn_nilai := "X"; bn_bobot := 1004 # 1000 |};
                      {| bn_nilai := "Y"; bn_bobot := 1008 # 1000 |} ];
     krs_id_seq := 3 |}.

(** One term with IF101 (3 credits) graded A and IF102 (2 credits) not yet
    graded. *)
Definition krs_graded : krs_row :=
  {| id_krs := 1; k_nim := "2101"; k_kode_mk := "IF101";
     k_nilai := Some "A"%string; k_semester := 1 |}.

Definition krs_pending : krs_row :=
  {| id_krs := 2; k_nim := "2101"; k_kode_mk := "IF102";
     k_nilai := None; k_semester := 1 |}.

Definition db_pending : database :=
  {| mahasiswa := [budi];
     mata_kuliah := [ {| kode_mk := "IF101"; nama_mk := "Algoritma"; sks := 3 |};
                      {| kode_mk := "IF102"; nama_mk := "Kalkulus"; sks := 2 |} ];
     krs := [krs_graded; krs_pending];
     bobot_nilai := bobot_table;
     krs_id_seq := 2 |}.



(** A store outside the invariant: the only course taken has credit-weight 0. *)
Definition db_zero_credit : database :=
  {| mahasiswa := [budi];
     mata_kuliah := [ {| kode_mk := "IF100"; nama_mk := "Orientasi"; sks := 0 |} ];
     krs := [ {| id_krs := 1; k_nim := "2101"; k_kode_mk := "IF100";
                 k_nilai := Some "A"%string; k_semester := 1 |} ];
     bobot_nilai := bobot_table;
     krs_id_seq := 1 |}.

(** Users as the authority reports them, and a request with a grade the table does not list. *)
Definition admin_user : json :=
  JObj [("username"%string, JStr "admin1"); ("role"%string, JStr "admin")].

Definition dosen_user : json :=
  JObj [("username"%string, JStr "dosen1"); ("role"%string, JStr "dosen")].

Definition krs_request : KRS :=
  {| krs_nim := "2101"; krs_kode_mk := "IF101"; krs_nilai := Some "Z+"%string;
     krs_semester := 2 |}.

(** Strings the driver and the client refuse: a student identifier and a
    grade with a NUL character, a credential with the letter e-acute
    (character 233). *)
Definition nul_nim : string := String "2" (String Ascii.zero "").
Definition nul_grade : string := String "A" (String Ascii.zero "").
Definition latin_credential : string :=
  "Bearer " ++ String (ascii_of_N 233) "".

(** A credential the client's HTTP layer refuses to send: it ends with a
    line feed. *)
Definition broken_credential : string :=
  "Bearer abc" ++ String (ascii_of_N 10) "".

(** Deciding the invariant on a concrete store. *)
Ltac nodup_concrete :=
  repeat (constructor; [simpl; intuition (discriminate || congruence)|]); constructor.

Ltac forall_in_concrete :=
  let x := fresh in let H := fresh in
  intros x H; simpl in H;
  repeat (destruct H as [H|H]; [subst x; simpl; try tauto; try lia|]);
  try contradiction.

Ltac wf_concrete :=
  constructor;
  [ nodup_concrete | nodup_concrete | nodup_concrete | nodup_concrete
  | unfold student_known; forall_in_concrete
  | unfold course_known; forall_in_concrete
  | forall_in_concrete
  | forall_in_concrete
  | forall_in_concrete; split; discriminate
  | forall_in_concrete; repeat split
  | forall_in_concrete; repeat split
  | forall_in_concrete; reflexivity ].

(** ** Further definitions for the listings, the request sequences and their examples *)

Definition is_object (j : json) : bool :=
  match j with
  | JObj _ => true
  | _ => false
  end.

Definition extends {A} (l l' : list A) : Prop := exists more, l' = l ++ more.

(** The stored rows are kept, in place, and the weight table is the same. *)
Definition grows (db db' : database) : Prop :=
  extends (mahasiswa db) (mahasiswa db') /\
  extends (mata_kuliah db) (mata_kuliah db') /\
  extends (krs db) (krs db') /\
  bobot_nilai db' = bobot_nilai db.

(** A store with no students, courses or enrollments yet. *)
Definition empty_store (weights : list bobot_nilai_row) : database :=
  {| mahasiswa := []; mata_kuliah := []; krs := []; bobot_nilai := weights;
     krs_id_seq := 0 |}.

(** The credit total held in the dictionary. *)
Definition dict_total_sks (d : per_semester_dict) : Z :=
  sumZ (map (fun ke => s_total_sks (snd ke)) d).

(** The student's name and the course's name, as stored. *)
Definition spec_nama (db : database) (n : string) : string :=
  match find (fun m => String.eqb n (nim m)) (mahasiswa db) with
  | Some m => nama m
  | None => ""
  end.

Definition spec_nama_mk (db : database) (c : string) : string :=
  match find (fun mk => String.eqb c (kode_mk mk)) (mata_kuliah db) with
  | Some mk => nama_mk mk
  | None => ""
  end.

(** The record the enrollment listing shows for an enrollment. *)
Definition listed (db : database) (k : krs_row) : nilai_record :=
  {| n_id_krs := id_krs k; n_nim := k_nim k; n_nama_mahasiswa := spec_nama db (k_nim k);
     n_kode_mk := k_kode_mk k; n_nama_mk := spec_nama_mk db (k_kode_mk k);
     n_sks := spec_credit db (k_kode_mk k); n_nilai := k_nilai k;
     n_semester := k_semester k; n_bobot := bobot_of (r_bobot (row_of db k)) |}.

(** The columns the enrollment listing and the semester report share. *)
Definition listing_columns (x : nilai_record) : string * string * Z * option string * float :=
  (n_kode_mk x, n_nama_mk x, n_sks x, n_nilai x, n_bobot x).

Definition report_columns (e : mk_entry) : string * string * Z * option string * float :=
  (e_kode_mk e, e_nama_mk e, e_sks e, e_nilai e, e_bobot e).

Definition siti : Mahasiswa :=
  {| nim := "2102"; nama := "Siti"; jurusan := "Informatika"; angkatan := 2021 |}.

Definition old_student : Mahasiswa :=
  {| nim := "9901"; nama := "Agus"; jurusan := "Informatika"; angkatan := 1999 |}.

Definition new_course : MataKuliah :=
  {| kode_mk := "IF201"; nama_mk := "Basis Data"; sks := 3 |}.

Definition bearer : option string := Some "Bearer abc"%string.

Definition admin_verdict : authority :=
  Responds 200 (Json (JObj [("user"%string, admin_user)])).

Definition some_requests : list post_request :=
  [ PostMahasiswa bearer admin_verdict siti;
    PostMataKuliah bearer admin_verdict new_course;
    PostNilai bearer admin_verdict krs_request;
    PostNilai bearer admin_verdict krs_request;
    PostMahasiswa None admin_verdict old_student ].

(** The loop variables of [hitung_ips] with the letter grades blanked. *)
Definition forget_acc (a : ips_acc) : ips_acc :=
  {| acc_total_mutu := acc_total_mutu a; acc_total_sks := acc_total_sks a;
     acc_mata_kuliah_list := map forget_nilai (acc_mata_kuliah_list a) |}.

(** Requests the driver refuses: an enrollment for a student identifier
    with a NUL character, and one whose grade has a NUL character. *)
Definition krs_nul_nim_request : KRS :=
  {| krs_nim := nul_nim; krs_kode_mk := "IF101"; krs_nilai := Some "A"%string;
     krs_semester := 2 |}.

Definition krs_nul_grade_request : KRS :=
  {| krs_nim := "2101"; krs_kode_mk := "IF101"; krs_nilai := Some nul_grade;
     krs_semester := 2 |}.

Definition nul_student : Mahasiswa :=
  {| nim := "2103"; nama := String "A" (String Ascii.zero "");
     jurusan := "Informatika"; angkatan := 2021 |}.

(** Evaluating the queries of a handler on a concrete store. *)
Ltac concrete_queries :=
  repeat match goal with
  | |- context [select_mahasiswa ?db ?n] =>
    let v := eval vm_compute in (select_mahasiswa db n) in
    change (select_mahasiswa db n) with v
  | |- context [rows_ips ?db ?n ?s] =>
    let v := eval vm_compute in (rows_ips db n s) in
    change (rows_ips db n s) with v
  | |- context [rows_ipk ?db ?n] =>
    let v := eval vm_compute in (rows_ipk db n) in
    change (rows_ipk db n) with v
  end.

(** Evaluating a query result of one or two rows under every order of
    delivery, given the facts [one] and [two] that a list of one row has one
    arrangement and a list of two rows has two. *)
Ltac delivered_rows one two e :=
  repeat match goal with
  | |- context [arrange e [?x]] => rewrite (one _ e x)
  | |- context [arrange e [?x; ?y]] =>
    let E := fresh "E" in destruct (two _ e x y) as [E|E]; rewrite E; clear E
  end.

Ltac run_ips one two e :=
  unfold hitung_ips, hitung_ips_try, query_ips; concrete_queries;
  delivered_rows one two e.

Ltac run_ipk one two e :=
  unfold hitung_ipk, hitung_ipk_try, query_ipk; concrete_queries;
  delivered_rows one two e.

(** * Properties *)

(** ** Binary64 arithmetic *)

Lemma digits2_pos_bound (p : positive) :
  2 ^ (Zpos (digits2_pos p) - 1) <= Zpos p < 2 ^ Zpos (digits2_pos p).
Proof.
  induction p as [p IH|p IH|]; simpl digits2_pos.
  - rewrite Pos2Z.inj_succ.
    replace (Z.succ (Z.pos (digits2_pos p)) - 1) with (Z.pos (digits2_pos p)) by lia.
    rewrite Z.pow_succ_r by lia.
    assert (E : Z.pos (digits2_pos p) = Z.succ (Z.pos (digits2_pos p) - 1)) by lia.
    rewrite E at 1. rewrite Z.pow_succ_r by lia. lia.
  - rewrite Pos2Z.inj_succ.
    replace (Z.succ (Z.pos (digits2_pos p)) - 1) with (Z.pos (digits2_pos p)) by lia.
    rewrite Z.pow_succ_r by lia.
    assert (E : Z.pos (digits2_pos p) = Z.succ (Z.pos (digits2_pos p) - 1)) by lia.
    rewrite E at 1. rewrite Z.pow_succ_r by lia. lia.
  - simpl. lia.
Qed.

Lemma digits2_pos_iter (p : positive) (d : positive) :
  Zpos (digits2_pos (Pos.iter xO p d)) = Zpos (digits2_pos p) + Zpos d.
Proof.
  revert p. induction d using Pos.peano_ind; intros p.
  - simpl. lia.
  - rewrite Pos.iter_succ. simpl digits2_pos. rewrite Pos2Z.inj_succ, IHd. lia.
Qed.

Lemma fexp_small (d : Z) : -1021 <= d -> fexp 53 1024 d = d - 53.
Proof. intros H. unfold fexp, emin. lia. Qed.

Lemma shr_fexp_canonical (m : positive) (e : Z) :
  Zpos (digits2_pos m) = 53 -> -1074 <= e ->
  shr_fexp 53 1024 (Zpos m) e loc_Exact
  = ({| shr_m := Zpos m; shr_r := false; shr_s := false |}, e).
Proof.
  intros Hd He. unfold shr_fexp. cbn [Zdigits2]. rewrite Hd, fexp_small by lia.
  replace (53 + e - 53 - e) with 0 by lia. reflexivity.
Qed.

Lemma binary_round_aux_canonical (s : bool) (m : positive) (e : Z) :
  Zpos (digits2_pos m) = 53 -> -1074 <= e <= 971 ->
  binary_round_aux 53 1024 s (Zpos m) e loc_Exact = S754_finite s m e.
Proof.
  intros Hd He. unfold binary_round_aux.
  rewrite shr_fexp_canonical by lia.
  cbn [shr_m loc_of_shr_record round_nearest_even].
  rewrite shr_fexp_canonical by lia. cbn [shr_m].
  assert ((e <=? 1024 - 53) = true) as -> by (apply Z.leb_le; lia).
  reflexivity.
Qed.

Lemma binary_round_small (s : bool) (p : positive) :
  Zpos p < 2 ^ 53 ->
  exists m e, binary_round 53 1024 s p 0 = S754_finite s m e.
Proof.
  intros Hp.
  pose proof (digits2_pos_bound p) as Hd.
  assert (Hd53 : Zpos (digits2_pos p) <= 53).
  { destruct (Z_le_gt_dec (Zpos (digits2_pos p)) 53) as [H|H]; [exact H|].
    exfalso.
    assert (2 ^ 53 <= 2 ^ (Zpos (digits2_pos p) - 1)) by (apply Z.pow_le_mono_r; lia).
    lia. }
  unfold binary_round.
  rewrite Z.add_0_r, fexp_small by lia.
  unfold shl_align.
  destruct (Z.pos (digits2_pos p) - 53 - 0) as [|q|q] eqn:E.
  - rewrite binary_round_aux_canonical by lia. eauto.
  - lia.
  - rewrite binary_round_aux_canonical; [eauto| |lia].
    rewrite digits2_pos_iter. lia.
Qed.

(** An integer below 2^53 converts to a finite float. *)
Lemma float_of_Z_small (z : Z) :
  0 <= z < 2 ^ 53 ->
  float_of_Z z = pos_zero \/ exists m e, float_of_Z z = S754_finite false m e.
Proof.
  intros H. unfold float_of_Z, binary_normalize. destruct z as [|p|p]; [now left| |lia].
  right. apply binary_round_small. lia.
Qed.

Lemma converts_small (z : Z) : 0 <= z < 2 ^ 53 -> converts z.
Proof.
  intros H. unfold converts, float_of_int.
  destruct (float_of_Z_small z H) as [->|[m [e ->]]]; reflexivity.
Qed.

Lemma float_of_int_total (z : Z) (f : float) :
  float_of_int z = Ok f -> f = float_of_Z z.
Proof.
  unfold float_of_int. destruct (float_of_Z z); intros H; inversion H; reflexivity.
Qed.

Lemma float_of_int_raises (z : Z) (x : exception) :
  float_of_int z = Raise x -> x = OverflowError.
Proof.
  unfold float_of_int. destruct (float_of_Z z); intros H; inversion H; reflexivity.
Qed.

Lemma unsigned_binary_round_aux (m e : Z) (l : location) :
  unsigned (binary_round_aux 53 1024 false m e l).
Proof.
  unfold binary_round_aux.
  destruct (shr_fexp 53 1024 m e l) as [mrs' e'].
  destruct (shr_fexp 53 1024 _ e' loc_Exact) as [mrs'' e''].
  destruct (shr_m mrs''); [reflexivity| |exact I].
  destruct (e'' <=? 1024 - 53); reflexivity.
Qed.

Lemma unsigned_binary_round (m : positive) (e : Z) :
  unsigned (binary_round 53 1024 false m e).
Proof.
  unfold binary_round. destruct (shl_align m e _) as [mz ez].
  apply unsigned_binary_round_aux.
Qed.





Lemma unsigned_fadd (x y : float) : unsigned x -> unsigned y -> unsigned (fadd x y).
Proof.
  destruct x as [[|]|[|]| |[|] mx ex], y as [[|]|[|]| |[|] my ey];
    intros Hx Hy; simpl in Hx, Hy; try discriminate; try exact I; try exact eq_refl.
  unfold fadd, SFadd. cbn [cond_Zopp].
  destruct (shl_align mx ex (Z.min ex ey)) as [m1 e1].
  destruct (shl_align my ey (Z.min ex ey)) as [m2 e2]. cbn [fst].
  change (Z.pos m1 + Z.pos m2) with (Z.pos (m1 + m2)).
  apply unsigned_binary_round.
Qed.


Lemma fmul_zero_l (y : float) :
  (y = pos_zero \/ exists m e, y = S754_finite false m e) -> fmul pos_zero y = pos_zero.
Proof. intros [->|[m [e ->]]]; reflexivity. Qed.

Lemma bobot_of_float (b : option Q) :
  bobot_of b = match b with Some q => float_of_Q q | None => pos_zero end.
Proof.
  destruct b as [q|]; [|reflexivity]. simpl.
  destruct (Qeq_bool q 0) eqn:E; [|reflexivity].
  apply Qeq_bool_eq in E. unfold Qeq in E. simpl in E.
  unfold float_of_Q. replace (Qnum q) with 0 by lia. reflexivity.
Qed.

Lemma fsum_snoc (l : list float) (x : float) : fsum (l ++ [x]) = fadd (fsum l) x.
Proof. unfold fsum. rewrite fold_left_app. reflexivity. Qed.

Lemma unsigned_fold (l : list float) (a : float) :
  unsigned a -> Forall unsigned l -> unsigned (fold_left fadd l a).
Proof.
  revert a. induction l as [|x l IH]; intros a Ha Hl; simpl; [exact Ha|].
  inversion Hl; subst. apply IH; [now apply unsigned_fadd|assumption].
Qed.


(** ** Sums of integers *)

Lemma sumZ_app (l1 l2 : list Z) : sumZ (l1 ++ l2) = sumZ l1 + sumZ l2.
Proof. induction l1 as [|a l1 IH]; simpl; lia. Qed.

Lemma sumZ_perm (l l' : list Z) : Permutation l l' -> sumZ l = sumZ l'.
Proof. induction 1; simpl; lia. Qed.

Lemma sumZ_nonneg (l : list Z) : (forall x, In x l -> 0 <= x) -> 0 <= sumZ l.
Proof.
  induction l as [|a l IH]; simpl; intros H; [lia|].
  assert (0 <= a) by (apply H; now left).
  assert (0 <= sumZ l) by (apply IH; intros; apply H; now right). lia.
Qed.

Lemma sumZ_filter_le {A} (f : A -> Z) (p : A -> bool) (l : list A) :
  (forall x, In x l -> 0 <= f x) -> sumZ (map f (filter p l)) <= sumZ (map f l).
Proof.
  induction l as [|a l IH]; simpl; intros H; [lia|].
  assert (0 <= f a) by (apply H; now left).
  assert (sumZ (map f (filter p l)) <= sumZ (map f l))
    by (apply IH; intros; apply H; now right).
  destruct (p a); simpl; lia.
Qed.

(** ** The order of delivery *)

Lemma flat_map_map {A B C} (f : A -> B) (g : B -> list C) (l : list A) :
  flat_map g (map f l) = flat_map (fun x => g (f x)) l.
Proof. induction l as [|a l IH]; simpl; [reflexivity|]. now rewrite IH. Qed.

Lemma map_flat_map {A B C} (f : B -> C) (g : A -> list B) (l : list A) :
  map f (flat_map g l) = flat_map (fun x => map f (g x)) l.
Proof. induction l as [|a l IH]; simpl; [reflexivity|]. now rewrite map_app, IH. Qed.

Lemma select_all {A} (l : list A) :
  flat_map (fun i => match nth_error l i with Some r => [r] | None => [] end)
           (seq 0 (List.length l)) = l.
Proof.
  induction l as [|x l IH]; [reflexivity|].
  cbn [List.length seq flat_map nth_error]. rewrite <- seq_shift, flat_map_map.
  simpl. f_equal. exact IH.
Qed.

Lemma arrange_perm {A} (e : engine) (l : list A) : Permutation (arrange e l) l.
Proof.
  unfold arrange.
  eapply perm_trans; [apply Permutation_flat_map, order_perm|].
  rewrite select_all. apply Permutation_refl.
Qed.

Lemma arrange_map {A B} (e : engine) (f : A -> B) (l : list A) :
  arrange e (map f l) = map f (arrange e l).
Proof.
  unfold arrange. rewrite length_map, map_flat_map.
  apply flat_map_ext. intros i. rewrite nth_error_map.
  destruct (nth_error l i); reflexivity.
Qed.

Lemma in_arrange {A} (e : engine) (l : list A) (x : A) : In x (arrange e l) <-> In x l.
Proof.
  split; apply Permutation_in; [|apply Permutation_sym]; apply arrange_perm.
Qed.

Lemma arrange_nil {A} (e : engine) (l : list A) : arrange e l = [] <-> l = [].
Proof.
  split.
  - intros H. apply Permutation_nil. rewrite <- H. apply arrange_perm.
  - intros ->. apply Permutation_nil. apply Permutation_sym, arrange_perm.
Qed.

Lemma arrange_one {A} (e : engine) (x : A) : arrange e [x] = [x].
Proof. apply Permutation_length_1_inv, Permutation_sym, arrange_perm. Qed.

Lemma arrange_two {A} (e : engine) (x y : A) :
  arrange e [x; y] = [x; y] \/ arrange e [x; y] = [y; x].
Proof. apply Permutation_length_2_inv, Permutation_sym, arrange_perm. Qed.

Lemma fetchone_arrange_one {A} (e : engine) (x : A) : fetchone (arrange e [x]) = Some x.
Proof. now rewrite arrange_one. Qed.

(** ** Sorting *)

Lemma in_insert_by {A} (key : A -> Z) (x y : A) (l : list A) :
  In y (insert_by key x l) <-> y = x \/ In y l.
Proof.
  induction l as [|z l IH]; simpl.
  - intuition.
  - destruct (key x <=? key z); simpl; [intuition|].
    rewrite IH. intuition.
Qed.

Lemma in_sort_by {A} (key : A -> Z) (y : A) (l : list A) :
  In y (sort_by key l) <-> In y l.
Proof.
  induction l as [|x l IH]; simpl; [tauto|].
  rewrite in_insert_by, IH. intuition.
Qed.

Lemma insert_by_perm {A} (key : A -> Z) (x : A) (l : list A) :
  Permutation (insert_by key x l) (x :: l).
Proof.
  induction l as [|y l IH]; simpl; [apply Permutation_refl|].
  destruct (key x <=? key y); [apply Permutation_refl|].
  eapply perm_trans; [apply perm_skip, IH|apply perm_swap].
Qed.

Lemma sort_by_perm {A} (key : A -> Z) (l : list A) :
  Permutation (sort_by key l) l.
Proof.
  induction l as [|x l IH]; simpl; [apply perm_nil|].
  eapply perm_trans; [apply insert_by_perm|apply perm_skip, IH].
Qed.

Lemma sort_by_nil {A} (key : A -> Z) (l : list A) : sort_by key l = [] -> l = [].
Proof.
  intros H. apply Permutation_nil. rewrite <- H. apply sort_by_perm.
Qed.

Lemma map_insert_by {A B} (f : A -> B) (key : A -> Z) (key' : B -> Z)
  (x : A) (l : list A) :
  (forall y, key' (f y) = key y) ->
  map f (insert_by key x l) = insert_by key' (f x) (map f l).
Proof.
  intros Hk. induction l as [|y l IH]; simpl; [reflexivity|].
  rewrite !Hk. destruct (key x <=? key y); simpl; [reflexivity|]. now rewrite IH.
Qed.

Lemma map_sort_by {A B} (f : A -> B) (key : A -> Z) (key' : B -> Z) (l : list A) :
  (forall y, key' (f y) = key y) ->
  map f (sort_by key l) = sort_by key' (map f l).
Proof.
  intros Hk. induction l as [|x l IH]; simpl; [reflexivity|].
  rewrite (map_insert_by f key key' _ _ Hk). now rewrite IH.
Qed.

(** The sort is stable: the rows of one key keep the order they came in. *)
Lemma filter_insert_by {A} (key : A -> Z) (s : Z) (x : A) (l : list A) :
  filter (fun y => key y =? s) (insert_by key x l)
  = filter (fun y => key y =? s) (x :: l).
Proof.
  induction l as [|y l IH]; [reflexivity|].
  cbn [insert_by]. destruct (key x <=? key y) eqn:E; [reflexivity|].
  apply Z.leb_gt in E. cbn [filter] in *. rewrite IH.
  destruct (key x =? s) eqn:Ex, (key y =? s) eqn:Ey; try reflexivity.
  apply Z.eqb_eq in Ex, Ey. lia.
Qed.

Lemma filter_sort_by {A} (key : A -> Z) (s : Z) (l : list A) :
  filter (fun y => key y =? s) (sort_by key l) = filter (fun y => key y =? s) l.
Proof.
  induction l as [|x l IH]; [reflexivity|].
  cbn [sort_by fold_right]. fold (sort_by key l).
  rewrite filter_insert_by. cbn [filter]. now rewrite IH.
Qed.

Lemma insert_by_sorted {A} (key : A -> Z) (x : A) (l : list A) :
  StronglySorted (fun a b => key a <= key b) l ->
  StronglySorted (fun a b => key a <= key b) (insert_by key x l).
Proof.
  induction l as [|y l IH]; simpl; intros Hs.
  - constructor; constructor.
  - inversion Hs as [|? ? Hl Hy]; subst.
    destruct (key x <=? key y) eqn:E.
    + apply Z.leb_le in E. constructor; [exact Hs|].
      constructor; [exact E|].
      eapply Forall_impl; [|exact Hy]. intros z Hz. simpl in Hz. lia.
    + apply Z.leb_gt in E. constructor; [now apply IH|].
      apply Forall_forall. intros z Hz. apply in_insert_by in Hz.
      destruct Hz as [->|Hz]; [lia|].
      rewrite Forall_forall in Hy. now apply Hy.
Qed.

Lemma sort_by_sorted {A} (key : A -> Z) (l : list A) :
  StronglySorted (fun a b => key a <= key b) (sort_by key l).
Proof.
  induction l as [|x l IH]; simpl; [constructor|]. now apply insert_by_sorted.
Qed.

Lemma sorted_strict {A} (key : A -> Z) (l : list A) :
  StronglySorted (fun a b => key a <= key b) l -> NoDup (map key l) ->
  StronglySorted (fun a b => key a < key b) l.
Proof.
  induction l as [|x l IH]; intros Hs Hnd; [constructor|].
  inversion Hs as [|? ? Hl Hx]; subst. inversion Hnd as [|? ? Hnotin Hnd']; subst.
  constructor; [now apply IH|].
  apply Forall_forall. intros y Hy. rewrite Forall_forall in Hx.
  specialize (Hx y Hy). simpl in Hx.
  assert (key x <> key y).
  { intros E. apply Hnotin. rewrite E. now apply in_map. }
  lia.
Qed.

Lemma insert_le_perm {A} (le : A -> A -> bool) (x : A) (l : list A) :
  Permutation (insert_le le x l) (x :: l).
Proof.
  induction l as [|y l IH]; simpl; [apply Permutation_refl|].
  destruct (le x y); [apply Permutation_refl|].
  eapply perm_trans; [apply perm_skip, IH|apply perm_swap].
Qed.

Lemma sort_le_perm {A} (le : A -> A -> bool) (l : list A) :
  Permutation (sort_le le l) l.
Proof.
  induction l as [|x l IH]; simpl; [apply perm_nil|].
  eapply perm_trans; [apply insert_le_perm|apply perm_skip, IH].
Qed.

Lemma in_sort_le {A} (le : A -> A -> bool) (x : A) (l : list A) :
  In x (sort_le le l) <-> In x l.
Proof.
  split; apply Permutation_in; [|apply Permutation_sym]; apply sort_le_perm.
Qed.

(** ** Lists and filters *)

Lemma filter_nil_iff {A} (f : A -> bool) (l : list A) :
  filter f l = [] <-> forall x, In x l -> f x = false.
Proof.
  induction l as [|a l IH]; simpl.
  - split; [intros _ x []|reflexivity].
  - destruct (f a) eqn:E.
    + split; [discriminate|]. intros H. specialize (H a (or_introl eq_refl)). congruence.
    + rewrite IH. split.
      * intros H x [<-|Hx]; auto.
      * intros H x Hx. apply H. now right.
Qed.

Lemma filter_perm {A} (f : A -> bool) (l l' : list A) :
  Permutation l l' -> Permutation (filter f l) (filter f l').
Proof.
  induction 1; simpl.
  - apply perm_nil.
  - destruct (f x); [apply perm_skip|]; assumption.
  - destruct (f x), (f y); try apply Permutation_refl. apply perm_swap.
  - eapply perm_trans; eassumption.
Qed.

Lemma filter_filter_andb {A} (f g : A -> bool) (l : list A) :
  filter f (filter g l) = filter (fun x => g x && f x) l.
Proof.
  induction l as [|a l IH]; simpl; [reflexivity|].
  destruct (g a); simpl; [destruct (f a)|]; now rewrite IH.
Qed.

Lemma filter_map_comm {A B} (f : A -> B) (p : B -> bool) (l : list A) :
  filter p (map f l) = map f (filter (fun x => p (f x)) l).
Proof.
  induction l as [|a l IH]; simpl; [reflexivity|].
  destruct (p (f a)); simpl; now rewrite IH.
Qed.

Lemma filter_all {A} (p : A -> bool) (l : list A) :
  (forall x, In x l -> p x = true) -> filter p l = l.
Proof.
  induction l as [|a l IH]; simpl; intros H; [reflexivity|].
  rewrite (H a (or_introl eq_refl)). f_equal. apply IH. intros; apply H; now right.
Qed.

Lemma fetchone_none {A} (l : list A) : fetchone l = None <-> l = [].
Proof. destruct l; simpl; split; congruence. Qed.

Lemma fetchone_in {A} (l : list A) (x : A) : fetchone l = Some x -> In x l.
Proof. destruct l; simpl; intros H; inversion H. now left. Qed.

Lemma fetchone_filter_some {A} (f : A -> bool) (l : list A) (x : A) :
  fetchone (filter f l) = Some x -> In x l /\ f x = true.
Proof. intros H. apply filter_In. now apply fetchone_in. Qed.

Lemma list_nil_dec {A} (l : list A) : {l = []} + {l <> []}.
Proof. destruct l; [now left|right; discriminate]. Qed.

Lemma NoDup_snoc {A} (l : list A) (x : A) : NoDup l -> ~ In x l -> NoDup (l ++ [x]).
Proof.
  intros Hnd Hx. apply NoDup_app; [exact Hnd|repeat constructor; simpl; tauto|].
  intros y Hy [<-|[]]. contradiction.
Qed.

(** ** Loops whose body may raise *)

Lemma for_each_total {A B} (step : A -> B -> result A) (f : A -> B -> A)
  (l : list B) (a a' : A) :
  (forall a x a', step a x = Ok a' -> a' = f a x) ->
  for_each step l a = Ok a' -> a' = fold_left f l a.
Proof.
  intros Hs. revert a. induction l as [|x l IH]; intros a; simpl.
  - intros H. now inversion H.
  - destruct (step a x) as [a1|ex] eqn:E; simpl; [|discriminate].
    rewrite <- (Hs _ _ _ E). apply IH.
Qed.

Lemma for_each_ok {A B} (step : A -> B -> result A) (f : A -> B -> A)
  (P : B -> Prop) (l : list B) (a : A) :
  (forall a x, P x -> step a x = Ok (f a x)) ->
  (forall x, In x l -> P x) ->
  for_each step l a = Ok (fold_left f l a).
Proof.
  intros Hs. revert a. induction l as [|x l IH]; intros a Hl; simpl; [reflexivity|].
  rewrite Hs by (apply Hl; now left). simpl. apply IH. intros; apply Hl; now right.
Qed.

Lemma for_each_raises {A B} (step : A -> B -> result A) (P : exception -> Prop)
  (l : list B) (a : A) (x : exception) :
  (forall a b x, step a b = Raise x -> P x) ->
  for_each step l a = Raise x -> P x.
Proof.
  intros Hs. revert a. induction l as [|b l IH]; intros a; simpl; [discriminate|].
  destruct (step a b) as [a1|ex] eqn:E; simpl.
  - apply IH.
  - intros H. inversion H; subst. eapply Hs, E.
Qed.

(** ** The driver *)

Lemma adapt_str (s : string) (rest : list param) :
  adapt (PStr s :: rest) = if has_nul s then Raise nul_refused else adapt rest.
Proof. unfold adapt. simpl. destruct (has_nul s); reflexivity. Qed.

Lemma adapt_ok (params : list param) :
  adapt params = Ok tt <-> forallb adaptable params = true.
Proof. unfold adapt. destruct (forallb adaptable params); split; congruence. Qed.

Lemma adapt_raises (params : list param) (x : exception) :
  adapt params = Raise x -> x = nul_refused.
Proof. unfold adapt. destruct (forallb adaptable params); intros H; inversion H; auto. Qed.

Lemma adapt_nim (n : string) : has_nul n = false -> adapt [PStr n] = Ok tt.
Proof. intros H. rewrite adapt_str, H. reflexivity. Qed.

Lemma adapt_nim_int (n : string) (z : Z) :
  has_nul n = false -> adapt [PStr n; PInt z] = Ok tt.
Proof. intros H. rewrite adapt_str, H. reflexivity. Qed.

(** ** The guarded division *)

Lemma guarded_div_total (x : float) (n : Z) (v : float) :
  guarded_div x n = Ok v -> v = quotient x n.
Proof.
  unfold guarded_div, quotient, truediv.
  destruct (n >? 0) eqn:E; [|intros H; now inversion H].
  destruct (float_of_int n) as [d|ex] eqn:Ed; simpl; [|discriminate].
  apply float_of_int_total in Ed. subst d.
  destruct (n =? 0); intros H; now inversion H.
Qed.

Lemma guarded_div_ok (x : float) (n : Z) :
  n <= 0 \/ converts n -> guarded_div x n = Ok (quotient x n).
Proof.
  unfold guarded_div, quotient, truediv, converts.
  destruct (n >? 0) eqn:E; [|reflexivity].
  apply Z.gtb_lt in E. intros [H|H]; [lia|]. rewrite H. simpl.
  assert ((n =? 0) = false) as -> by (apply Z.eqb_neq; lia).
  reflexivity.
Qed.

Lemma guarded_div_raises (x : float) (n : Z) (ex : exception) :
  guarded_div x n = Raise ex -> ex = OverflowError.
Proof.
  unfold guarded_div, truediv.
  destruct (n >? 0) eqn:E; [|discriminate].
  apply Z.gtb_lt in E.
  destruct (float_of_int n) as [d|ex'] eqn:Ed; simpl.
  - assert ((n =? 0) = false) as -> by (apply Z.eqb_neq; lia). discriminate.
  - intros H. inversion H; subst. eapply float_of_int_raises, Ed.
Qed.

(** ** The loop of the semester report *)

Lemma ips_step_total (a : ips_acc) (row : nilai_row) (a' : ips_acc) :
  ips_step a row = Ok a' -> a' = ips_next a row.
Proof.
  unfold ips_step. destruct (float_of_int (r_sks row)) as [f|ex] eqn:E; simpl; [|discriminate].
  apply float_of_int_total in E. subst f. intros H. now inversion H.
Qed.

Lemma ips_step_ok (a : ips_acc) (row : nilai_row) :
  converts (r_sks row) -> ips_step a row = Ok (ips_next a row).
Proof. unfold converts, ips_step. intros ->. reflexivity. Qed.

Lemma ips_step_raises (a : ips_acc) (row : nilai_row) (x : exception) :
  ips_step a row = Raise x -> x = OverflowError.
Proof.
  unfold ips_step. destruct (float_of_int (r_sks row)) as [f|ex] eqn:E; simpl; [discriminate|].
  intros H. inversion H; subst. eapply float_of_int_raises, E.
Qed.

Lemma ips_fold (rows : list nilai_row) (a : ips_acc) :
  fold_left ips_next rows a =
  {| acc_total_mutu := fold_left fadd (map mutu_of rows) (acc_total_mutu a);
     acc_total_sks := acc_total_sks a + sumZ (map r_sks rows);
     acc_mata_kuliah_list := acc_mata_kuliah_list a ++ map entry_of rows |}.
Proof.
  revert a. induction rows as [|row rows IH]; intros a; simpl.
  - destruct a; simpl. f_equal; [lia|now rewrite app_nil_r].
  - rewrite IH. cbn [ips_next acc_total_mutu acc_total_sks acc_mata_kuliah_list].
    f_equal; [lia|]. now rewrite <- app_assoc.
Qed.

Lemma ips_fold_init (rows : list nilai_row) : fold_left ips_next rows ips_init = ips_total rows.
Proof. rewrite ips_fold. reflexivity. Qed.

Lemma ips_loop_total (rows : list nilai_row) (a : ips_acc) :
  ips_loop rows = Ok a -> a = ips_total rows.
Proof.
  intros H. rewrite <- ips_fold_init.
  eapply for_each_total; [apply ips_step_total|exact H].
Qed.

Lemma ips_loop_ok (rows : list nilai_row) :
  (forall row, In row rows -> converts (r_sks row)) -> ips_loop rows = Ok (ips_total rows).
Proof.
  intros H. rewrite <- ips_fold_init. unfold ips_loop.
  apply (for_each_ok ips_step ips_next (fun row => converts (r_sks row))); [|exact H].
  intros a x. apply ips_step_ok.
Qed.

(** ** The semester handler, path by path *)

Lemma hitung_ips_nul (e : engine) (db : database) (n : string) (s : Z) :
  has_nul n = true ->
  hitung_ips e db n s = Raise (HTTPException 500 (str_exc nul_refused)).
Proof.
  intros H. unfold hitung_ips, hitung_ips_try. rewrite adapt_str, H. reflexivity.
Qed.

Lemma hitung_ips_no_student (e : engine) (db : database) (n : string) (s : Z) :
  has_nul n = false -> select_mahasiswa db n = [] ->
  hitung_ips e db n s = Raise (HTTPException 404 "Mahasiswa tidak ditemukan").
Proof.
  intros H E. unfold hitung_ips, hitung_ips_try. rewrite (adapt_nim n H). cbn [bind].
  rewrite E. assert (arrange e (@nil Mahasiswa) = []) as -> by now apply arrange_nil.
  reflexivity.
Qed.

Lemma hitung_ips_no_rows (e : engine) (db : database) (n : string) (s : Z)
  (mhs : Mahasiswa) :
  has_nul n = false -> fetchone (arrange e (select_mahasiswa db n)) = Some mhs ->
  rows_ips db n s = [] ->
  hitung_ips e db n s =
  Raise (HTTPException 404 ("Tidak ada data nilai untuk mahasiswa " ++ n
                              ++ " di semester " ++ str_Z s)).
Proof.
  intros H Hm E. unfold hitung_ips, hitung_ips_try.
  rewrite (adapt_nim n H). cbn [bind]. rewrite Hm, (adapt_nim_int n s H). cbn [bind].
  unfold query_ips. rewrite E.
  assert (arrange e (@nil nilai_row) = []) as -> by now apply arrange_nil.
  reflexivity.
Qed.

Lemma hitung_ips_run (e : engine) (db : database) (n : string) (s : Z) (mhs : Mahasiswa) :
  has_nul n = false -> fetchone (arrange e (select_mahasiswa db n)) = Some mhs ->
  query_ips e db n s <> [] ->
  (forall row, In row (query_ips e db n s) -> converts (r_sks row)) ->
  (sumZ (map r_sks (query_ips e db n s)) <= 0
   \/ converts (sumZ (map r_sks (query_ips e db n s)))) ->
  hitung_ips e db n s = Ok (ips_report_of n s mhs (query_ips e db n s)).
Proof.
  intros H Hm Hne Hrows Htotal. unfold hitung_ips, hitung_ips_try.
  rewrite (adapt_nim n H). cbn [bind]. rewrite Hm, (adapt_nim_int n s H). cbn [bind].
  destruct (query_ips e db n s) as [|row rows] eqn:E; [congruence|].
  rewrite (ips_loop_ok _ Hrows). cbn [bind ips_total acc_total_mutu acc_total_sks].
  rewrite (guarded_div_ok _ _ Htotal). reflexivity.
Qed.

Lemma hitung_ips_ok_inv (e : engine) (db : database) (n : string) (s : Z) (r : ips_report) :
  hitung_ips e db n s = Ok r ->
  exists mhs,
    has_nul n = false /\
    fetchone (arrange e (select_mahasiswa db n)) = Some mhs /\
    query_ips e db n s <> [] /\
    r = ips_report_of n s mhs (query_ips e db n s).
Proof.
  unfold hitung_ips, hitung_ips_try. rewrite adapt_str.
  destruct (has_nul n) eqn:Hn; [discriminate|]. cbn [adapt forallb bind].
  destruct (fetchone (arrange e (select_mahasiswa db n))) as [mhs|]; [|discriminate].
  rewrite (adapt_nim_int n s Hn). cbn [bind].
  destruct (query_ips e db n s) as [|row rows] eqn:E; [discriminate|].
  destruct (ips_loop (row :: rows)) as [a|ex] eqn:El; [|destruct ex; discriminate].
  apply ips_loop_total in El. subst a. cbn [bind ips_total acc_total_mutu acc_total_sks].
  destruct (guarded_div _ _) as [v|ex] eqn:Ev; [|destruct ex; discriminate].
  apply guarded_div_total in Ev. subst v. cbn [bind except_500].
  intros H. inversion H. exists mhs. repeat split. discriminate.
Qed.

(** The exceptions the [try] block of the semester handler can end in. *)
Lemma hitung_ips_try_raises (e : engine) (db : database) (n : string) (s : Z)
  (x : exception) :
  hitung_ips_try e db n s = Raise x ->
  x = nul_refused \/ x = OverflowError \/ exists d, x = HTTPException 404 d.
Proof.
  unfold hitung_ips_try. rewrite adapt_str.
  destruct (has_nul n) eqn:Hn; [intros H; inversion H; auto|]. cbn [adapt forallb bind].
  destruct (fetchone (arrange e (select_mahasiswa db n))) as [mhs|];
    [|intros H; inversion H; eauto].
  rewrite (adapt_nim_int n s Hn). cbn [bind].
  destruct (query_ips e db n s) as [|row rows] eqn:E; [intros H; inversion H; eauto|].
  destruct (ips_loop (row :: rows)) as [a|ex] eqn:El; cbn [bind].
  - destruct (guarded_div _ _) as [v|ex] eqn:Ev; cbn [bind]; [discriminate|].
    apply guarded_div_raises in Ev. intros H. inversion H; subst. auto.
  - intros H. inversion H; subst. right. left.
    eapply (for_each_raises ips_step (fun x => x = OverflowError)); [|exact El].
    intros a0 b x0. apply ips_step_raises.
Qed.

(** ** The loops of the cumulative report *)

Lemma ipk_step_total (a : ipk_acc) (row : nilai_row) (a' : ipk_acc) :
  ipk_step a row = Ok a' -> a' = ipk_next a row.
Proof.
  unfold ipk_step. destruct (float_of_int (r_sks row)) as [f|ex] eqn:E; simpl; [|discriminate].
  apply float_of_int_total in E. subst f. intros H. now inversion H.
Qed.

Lemma ipk_step_ok (a : ipk_acc) (row : nilai_row) :
  converts (r_sks row) -> ipk_step a row = Ok (ipk_next a row).
Proof. unfold converts, ipk_step. intros ->. reflexivity. Qed.

Lemma ipk_step_raises (a : ipk_acc) (row : nilai_row) (x : exception) :
  ipk_step a row = Raise x -> x = OverflowError.
Proof.
  unfold ipk_step. destruct (float_of_int (r_sks row)) as [f|ex] eqn:E; simpl; [discriminate|].
  intros H. inversion H; subst. eapply float_of_int_raises, E.
Qed.

Lemma ipk_loop_total (rows : list nilai_row) (a : ipk_acc) :
  ipk_loop rows = Ok a -> a = ipk_total rows.
Proof. apply for_each_total, ipk_step_total. Qed.

Lemma ipk_loop_ok (rows : list nilai_row) :
  (forall row, In row rows -> converts (r_sks row)) -> ipk_loop rows = Ok (ipk_total rows).
Proof.
  intros H. unfold ipk_loop, ipk_total.
  apply (for_each_ok ipk_step ipk_next (fun row => converts (r_sks row))); [|exact H].
  intros a x. apply ipk_step_ok.
Qed.

Lemma sem_finish_total (e e' : sem_entry) : sem_finish e = Ok e' -> e' = sem_finished e.
Proof.
  unfold sem_finish. destruct (guarded_div _ _) as [v|ex] eqn:Ev; simpl; [|discriminate].
  apply guarded_div_total in Ev. subst v. intros H. now inversion H.
Qed.

Lemma sem_finish_ok (e : sem_entry) :
  s_total_sks e <= 0 \/ converts (s_total_sks e) -> sem_finish e = Ok (sem_finished e).
Proof. intros H. unfold sem_finish. rewrite (guarded_div_ok _ _ H). reflexivity. Qed.

Lemma sem_finish_raises (e : sem_entry) (x : exception) :
  sem_finish e = Raise x -> x = OverflowError.
Proof.
  unfold sem_finish. destruct (guarded_div _ _) as [v|ex] eqn:Ev; simpl; [discriminate|].
  intros H. inversion H; subst. eapply guarded_div_raises, Ev.
Qed.

Lemma finish_all_total (d d' : per_semester_dict) :
  finish_all d = Ok d' -> d' = map (fun ke => (fst ke, sem_finished (snd ke))) d.
Proof.
  revert d'. induction d as [|[k e] d IH]; intros d'; simpl.
  - intros H. now inversion H.
  - destruct (sem_finish e) as [e1|ex] eqn:E1; simpl; [|discriminate].
    destruct (finish_all d) as [d1|ex] eqn:E2; simpl; [|discriminate].
    intros H. inversion H. apply sem_finish_total in E1. subst e1.
    now rewrite (IH d1 eq_refl).
Qed.

Lemma finish_all_ok (d : per_semester_dict) :
  (forall k e, In (k, e) d -> s_total_sks e <= 0 \/ converts (s_total_sks e)) ->
  finish_all d = Ok (map (fun ke => (fst ke, sem_finished (snd ke))) d).
Proof.
  induction d as [|[k e] d IH]; intros H; simpl; [reflexivity|].
  rewrite sem_finish_ok by (apply (H k); now left). simpl.
  rewrite IH by (intros k0 e0 H0; apply (H k0); now right). reflexivity.
Qed.

Lemma finish_all_raises (d : per_semester_dict) (x : exception) :
  finish_all d = Raise x -> x = OverflowError.
Proof.
  induction d as [|[k e] d IH]; simpl; [discriminate|].
  destruct (sem_finish e) as [e1|ex] eqn:E1; simpl.
  - destruct (finish_all d) as [d1|ex] eqn:E2; simpl; [discriminate|].
    intros H. inversion H; subst. now apply IH.
  - intros H. inversion H; subst. eapply sem_finish_raises, E1.
Qed.

Lemma ipk_fold_totals (rows : list nilai_row) (a : ipk_acc) :
  acc_total_sks_kumulatif (fold_left ipk_next rows a)
    = acc_total_sks_kumulatif a + sumZ (map r_sks rows) /\
  acc_total_mutu_kumulatif (fold_left ipk_next rows a)
    = fold_left fadd (map mutu_of rows) (acc_total_mutu_kumulatif a).
Proof.
  revert a. induction rows as [|row rows IH]; intros a; simpl.
  - split; [lia|reflexivity].
  - destruct (IH (ipk_next a row)) as [H1 H2]. rewrite H1, H2.
    cbn [ipk_next acc_total_sks_kumulatif acc_total_mutu_kumulatif].
    split; [lia|reflexivity].
Qed.

Lemma ipk_total_sks (rows : list nilai_row) :
  acc_total_sks_kumulatif (ipk_total rows) = sumZ (map r_sks rows).
Proof. unfold ipk_total. now rewrite (proj1 (ipk_fold_totals rows ipk_init)). Qed.

Lemma ipk_total_mutu (rows : list nilai_row) :
  acc_total_mutu_kumulatif (ipk_total rows) = fsum (map mutu_of rows).
Proof. unfold ipk_total. now rewrite (proj2 (ipk_fold_totals rows ipk_init)). Qed.

(** ** The cumulative handler, path by path *)

Lemma hitung_ipk_nul (e : engine) (db : database) (n : string) :
  has_nul n = true ->
  hitung_ipk e db n = Raise (HTTPException 500 (str_exc nul_refused)).
Proof.
  intros H. unfold hitung_ipk, hitung_ipk_try. rewrite adapt_str, H. reflexivity.
Qed.

Lemma hitung_ipk_no_student (e : engine) (db : database) (n : string) :
  has_nul n = false -> select_mahasiswa db n = [] ->
  hitung_ipk e db n = Raise (HTTPException 404 "Mahasiswa tidak ditemukan").
Proof.
  intros H E. unfold hitung_ipk, hitung_ipk_try. rewrite (adapt_nim n H). cbn [bind].
  rewrite E. assert (arrange e (@nil Mahasiswa) = []) as -> by now apply arrange_nil.
  reflexivity.
Qed.

Lemma query_ipk_nil (e : engine) (db : database) (n : string) :
  query_ipk e db n = [] <-> rows_ipk db n = [].
Proof.
  unfold query_ipk. split.
  - intros H. apply sort_by_nil in H. now apply arrange_nil in H.
  - intros ->. assert (arrange e (@nil nilai_row) = []) as -> by now apply arrange_nil.
    reflexivity.
Qed.

Lemma hitung_ipk_no_rows (e : engine) (db : database) (n : string) (mhs : Mahasiswa) :
  has_nul n = false -> fetchone (arrange e (select_mahasiswa db n)) = Some mhs ->
  rows_ipk db n = [] ->
  hitung_ipk e db n =
  Raise (HTTPException 404 ("Tidak ada data nilai untuk mahasiswa " ++ n)).
Proof.
  intros H Hm E. unfold hitung_ipk, hitung_ipk_try.
  rewrite (adapt_nim n H). cbn [bind]. rewrite Hm.
  apply (query_ipk_nil e) in E. rewrite E. reflexivity.
Qed.

Lemma hitung_ipk_run (e : engine) (db : database) (n : string) (mhs : Mahasiswa) :
  has_nul n = false -> fetchone (arrange e (select_mahasiswa db n)) = Some mhs ->
  query_ipk e db n <> [] ->
  (forall row, In row (query_ipk e db n) -> converts (r_sks row)) ->
  (forall k x, In (k, x) (acc_per_semester (ipk_total (query_ipk e db n))) ->
     s_total_sks x <= 0 \/ converts (s_total_sks x)) ->
  (sumZ (map r_sks (query_ipk e db n)) <= 0
   \/ converts (sumZ (map r_sks (query_ipk e db n)))) ->
  hitung_ipk e db n = Ok (ipk_report_of n mhs (query_ipk e db n)).
Proof.
  intros H Hm Hne Hrows Hdict Htotal. unfold hitung_ipk, hitung_ipk_try.
  rewrite (adapt_nim n H). cbn [bind]. rewrite Hm.
  destruct (query_ipk e db n) as [|row rows] eqn:E; [congruence|].
  rewrite (ipk_loop_ok _ Hrows). cbn [bind].
  rewrite (finish_all_ok _ Hdict). cbn [bind].
  rewrite ipk_total_sks, ipk_total_mutu, (guarded_div_ok _ _ Htotal). cbn [bind except_500].
  unfold ipk_report_of, dict_values. rewrite !map_map. reflexivity.
Qed.

Lemma hitung_ipk_ok_inv (e : engine) (db : database) (n : string) (c : ipk_report) :
  hitung_ipk e db n = Ok c ->
  exists mhs,
    has_nul n = false /\
    fetchone (arrange e (select_mahasiswa db n)) = Some mhs /\
    query_ipk e db n <> [] /\
    c = ipk_report_of n mhs (query_ipk e db n).
Proof.
  unfold hitung_ipk, hitung_ipk_try. rewrite adapt_str.
  destruct (has_nul n) eqn:Hn; [discriminate|]. cbn [adapt forallb bind].
  destruct (fetchone (arrange e (select_mahasiswa db n))) as [mhs|]; [|discriminate].
  destruct (query_ipk e db n) as [|row rows] eqn:E; [discriminate|].
  destruct (ipk_loop (row :: rows)) as [a|ex] eqn:El; [|destruct ex; discriminate].
  apply ipk_loop_total in El. subst a. cbn [bind].
  destruct (finish_all _) as [d|ex] eqn:Ed; [|destruct ex; discriminate].
  apply finish_all_total in Ed. subst d. cbn [bind].
  destruct (guarded_div _ _) as [v|ex] eqn:Ev; [|destruct ex; discriminate].
  apply guarded_div_total in Ev. subst v. cbn [bind except_500].
  rewrite ipk_total_sks, ipk_total_mutu.
  intros H. inversion H. exists mhs. repeat split; [discriminate|].
  unfold ipk_report_of, dict_values. rewrite !map_map. reflexivity.
Qed.

(** The exceptions the [try] block of the cumulative handler can end in. *)
Lemma hitung_ipk_try_raises (e : engine) (db : database) (n : string) (x : exception) :
  hitung_ipk_try e db n = Raise x ->
  x = nul_refused \/ x = OverflowError \/ exists d, x = HTTPException 404 d.
Proof.
  unfold hitung_ipk_try. rewrite adapt_str.
  destruct (has_nul n) eqn:Hn; [intros H; inversion H; auto|]. cbn [adapt forallb bind].
  destruct (fetchone (arrange e (select_mahasiswa db n))) as [mhs|];
    [|intros H; inversion H; eauto].
  destruct (query_ipk e db n) as [|row rows] eqn:E; [intros H; inversion H; eauto|].
  destruct (ipk_loop (row :: rows)) as [a|ex] eqn:El; cbn [bind].
  - destruct (finish_all _) as [d|ex] eqn:Ed; cbn [bind].
    + destruct (guarded_div _ _) as [v|ex] eqn:Ev; cbn [bind]; [discriminate|].
      apply guarded_div_raises in Ev. intros H. inversion H; subst. auto.
    + apply finish_all_raises in Ed. intros H. inversion H; subst. auto.
  - intros H. inversion H; subst. right. left.
    eapply (for_each_raises ipk_step (fun x => x = OverflowError)); [|exact El].
    intros a0 b x0. apply ipk_step_raises.
Qed.

(** ** What the store holds *)

Lemma student_known_dec (db : database) (n : string) :
  {student_known db n} + {~ student_known db n}.
Proof. apply in_dec, string_dec. Qed.

Lemma course_known_dec (db : database) (c : string) :
  {course_known db c} + {~ course_known db c}.
Proof. apply in_dec, string_dec. Qed.

Lemma select_mahasiswa_nil (db : database) (n : string) :
  select_mahasiswa db n = [] <-> ~ student_known db n.
Proof.
  unfold select_mahasiswa, student_known.
  rewrite filter_nil_iff, in_map_iff. split.
  - intros H [m [Hm Hin]]. specialize (H m Hin). subst n.
    rewrite String.eqb_refl in H. discriminate.
  - intros H m Hin. destruct (String.eqb (nim m) n) eqn:E; [|reflexivity].
    apply String.eqb_eq in E. exfalso. apply H. now exists m.
Qed.

Lemma select_mahasiswa_none (db : database) (n : string) :
  fetchone (select_mahasiswa db n) = None <-> ~ student_known db n.
Proof. rewrite fetchone_none. apply select_mahasiswa_nil. Qed.

Lemma select_mata_kuliah_none (db : database) (c : string) :
  fetchone (select_mata_kuliah db c) = None <-> ~ course_known db c.
Proof.
  rewrite fetchone_none. unfold select_mata_kuliah, course_known.
  rewrite filter_nil_iff, in_map_iff. split.
  - intros H [m [Hm Hin]]. specialize (H m Hin). subst c.
    rewrite String.eqb_refl in H. discriminate.
  - intros H m Hin. destruct (String.eqb (kode_mk m) c) eqn:E; [|reflexivity].
    apply String.eqb_eq in E. exfalso. apply H. now exists m.
Qed.

Lemma select_krs_none (db : database) (n c : string) (s : Z) :
  fetchone (select_krs db n c s) = None <-> ~ enrolled db n c s.
Proof.
  rewrite fetchone_none. unfold select_krs, enrolled.
  rewrite filter_nil_iff. split.
  - intros H [k [Hin [Hn [Hc Hs]]]]. specialize (H k Hin). subst.
    rewrite !String.eqb_refl, Z.eqb_refl in H. discriminate.
  - intros H k Hin.
    destruct (String.eqb (k_nim k) n) eqn:E1; [|reflexivity].
    destruct (String.eqb (k_kode_mk k) c) eqn:E2; [|reflexivity].
    destruct (k_semester k =? s) eqn:E3; [|reflexivity].
    apply String.eqb_eq in E1, E2. apply Z.eqb_eq in E3.
    exfalso. apply H. exists k. auto.
Qed.

(** The student row the two report handlers fetch. *)
Lemma fetch_mahasiswa_inv (e : engine) (db : database) (n : string) (mhs : Mahasiswa) :
  fetchone (arrange e (select_mahasiswa db n)) = Some mhs ->
  In mhs (mahasiswa db) /\ nim mhs = n.
Proof.
  intros H. apply fetchone_in, in_arrange in H.
  apply filter_In in H. destruct H as [Hin Hb]. apply String.eqb_eq in Hb. auto.
Qed.

Lemma fetch_mahasiswa_known (e : engine) (db : database) (n : string) :
  student_known db n ->
  exists mhs, fetchone (arrange e (select_mahasiswa db n)) = Some mhs.
Proof.
  intros H. destruct (fetchone (arrange e (select_mahasiswa db n))) as [mhs|] eqn:E.
  - now exists mhs.
  - apply fetchone_none, arrange_nil, select_mahasiswa_nil in E. contradiction.
Qed.

Lemma fetch_mahasiswa_unknown (e : engine) (db : database) (n : string) :
  ~ student_known db n -> fetchone (arrange e (select_mahasiswa db n)) = None.
Proof.
  intros H. apply select_mahasiswa_nil in H. rewrite H.
  apply fetchone_none. now apply arrange_nil.
Qed.

Lemma known_clean (db : database) (n : string) :
  wf db -> student_known db n -> has_nul n = false.
Proof.
  intros Hwf H. apply in_map_iff in H. destruct H as [m [<- Hm]].
  now apply (wf_text_mahasiswa db Hwf).
Qed.

Lemma term_enrollments_in (db : database) (n : string) (s : Z) (k : krs_row) :
  In k (term_enrollments db n s) -> In k (krs db) /\ k_nim k = n /\ k_semester k = s.
Proof.
  unfold term_enrollments. rewrite filter_In. intros [Hin Hb].
  apply andb_prop in Hb. destruct Hb as [H1 H2].
  apply String.eqb_eq in H1. apply Z.eqb_eq in H2. auto.
Qed.

Lemma all_enrollments_in (db : database) (n : string) (k : krs_row) :
  In k (all_enrollments db n) -> In k (krs db) /\ k_nim k = n.
Proof.
  unfold all_enrollments. rewrite filter_In. intros [Hin Hb].
  apply String.eqb_eq in Hb. auto.
Qed.

Lemma term_of_all (db : database) (n : string) (s : Z) :
  filter (fun k => k_semester k =? s) (all_enrollments db n) = term_enrollments db n s.
Proof. unfold all_enrollments, term_enrollments. apply filter_filter_andb. Qed.

Lemma delivered_ips_perm (e : engine) (db : database) (n : string) (s : Z) :
  Permutation (delivered_ips e db n s) (term_enrollments db n s).
Proof. apply arrange_perm. Qed.

Lemma delivered_ipk_perm (e : engine) (db : database) (n : string) :
  Permutation (delivered_ipk e db n) (all_enrollments db n).
Proof.
  unfold delivered_ipk. eapply perm_trans; [apply sort_by_perm|apply arrange_perm].
Qed.

Lemma delivered_term_perm (e : engine) (db : database) (n : string) (s : Z) :
  Permutation (delivered_term e db n s) (term_enrollments db n s).
Proof.
  unfold delivered_term. rewrite <- term_of_all. apply filter_perm, arrange_perm.
Qed.

Lemma delivered_term_of_ipk (e : engine) (db : database) (n : string) (s : Z) :
  filter (fun k => k_semester k =? s) (delivered_ipk e db n) = delivered_term e db n s.
Proof. unfold delivered_ipk, delivered_term. apply filter_sort_by. Qed.

(** ** The joins under the invariant *)

Lemma filter_unique {A} (key : A -> string) (c : string) (l : list A) :
  NoDup (map key l) ->
  filter (fun x => String.eqb c (key x)) l =
  match find (fun x => String.eqb c (key x)) l with
  | Some x => [x]
  | None => []
  end.
Proof.
  induction l as [|a l IH]; simpl; intros Hnd; [reflexivity|].
  inversion Hnd as [|? ? Hnotin Hnd']; subst.
  destruct (String.eqb c (key a)) eqn:E.
  - f_equal. apply filter_nil_iff. intros x Hx.
    destruct (String.eqb c (key x)) eqn:Ex; [|reflexivity].
    apply String.eqb_eq in E, Ex. exfalso. apply Hnotin.
    rewrite <- E, Ex. now apply in_map.
  - now apply IH.
Qed.

Lemma find_known {A} (key : A -> string) (c : string) (l : list A) :
  In c (map key l) ->
  exists x, find (fun x => String.eqb c (key x)) l = Some x /\ In x l /\ key x = c.
Proof.
  induction l as [|a l IH]; simpl; [tauto|].
  intros [H|H].
  - exists a. subst c. rewrite String.eqb_refl. auto.
  - destruct (String.eqb c (key a)) eqn:E.
    + exists a. apply String.eqb_eq in E. auto.
    + destruct (IH H) as [x [H1 [H2 H3]]]. exists x. auto.
Qed.

Lemma find_unlisted {A} (key : A -> string) (c : string) (l : list A) :
  ~ In c (map key l) -> find (fun x => String.eqb c (key x)) l = None.
Proof.
  induction l as [|a l IH]; simpl; [reflexivity|].
  intros H. destruct (String.eqb c (key a)) eqn:E.
  - apply String.eqb_eq in E. exfalso. apply H. left. congruence.
  - apply IH. tauto.
Qed.

Lemma left_join_bobot_unique (db : database) (g : option string) :
  NoDup (map bn_nilai (bobot_nilai db)) ->
  left_join_bobot db g =
  [match g with
   | None => None
   | Some s =>
     match find (fun bn => String.eqb s (bn_nilai bn)) (bobot_nilai db) with
     | Some bn => Some (bn_bobot bn)
     | None => None
     end
   end].
Proof.
  intros Hnd. unfold left_join_bobot. destruct g as [s|]; simpl.
  - change (nilai_matches (Some s)) with (fun bn => String.eqb s (bn_nilai bn)).
    rewrite (filter_unique bn_nilai s _ Hnd).
    destruct (find _ (bobot_nilai db)); reflexivity.
  - assert (E : filter (nilai_matches None) (bobot_nilai db) = []).
    { apply filter_nil_iff. reflexivity. }
    rewrite E. reflexivity.
Qed.

Lemma unlisted_left_join (db : database) (s : string) :
  ~ In s (map bn_nilai (bobot_nilai db)) -> left_join_bobot db (Some s) = [None].
Proof.
  intros H. unfold left_join_bobot.
  assert (E : filter (nilai_matches (Some s)) (bobot_nilai db) = []).
  { apply filter_nil_iff. intros bn Hbn. simpl.
    apply String.eqb_neq. intros ->. apply H. now apply in_map. }
  rewrite E. reflexivity.
Qed.

Lemma absent_left_join (db : database) : left_join_bobot db None = [None].
Proof.
  unfold left_join_bobot.
  assert (E : filter (nilai_matches None) (bobot_nilai db) = []).
  { apply filter_nil_iff. reflexivity. }
  rewrite E. reflexivity.
Qed.

Lemma ungraded_left_join (db : database) (k : krs_row) :
  ungraded db k -> left_join_bobot db (k_nilai k) = [None].
Proof.
  intros [H|[g [H Hg]]]; rewrite H; [apply absent_left_join|now apply unlisted_left_join].
Qed.

Lemma left_join_bobot_inhabited (db : database) (g : option string) :
  exists b, In b (left_join_bobot db g).
Proof.
  unfold left_join_bobot.
  destruct (filter (nilai_matches g) (bobot_nilai db)) as [|bn l].
  - exists None. now left.
  - exists (Some (bn_bobot bn)). now left.
Qed.

Lemma joined_in (db : database) (k : krs_row) (row : nilai_row) :
  In row (joined db k) ->
  r_semester row = k_semester k /\ r_kode_mk row = k_kode_mk k /\
  r_nilai row = k_nilai k /\ In (r_bobot row) (left_join_bobot db (k_nilai k)) /\
  exists mk, In mk (mata_kuliah db) /\ kode_mk mk = k_kode_mk k /\
             r_nama_mk row = nama_mk mk /\ r_sks row = sks mk.
Proof.
  unfold joined. rewrite in_flat_map. intros [mk [Hmk H]].
  apply in_map_iff in H. destruct H as [b [<- Hb]]. cbn.
  apply filter_In in Hmk. destruct Hmk as [Hmk E]. apply String.eqb_eq in E.
  repeat split; auto. exists mk. auto.
Qed.

Lemma joined_row_of (db : database) (k : krs_row) :
  wf db -> course_known db (k_kode_mk k) -> joined db k = [row_of db k].
Proof.
  intros Hwf Hc. unfold joined, join_mata_kuliah.
  rewrite (filter_unique kode_mk (k_kode_mk k) _ (wf_kode_unique db Hwf)).
  destruct (find_known kode_mk _ _ Hc) as [mk [Hf _]].
  unfold row_of, spec_credit. rewrite Hf. simpl.
  rewrite (left_join_bobot_unique db _ (wf_nilai_unique db Hwf)). reflexivity.
Qed.

Lemma flat_map_joined (db : database) (ks : list krs_row) :
  wf db -> (forall k, In k ks -> In k (krs db)) ->
  flat_map (joined db) ks = map (row_of db) ks.
Proof.
  intros Hwf. induction ks as [|k ks IH]; intros Hin; simpl; [reflexivity|].
  rewrite joined_row_of; auto.
  - simpl. f_equal. apply IH. intros; apply Hin; now right.
  - apply (wf_krs_course db Hwf). apply Hin. now left.
Qed.

Lemma rows_ips_spec (db : database) (n : string) (s : Z) :
  wf db -> rows_ips db n s = map (row_of db) (term_enrollments db n s).
Proof.
  intros Hwf. unfold rows_ips. apply flat_map_joined; auto.
  intros k Hk. apply filter_In in Hk. tauto.
Qed.

Lemma rows_ipk_spec (db : database) (n : string) :
  wf db -> rows_ipk db n = map (row_of db) (all_enrollments db n).
Proof.
  intros Hwf. unfold rows_ipk. apply flat_map_joined; auto.
  intros k Hk. apply filter_In in Hk. tauto.
Qed.

Lemma query_ips_spec (e : engine) (db : database) (n : string) (s : Z) :
  wf db -> query_ips e db n s = map (row_of db) (delivered_ips e db n s).
Proof.
  intros Hwf. unfold query_ips, delivered_ips.
  now rewrite (rows_ips_spec db n s Hwf), arrange_map.
Qed.

Lemma query_ipk_spec (e : engine) (db : database) (n : string) :
  wf db -> query_ipk e db n = map (row_of db) (delivered_ipk e db n).
Proof.
  intros Hwf. unfold query_ipk, delivered_ipk.
  rewrite (rows_ipk_spec db n Hwf), arrange_map.
  symmetry. apply map_sort_by. reflexivity.
Qed.

Lemma bobot_of_row_of (db : database) (k : krs_row) :
  bobot_of (r_bobot (row_of db k)) = spec_weight db (k_nilai k).
Proof.
  rewrite bobot_of_float. unfold row_of, spec_weight; cbn [r_bobot].
  destruct (k_nilai k) as [s|]; [|reflexivity].
  destruct (find _ (bobot_nilai db)) as [bn|]; reflexivity.
Qed.

Lemma mutu_of_row_of (db : database) (k : krs_row) :
  mutu_of (row_of db k) = spec_quality db k.
Proof. unfold mutu_of, spec_quality. now rewrite bobot_of_row_of. Qed.

Lemma rows_total_sks (db : database) (ks : list krs_row) :
  sumZ (map r_sks (map (row_of db) ks)) = spec_total_credit db ks.
Proof. unfold spec_total_credit. rewrite map_map. reflexivity. Qed.

Lemma rows_total_mutu (db : database) (ks : list krs_row) :
  fsum (map mutu_of (map (row_of db) ks)) = spec_total_quality db ks.
Proof.
  unfold spec_total_quality. rewrite map_map. f_equal.
  apply map_ext. intros k. apply mutu_of_row_of.
Qed.

Lemma spec_total_credit_perm (db : database) (l l' : list krs_row) :
  Permutation l l' -> spec_total_credit db l = spec_total_credit db l'.
Proof. intros H. unfold spec_total_credit. now apply sumZ_perm, Permutation_map. Qed.

Lemma spec_credit_pos (db : database) (c : string) :
  wf db -> course_known db c -> 1 <= spec_credit db c <= 6.
Proof.
  intros Hwf Hc. destruct (find_known kode_mk _ _ Hc) as [mk [Hf [Hin _]]].
  unfold spec_credit. rewrite Hf. now apply (wf_sks db Hwf).
Qed.

Lemma spec_credit_nonneg (db : database) (c : string) : wf db -> 0 <= spec_credit db c.
Proof.
  intros Hwf. unfold spec_credit.
  destruct (find _ (mata_kuliah db)) as [mk|] eqn:E; [|lia].
  apply find_some in E. destruct E as [E _]. apply (wf_sks db Hwf) in E. lia.
Qed.

Lemma spec_total_credit_nonneg (db : database) (ks : list krs_row) :
  wf db -> 0 <= spec_total_credit db ks.
Proof.
  intros Hwf. apply sumZ_nonneg. intros x Hx. apply in_map_iff in Hx.
  destruct Hx as [k [<- _]]. now apply spec_credit_nonneg.
Qed.

Lemma spec_total_credit_pos (db : database) (ks : list krs_row) :
  wf db -> (forall k, In k ks -> In k (krs db)) -> ks <> [] ->
  0 < spec_total_credit db ks.
Proof.
  intros Hwf Hin Hne. destruct ks as [|k ks]; [congruence|].
  unfold spec_total_credit; simpl.
  assert (1 <= spec_credit db (k_kode_mk k) <= 6).
  { apply spec_credit_pos; auto. apply (wf_krs_course db Hwf). apply Hin. now left. }
  pose proof (spec_total_credit_nonneg db ks Hwf) as H0.
  unfold spec_total_credit in H0. lia.
Qed.

Lemma spec_total_credit_filter (db : database) (p : krs_row -> bool) (ks : list krs_row) :
  wf db -> spec_total_credit db (filter p ks) <= spec_total_credit db ks.
Proof.
  intros Hwf. apply sumZ_filter_le. intros k _. now apply spec_credit_nonneg.
Qed.

Lemma row_of_converts (db : database) (k : krs_row) :
  wf db -> converts (r_sks (row_of db k)).
Proof.
  intros Hwf. apply converts_small. cbn [row_of r_sks].
  pose proof (spec_credit_nonneg db (k_kode_mk k) Hwf).
  unfold spec_credit in *. destruct (find _ (mata_kuliah db)) as [mk|] eqn:E; [|lia].
  apply find_some in E. destruct E as [E _]. apply (wf_sks db Hwf) in E. lia.
Qed.

Lemma rows_convert (db : database) (ks : list krs_row) (row : nilai_row) :
  wf db -> In row (map (row_of db) ks) -> converts (r_sks row).
Proof.
  intros Hwf H. apply in_map_iff in H. destruct H as [k [<- _]].
  now apply row_of_converts.
Qed.

Lemma quotient_pos (x : float) (n : Z) : 0 < n -> quotient x n = fdiv x (float_of_Z n).
Proof.
  intros H. unfold quotient.
  assert ((n >? 0) = true) as -> by (apply Z.gtb_lt; lia). reflexivity.
Qed.



Lemma ungraded_weight (db : database) (k : krs_row) :
  ungraded db k -> spec_weight db (k_nilai k) = pos_zero.
Proof.
  intros [H|[g [H Hg]]]; rewrite H; simpl; [reflexivity|].
  now rewrite (find_unlisted bn_nilai g _ Hg).
Qed.

Lemma ungraded_quality (db : database) (k : krs_row) :
  wf db -> ungraded db k -> spec_quality db k = pos_zero.
Proof.
  intros Hwf H. unfold spec_quality. rewrite (ungraded_weight db k H).
  apply fmul_zero_l, float_of_Z_small.
  pose proof (spec_credit_nonneg db (k_kode_mk k) Hwf).
  unfold spec_credit in *. destruct (find _ (mata_kuliah db)) as [mk|] eqn:E; [|lia].
  apply find_some in E. destruct E as [E _]. apply (wf_sks db Hwf) in E. lia.
Qed.



(** ** The reports on a store that satisfies the invariant *)

(** What the semester handler returns, in the specification's terms. *)
Lemma hitung_ips_spec (e : engine) (db : database) (n : string) (s : Z) :
  wf db -> student_known db n -> term_enrollments db n s <> [] ->
  spec_total_credit db (term_enrollments db n s) < 2 ^ 53 ->
  exists mhs,
    In mhs (mahasiswa db) /\ nim mhs = n /\
    hitung_ips e db n s
    = Ok (ips_report_of n s mhs (map (row_of db) (delivered_ips e db n s))).
Proof.
  intros Hwf Hs Hne Hbound.
  destruct (fetch_mahasiswa_known e db n Hs) as [mhs Hm].
  destruct (fetch_mahasiswa_inv e db n mhs Hm) as [Hin Hn].
  exists mhs. split; [exact Hin|]. split; [exact Hn|].
  rewrite <- (query_ips_spec e db n s Hwf).
  apply hitung_ips_run; auto.
  - now apply (known_clean db).
  - unfold query_ips. rewrite arrange_nil, (rows_ips_spec db n s Hwf).
    intros E. apply map_eq_nil in E. contradiction.
  - rewrite (query_ips_spec e db n s Hwf). intros row. now apply rows_convert.
  - right. rewrite (query_ips_spec e db n s Hwf), rows_total_sks.
    rewrite (spec_total_credit_perm db _ _ (delivered_ips_perm e db n s)).
    apply converts_small. split; [now apply spec_total_credit_nonneg|exact Hbound].
Qed.

Lemma ips_report_of_spec (e : engine) (db : database) (n : string) (s : Z)
  (mhs : Mahasiswa) :
  wf db -> term_enrollments db n s <> [] ->
  let ks := delivered_ips e db n s in
  let r := ips_report_of n s mhs (map (row_of db) ks) in
  ips_mata_kuliah r = map entry_of (map (row_of db) ks) /\
  ips_total_sks r = spec_total_credit db (term_enrollments db n s) /\
  ips_total_mutu r = py_round2 (spec_total_quality db ks) /\
  ips r = py_round2 (spec_gpa db ks).
Proof.
  intros Hwf Hne ks r. subst r ks. unfold ips_report_of.
  cbn [ips_mata_kuliah ips_total_sks ips_total_mutu ips].
  rewrite rows_total_sks, rows_total_mutu.
  split; [reflexivity|]. split; [apply spec_total_credit_perm, delivered_ips_perm|].
  split; [reflexivity|].
  rewrite quotient_pos; [reflexivity|].
  rewrite (spec_total_credit_perm db _ _ (delivered_ips_perm e db n s)).
  apply spec_total_credit_pos; auto.
  intros k Hk. now apply term_enrollments_in in Hk.
Qed.

(** ** Cumulative GPA: the per-term dictionary *)

Lemma dict_mem_in (s : Z) (d : per_semester_dict) :
  dict_mem s d = true <-> In s (map fst d).
Proof.
  induction d as [|[k e] d IH]; simpl; [split; [discriminate|tauto]|].
  rewrite orb_true_iff, IH, Z.eqb_eq. tauto.
Qed.

Lemma dict_update_keys (s : Z) (f : sem_entry -> sem_entry) (d : per_semester_dict) :
  map fst (dict_update s f d) = map fst d.
Proof.
  induction d as [|[k e] d IH]; simpl; [reflexivity|].
  destruct (k =? s); simpl; [reflexivity|]. now rewrite IH.
Qed.

Lemma dict_update_in (s : Z) (f : sem_entry -> sem_entry) (d : per_semester_dict)
  (k : Z) (e' : sem_entry) :
  NoDup (map fst d) -> In (k, e') (dict_update s f d) ->
  (k = s /\ exists e, In (s, e) d /\ e' = f e) \/ (k <> s /\ In (k, e') d).
Proof.
  induction d as [|[k0 e0] d IH]; simpl; [tauto|].
  intros Hnd Hin. inversion Hnd as [|? ? Hnotin Hnd']; subst.
  destruct (k0 =? s) eqn:E.
  - apply Z.eqb_eq in E. subst k0. destruct Hin as [Hin|Hin].
    + inversion Hin; subst. left. split; [reflexivity|]. exists e0. auto.
    + right. split; [|now right].
      intros ->. apply Hnotin. apply in_map_iff. now exists (s, e').
  - apply Z.eqb_neq in E. destruct Hin as [Hin|Hin].
    + inversion Hin; subst. right. auto.
    + destruct (IH Hnd' Hin) as [[-> [e [He ->]]]|[Hk He]].
      * left. split; [reflexivity|]. exists e. auto.
      * right. auto.
Qed.

Lemma sem_rows_snoc (s : Z) (rows : list nilai_row) (row : nilai_row) :
  sem_rows s (rows ++ [row]) =
  sem_rows s rows ++ (if r_semester row =? s then [row] else []).
Proof. unfold sem_rows. rewrite filter_app. reflexivity. Qed.

Lemma sem_rows_absent (s : Z) (rows : list nilai_row) :
  ~ In s (map r_semester rows) -> sem_rows s rows = [].
Proof.
  intros H. apply filter_nil_iff. intros r Hr.
  apply Z.eqb_neq. intros E. apply H. rewrite <- E. now apply in_map.
Qed.

Lemma ipk_total_snoc (rows : list nilai_row) (row : nilai_row) :
  ipk_total (rows ++ [row]) = ipk_next (ipk_total rows) row.
Proof. unfold ipk_total. now rewrite fold_left_app. Qed.

Lemma dict_step_ok (rows : list nilai_row) (row : nilai_row) (a : ipk_acc) :
  dict_ok rows (acc_per_semester a) ->
  dict_ok (rows ++ [row]) (acc_per_semester (ipk_next a row)).
Proof.
  intros [Hnd [Hkeys Hent]].
  set (s := r_semester row).
  set (d := acc_per_semester a) in *.
  set (d0 := if dict_mem s d then d else d ++ [(s, sem_fresh s)]).
  assert (Hnd0 : NoDup (map fst d0)).
  { unfold d0. destruct (dict_mem s d) eqn:Em; [exact Hnd|].
    rewrite map_app. simpl.
    apply NoDup_app; [exact Hnd | repeat constructor; simpl; tauto |].
    intros k Hk [<-|[]]. apply dict_mem_in in Hk. congruence. }
  assert (Hkeys0 : forall k, In k (map fst d0) <-> k = s \/ In k (map fst d)).
  { intros k. unfold d0. destruct (dict_mem s d) eqn:Em.
    - apply dict_mem_in in Em. split; [tauto|]. intros [->|H]; auto.
    - rewrite map_app, in_app_iff. simpl. intuition. }
  assert (Hent0 : forall k e, In (k, e) d0 ->
            s_semester e = k /\
            s_total_sks e = sumZ (map r_sks (sem_rows k rows)) /\
            s_total_mutu e = fsum (map mutu_of (sem_rows k rows)) /\
            s_ips e = pos_zero).
  { intros k e. unfold d0. destruct (dict_mem s d) eqn:Em; [apply Hent|].
    rewrite in_app_iff. intros [H|[H|[]]]; [now apply Hent|].
    inversion H; subst k e.
    assert (Hs : ~ In s (map r_semester rows)).
    { rewrite <- Hkeys. intros Hk. apply dict_mem_in in Hk. congruence. }
    rewrite (sem_rows_absent s rows Hs). simpl. repeat split; reflexivity. }
  change (acc_per_semester (ipk_next a row))
    with (dict_update s (sem_add (r_sks row) (mutu_of row)) d0).
  split; [|split].
  - rewrite dict_update_keys. exact Hnd0.
  - intros k. rewrite dict_update_keys, Hkeys0, Hkeys, map_app, in_app_iff.
    simpl. fold s. intuition.
  - intros k e' Hin.
    apply (dict_update_in _ _ _ _ _ Hnd0) in Hin.
    rewrite sem_rows_snoc. fold s.
    destruct Hin as [[-> [e [He ->]]]|[Hk He]].
    + destruct (Hent0 s e He) as [H1 [H2 [H3 H4]]].
      rewrite Z.eqb_refl, !map_app, sumZ_app.
      cbn [sem_add s_semester s_total_sks s_total_mutu s_ips].
      rewrite H2, H3. simpl map. rewrite fsum_snoc. simpl. repeat split; auto. lia.
    + destruct (Hent0 k e' He) as [H1 [H2 [H3 H4]]].
      assert ((s =? k) = false) as -> by (apply Z.eqb_neq; congruence).
      rewrite app_nil_r. auto.
Qed.

Lemma ipk_total_dict_ok (rows : list nilai_row) :
  dict_ok rows (acc_per_semester (ipk_total rows)).
Proof.
  induction rows as [|row rows IH] using rev_ind.
  - split; [constructor|]. split; [tauto|]. intros s e [].
  - rewrite ipk_total_snoc. now apply dict_step_ok.
Qed.

Lemma dict_update_total (s k : Z) (m : float) (d : per_semester_dict) :
  In s (map fst d) ->
  dict_total_sks (dict_update s (sem_add k m) d) = dict_total_sks d + k.
Proof.
  unfold dict_total_sks. induction d as [|[k0 e0] d IH]; simpl; [tauto|].
  intros H. destruct (k0 =? s) eqn:E; simpl.
  - lia.
  - apply Z.eqb_neq in E. destruct H as [H|H]; [congruence|].
    specialize (IH H). lia.
Qed.

Lemma ipk_total_dict_total (rows : list nilai_row) :
  dict_total_sks (acc_per_semester (ipk_total rows))
  = acc_total_sks_kumulatif (ipk_total rows).
Proof.
  induction rows as [|row rows IH] using rev_ind; [reflexivity|].
  rewrite ipk_total_snoc.
  cbn [ipk_next acc_per_semester acc_total_sks_kumulatif].
  set (d := acc_per_semester (ipk_total rows)) in *.
  destruct (dict_mem (r_semester row) d) eqn:Em.
  - rewrite dict_update_total by (now apply dict_mem_in). lia.
  - rewrite dict_update_total.
    + unfold dict_total_sks in *. rewrite map_app, sumZ_app. simpl. lia.
    + rewrite map_app, in_app_iff. right. now left.
Qed.

Lemma detail_semesters (rows : list nilai_row) :
  Permutation
    (map s_semester
       (sort_by s_semester
          (map sem_finished (dict_values (acc_per_semester (ipk_total rows))))))
    (map fst (acc_per_semester (ipk_total rows))).
Proof.
  destruct (ipk_total_dict_ok rows) as [_ [_ Hent]].
  eapply perm_trans; [apply Permutation_map, sort_by_perm|].
  unfold dict_values. rewrite !map_map.
  assert (E : map (fun x => s_semester (sem_finished (snd x)))
                  (acc_per_semester (ipk_total rows))
              = map fst (acc_per_semester (ipk_total rows))).
  { apply map_ext_in. intros [k e] Hin. simpl. now destruct (Hent k e Hin). }
  rewrite E. apply Permutation_refl.
Qed.

(** The per-term lines of a cumulative report, in terms of the rows of
    each term in the order of their delivery. *)
Lemma ipk_report_terms (n : string) (mhs : Mahasiswa) (rows : list nilai_row) (s : Z) :
  In s (map s_semester (detail_per_semester (ipk_report_of n mhs rows)))
  <-> In s (map r_semester rows).
Proof.
  destruct (ipk_total_dict_ok rows) as [_ [Hkeys _]].
  rewrite <- Hkeys. cbn [ipk_report_of detail_per_semester].
  split; apply Permutation_in; [|apply Permutation_sym]; apply detail_semesters.
Qed.

Lemma ipk_report_detail (n : string) (mhs : Mahasiswa) (rows : list nilai_row)
  (x : sem_entry) :
  In x (detail_per_semester (ipk_report_of n mhs rows)) ->
  s_total_sks x = sumZ (map r_sks (sem_rows (s_semester x) rows)) /\
  s_total_mutu x = py_round2 (fsum (map mutu_of (sem_rows (s_semester x) rows))) /\
  s_ips x = py_round2 (quotient (fsum (map mutu_of (sem_rows (s_semester x) rows)))
                                (sumZ (map r_sks (sem_rows (s_semester x) rows)))).
Proof.
  destruct (ipk_total_dict_ok rows) as [_ [_ Hent]].
  cbn [ipk_report_of detail_per_semester]. intros Hx.
  apply in_sort_by, in_map_iff in Hx. destruct Hx as [x0 [<- Hx0]].
  unfold dict_values in Hx0. apply in_map_iff in Hx0.
  destruct Hx0 as [[k x1] [E Hin]]. simpl in E. subst x1.
  destruct (Hent k x0 Hin) as [Hs [Hsks [Hmutu _]]].
  cbn [sem_finished s_semester s_total_sks s_total_mutu s_ips].
  rewrite Hs, Hsks, Hmutu. auto.
Qed.

Lemma sem_rows_row_of (db : database) (s : Z) (ks : list krs_row) :
  sem_rows s (map (row_of db) ks)
  = map (row_of db) (filter (fun k => k_semester k =? s) ks).
Proof. unfold sem_rows. apply filter_map_comm. Qed.

(** What the cumulative handler returns on a store that satisfies the
    invariant. *)
Lemma hitung_ipk_spec (e : engine) (db : database) (n : string) :
  wf db -> student_known db n -> all_enrollments db n <> [] ->
  spec_total_credit db (all_enrollments db n) < 2 ^ 53 ->
  exists mhs,
    In mhs (mahasiswa db) /\ nim mhs = n /\
    hitung_ipk e db n
    = Ok (ipk_report_of n mhs (map (row_of db) (delivered_ipk e db n))).
Proof.
  intros Hwf Hs Hne Hbound.
  destruct (fetch_mahasiswa_known e db n Hs) as [mhs Hm].
  destruct (fetch_mahasiswa_inv e db n mhs Hm) as [Hin Hn].
  exists mhs. split; [exact Hin|]. split; [exact Hn|].
  rewrite <- (query_ipk_spec e db n Hwf).
  apply hitung_ipk_run; auto.
  - now apply (known_clean db).
  - rewrite query_ipk_nil, (rows_ipk_spec db n Hwf).
    intros E. apply map_eq_nil in E. contradiction.
  - rewrite (query_ipk_spec e db n Hwf). intros row. now apply rows_convert.
  - intros k x Hx. right.
    destruct (ipk_total_dict_ok (query_ipk e db n)) as [_ [_ Hent]].
    destruct (Hent k x Hx) as [_ [Hsks _]]. rewrite Hsks.
    rewrite (query_ipk_spec e db n Hwf), sem_rows_row_of, rows_total_sks.
    apply converts_small. split; [now apply spec_total_credit_nonneg|].
    eapply Z.le_lt_trans; [now apply spec_total_credit_filter|].
    now rewrite (spec_total_credit_perm db _ _ (delivered_ipk_perm e db n)).
  - right. rewrite (query_ipk_spec e db n Hwf), rows_total_sks.
    rewrite (spec_total_credit_perm db _ _ (delivered_ipk_perm e db n)).
    apply converts_small. split; [now apply spec_total_credit_nonneg|exact Hbound].
Qed.

Lemma term_enrollments_nonempty (db : database) (n : string) (s : Z) (ks : list krs_row) :
  Permutation ks (all_enrollments db n) ->
  In s (map k_semester ks) <-> term_enrollments db n s <> [].
Proof.
  intros Hp. rewrite <- term_of_all. split.
  - intros H E. apply in_map_iff in H. destruct H as [k [Hk Hin]].
    assert (Hf : In k (filter (fun k => k_semester k =? s) (all_enrollments db n))).
    { apply filter_In. split; [now apply (Permutation_in _ Hp)|now apply Z.eqb_eq]. }
    rewrite E in Hf. exact Hf.
  - intros H. destruct (filter _ (all_enrollments db n)) as [|k l] eqn:E; [congruence|].
    assert (Hk : In k (filter (fun k => k_semester k =? s) (all_enrollments db n)))
      by (rewrite E; now left).
    apply filter_In in Hk. destruct Hk as [Hk Hs]. apply Z.eqb_eq in Hs.
    apply in_map_iff. exists k. split; [exact Hs|].
    now apply (Permutation_in _ (Permutation_sym Hp)).
Qed.

Lemma ipk_report_of_spec (e : engine) (db : database) (n : string) (mhs : Mahasiswa) :
  wf db -> all_enrollments db n <> [] ->
  let ks := delivered_ipk e db n in
  let c := ipk_report_of n mhs (map (row_of db) ks) in
  total_sks_kumulatif c = spec_total_credit db (all_enrollments db n) /\
  total_mutu_kumulatif c = py_round2 (spec_total_quality db ks) /\
  ipk c = py_round2 (spec_gpa db ks) /\
  (forall s, In s (map s_semester (detail_per_semester c))
             <-> term_enrollments db n s <> []) /\
  (forall x, In x (detail_per_semester c) ->
     let ts := delivered_term e db n (s_semester x) in
     s_total_sks x = spec_total_credit db (term_enrollments db n (s_semester x)) /\
     s_total_mutu x = py_round2 (spec_total_quality db ts) /\
     s_ips x = py_round2 (spec_gpa db ts)).
Proof.
  intros Hwf Hne ks c. subst c ks.
  assert (Hterms : forall s,
            In s (map s_semester (detail_per_semester
                   (ipk_report_of n mhs (map (row_of db) (delivered_ipk e db n)))))
            <-> term_enrollments db n s <> []).
  { intros s. rewrite ipk_report_terms, map_map.
    change (map (fun x => r_semester (row_of db x)) (delivered_ipk e db n))
      with (map k_semester (delivered_ipk e db n)).
    apply term_enrollments_nonempty, delivered_ipk_perm. }
  split; [|split; [|split; [|split]]].
  - cbn [ipk_report_of total_sks_kumulatif]. rewrite rows_total_sks.
    apply spec_total_credit_perm, delivered_ipk_perm.
  - cbn [ipk_report_of total_mutu_kumulatif]. now rewrite rows_total_mutu.
  - cbn [ipk_report_of ipk]. rewrite rows_total_sks, rows_total_mutu.
    rewrite quotient_pos; [reflexivity|].
    rewrite (spec_total_credit_perm db _ _ (delivered_ipk_perm e db n)).
    apply spec_total_credit_pos; auto.
    intros k Hk. now apply all_enrollments_in in Hk.
  - exact Hterms.
  - intros x Hx ts. subst ts.
    destruct (ipk_report_detail _ _ _ _ Hx) as [H1 [H2 H3]].
    rewrite sem_rows_row_of, delivered_term_of_ipk in H1, H2, H3.
    rewrite rows_total_sks in H1, H3. rewrite rows_total_mutu in H2, H3.
    assert (Hx' : term_enrollments db n (s_semester x) <> []).
    { apply Hterms. now apply in_map. }
    assert (Hc : spec_total_credit db (delivered_term e db n (s_semester x))
                 = spec_total_credit db (term_enrollments db n (s_semester x))).
    { apply spec_total_credit_perm, delivered_term_perm. }
    rewrite H1, H2, H3. split; [exact Hc|]. split; [reflexivity|].
    rewrite quotient_pos; [reflexivity|]. rewrite Hc.
    apply spec_total_credit_pos; auto.
    intros k Hk. now apply term_enrollments_in in Hk.
Qed.

(** ** Admission gate (verify_admin) *)

Lemma verify_admin_some (h : string) (auth : authority) :
  h <> ""%string ->
  verify_admin (Some h) auth = verify_admin_except (verify_admin_try h auth).
Proof. intros H. unfold verify_admin. apply String.eqb_neq in H. now rewrite H. Qed.

Lemma sendable_parts (h : string) :
  sendable h = true <-> ascii_only h = true /\ field_value h = true.
Proof. unfold sendable. apply andb_true_iff. Qed.

(** What the client does with a credential, by its three cases. *)
Lemma client_post_cases (h : string) (auth : authority) :
  (ascii_only h = false /\
   client_post h auth = Raise (UnicodeEncodeError (encode_error h 0))) \/
  (ascii_only h = true /\
   ((exists m, auth = Unreachable m) \/ field_value h = false) /\
   exists m, client_post h auth = Raise (RequestError m)) \/
  (sendable h = true /\
   exists status body,
     auth = Responds status body /\ client_post h auth = Ok (status, body)).
Proof.
  unfold client_post, sendable.
  destruct (ascii_only h); [|left; auto].
  right. destruct auth as [m|status body].
  - left. split; [reflexivity|]. split; [left; eauto|eauto].
  - destruct (field_value h).
    + right. split; [reflexivity|]. eauto.
    + left. split; [reflexivity|]. split; [right; reflexivity|eauto].
Qed.

Lemma client_post_sent (h : string) (status : Z) (body : response_body) :
  sendable h = true -> client_post h (Responds status body) = Ok (status, body).
Proof.
  intros H. apply sendable_parts in H. destruct H as [Ha Hf].
  unfold client_post. now rewrite Ha, Hf.
Qed.

Lemma client_post_ok_inv (h : string) (auth : authority) (status : Z)
  (body : response_body) :
  client_post h auth = Ok (status, body) ->
  sendable h = true /\ auth = Responds status body.
Proof.
  destruct (client_post_cases h auth)
    as [[_ E]|[[_ [_ [m E]]]|[Hs [st [b [Ea E]]]]]]; rewrite E; try discriminate.
  intros H. inversion H; subst. auto.
Qed.

Lemma verify_admin_not_ascii (h : string) (auth : authority) :
  ascii_only h = false ->
  verify_admin (Some h) auth = Raise (HTTPException 401 (encode_error h 0)).
Proof.
  intros H. unfold verify_admin.
  destruct (String.eqb h "") eqn:E.
  - apply String.eqb_eq in E. subst h. discriminate.
  - unfold verify_admin_try, client_post. rewrite H. reflexivity.
Qed.

Lemma verify_admin_not_sent (h : string) (auth : authority) :
  h <> ""%string -> ascii_only h = true ->
  (exists m, auth = Unreachable m) \/ field_value h = false ->
  verify_admin (Some h) auth = Raise (HTTPException 503 "Auth service unavailable").
Proof.
  intros Hh Ha Hc. rewrite (verify_admin_some h auth Hh).
  destruct (client_post_cases h auth)
    as [[F _]|[[_ [_ [m E]]]|[Hs [st [b [Eauth _]]]]]].
  - congruence.
  - unfold verify_admin_try. rewrite E. reflexivity.
  - apply sendable_parts in Hs. destruct Hs as [_ Hf].
    destruct Hc as [[m Hm]|Hc]; congruence.
Qed.

(** The rest of the [try] block, once the answer is there. *)
Lemma verify_admin_try_received (h : string) (auth : authority) (status : Z)
  (body : response_body) :
  client_post h auth = Ok (status, body) ->
  verify_admin_try h auth =
  (if negb (status =? 200) then Raise (HTTPException 401 "Invalid token")
   else
     data <- response_json body ;;
     user <- json_get data "user" ;;
     if negb (truthy user) then Raise (HTTPException 403 "Access denied. Admin only.")
     else
       role <- json_get user "role" ;;
       if negb (is_admin_role role)
       then Raise (HTTPException 403 "Access denied. Admin only.")
       else Ok user).
Proof. intros H. unfold verify_admin_try. rewrite H. reflexivity. Qed.

Lemma verify_admin_ok_inv (a : option string) (auth : authority) (u : json) :
  verify_admin a auth = Ok u ->
  exists h fields ufields,
    a = Some h /\ h <> ""%string /\ sendable h = true /\
    auth = Responds 200 (Json (JObj fields)) /\
    assoc "user" fields = Some u /\
    u = JObj ufields /\
    assoc "role" ufields = Some (JStr "admin").
Proof.
  unfold verify_admin.
  destruct a as [h|]; [|discriminate].
  destruct (String.eqb h "") eqn:Eh; [discriminate|].
  apply String.eqb_neq in Eh.
  destruct (client_post_cases h auth)
    as [[_ E]|[[_ [_ [m E]]]|[Hs [status [body [Eauth E]]]]]].
  - unfold verify_admin_try. rewrite E. discriminate.
  - unfold verify_admin_try. rewrite E. discriminate.
  - rewrite (verify_admin_try_received h auth status body E). subst auth.
    destruct (status =? 200) eqn:Es; simpl; [|discriminate].
    apply Z.eqb_eq in Es; subst status.
    destruct body as [data|err]; simpl; [|discriminate].
    destruct data as [| | | | | |fields]; simpl; try discriminate.
    destruct (assoc "user" fields) as [user|] eqn:Eu; simpl; [|discriminate].
    destruct (truthy user) eqn:Et; simpl; [|discriminate].
    destruct user as [| | | | | |ufields]; simpl; try discriminate.
    destruct (assoc "role" ufields) as [role|] eqn:Er; simpl; [|discriminate].
    destruct (is_admin_role role) eqn:Ear; simpl; [|discriminate].
    intros H; inversion H; subst u.
    destruct role; simpl in Ear; try discriminate.
    apply String.eqb_eq in Ear; subst.
    exists h, fields, ufields. repeat split; auto.
Qed.

Lemma post_rejected {B A} (valid : B -> bool) (handler : B -> json -> txn A)
  (a : option string) (auth : authority) (body : B) (db : database) (e : exception) :
  verify_admin a auth = Raise e ->
  post valid handler a auth body db = (Raise e, db).
Proof. intros H. unfold post. rewrite H. reflexivity. Qed.

(** C6, as stated, fails: a credential with a character outside ASCII is
    answered 401 Unauthorized although the authority is unreachable -- the
    client cannot encode the header, so the authority is never asked -- where
    the claim has 503 ServiceUnavailable for every request. *)
Lemma unreachable_authority_is_not_always_503 :
  latin_credential <> ""%string /\
  (forall m,
     verify_admin (Some latin_credential) (Unreachable m)
     = Raise (HTTPException 401
                "'ascii' codec can't encode character '\xe9' in position 7: ordinal not in range(128)")) /\
  ~ (forall h m, h <> ""%string ->
       is_http 503 (verify_admin (Some h) (Unreachable m))).
Proof.
  split; [discriminate|]. split; [reflexivity|].
  intros H. destruct (H latin_credential ""%string) as [d Hd]; [discriminate|].
  discriminate Hd.
Qed.

(** C6 (amended). The admission gate in front of every POST endpoint: a
    missing (or empty) credential is rejected with 401 Unauthorized; a
    credential that is not ASCII with 401, whatever the authority would do;
    a credential the client can send and the reachable authority rejects
    (any status other than 200) with 401; one the authority accepts for a
    user whose role is not "admin" with 403 Forbidden; and, for an ASCII
    credential, an unreachable or timed-out authority -- or a credential
    the client refuses to send -- with 503 ServiceUnavailable.  The gate
    returns a user only on an admin verdict, and whenever it raises, each
    POST endpoint raises the same exception and leaves the store as it
    was. *)
Theorem admission_gate_outcomes :
  (forall auth,
     verify_admin None auth = Raise (HTTPException 401 "No authorization header") /\
     verify_admin (Some ""%string) auth = Raise (HTTPException 401 "No authorization header")) /\
  (forall h auth,
     ascii_only h = false ->
     verify_admin (Some h) auth = Raise (HTTPException 401 (encode_error h 0))) /\
  (forall h status body,
     h <> ""%string -> sendable h = true -> status <> 200 ->
     verify_admin (Some h) (Responds status body) = Raise (HTTPException 401 "Invalid token")) /\
  (forall h fields ufields,
     h <> ""%string -> sendable h = true -> ufields <> [] ->
     assoc "user" fields = Some (JObj ufields) ->
     assoc "role" ufields <> Some (JStr "admin") ->
     verify_admin (Some h) (Responds 200 (Json (JObj fields)))
     = Raise (HTTPException 403 "Access denied. Admin only.")) /\
  (forall h auth,
     h <> ""%string -> ascii_only h = true ->
     (exists m, auth = Unreachable m) \/ field_value h = false ->
     verify_admin (Some h) auth
     = Raise (HTTPException 503 "Auth service unavailable")) /\
  (forall a auth u,
     verify_admin a auth = Ok u ->
     exists h fields ufields,
       a = Some h /\ h <> ""%string /\ sendable h = true /\
       auth = Responds 200 (Json (JObj fields)) /\
       assoc "user" fields = Some u /\ u = JObj ufields /\
       assoc "role" ufields = Some (JStr "admin")) /\
  (forall a auth e db,
     verify_admin a auth = Raise e ->
     (forall m, post_mahasiswa a auth m db = (Raise e, db)) /\
     (forall mk, post_mata_kuliah a auth mk db = (Raise e, db)) /\
     (forall k, post_nilai a auth k db = (Raise e, db))).
Proof.
  split; [|split; [|split; [|split; [|split; [|split]]]]].
  - intros auth. split; reflexivity.
  - exact verify_admin_not_ascii.
  - intros h status body Hh Hs Hst. rewrite (verify_admin_some h _ Hh).
    rewrite (verify_admin_try_received h _ status body (client_post_sent h _ _ Hs)).
    apply Z.eqb_neq in Hst. rewrite Hst. reflexivity.
  - intros h fields ufields Hh Hs Hne Hu Hr. rewrite (verify_admin_some h _ Hh).
    rewrite (verify_admin_try_received h _ 200 _ (client_post_sent h _ _ Hs)).
    simpl. rewrite Hu. simpl.
    destruct ufields as [|f ufields']; [congruence|]. cbn [negb].
    cbv beta iota.
    remember (f :: ufields') as uf.
    destruct (assoc "role" uf) as [role|] eqn:Er.
    + assert (Hrole : is_admin_role role = false).
      { destruct role; simpl; auto.
        destruct (String.eqb s "admin") eqn:E; auto.
        apply String.eqb_eq in E. subst. congruence. }
      rewrite Hrole. reflexivity.
    + reflexivity.
  - exact verify_admin_not_sent.
  - exact verify_admin_ok_inv.
  - intros a auth e db H. repeat split; intros; apply post_rejected; exact H.
Qed.

Lemma admission_gate_outcomes_witness :
  verify_admin bearer (Responds 401 (Json JNull))
  = Raise (HTTPException 401 "Invalid token") /\
  verify_admin bearer (Responds 200 (Json (JObj [("user"%string, dosen_user)])))
  = Raise (HTTPException 403 "Access denied. Admin only.") /\
  verify_admin bearer (Unreachable "timed out")
  = Raise (HTTPException 503 "Auth service unavailable") /\
  is_http 401 (verify_admin (Some latin_credential) (Unreachable "timed out")).
Proof.
  destruct admission_gate_outcomes as [_ [H2 [H3 [H4 [H5 _]]]]].
  split; [|split; [|split]].
  - apply H3; [discriminate|reflexivity|lia].
  - apply (H4 "Bearer abc"%string _ [("username"%string, JStr "dosen1");
                                      ("role"%string, JStr "dosen")]);
      [discriminate|reflexivity|discriminate|reflexivity|discriminate].
  - apply H5; [discriminate|reflexivity|]. left. eexists. reflexivity.
  - rewrite H2 by reflexivity. eexists. reflexivity.
Defined.

(** ** The admission gate: every answer of the authority *)

Lemma verify_admin_except_cases (r : result json) :
  (exists u, r = Ok u /\ verify_admin_except r = Ok u) \/
  (exists m, r = Raise (RequestError m) /\
             verify_admin_except r = Raise (HTTPException 503 "Auth service unavailable")) \/
  (exists c d, r = Raise (HTTPException c d) /\
               verify_admin_except r = Raise (HTTPException c d)) \/
  (exists x, r = Raise x /\ (forall m, x <> RequestError m) /\
             (forall c d, x <> HTTPException c d) /\
             verify_admin_except r = Raise (HTTPException 401 (str_exc x))).
Proof.
  destruct r as [u|x]; [left; eauto|right].
  destruct x; try (right; right; eexists; repeat split; discriminate).
  - right. left. eauto.
  - left. eauto.
Qed.

(** The exceptions of the [try] block once the answer is there: 401, 403,
    or an error that is neither an HTTPException nor a RequestError. *)
Lemma verify_admin_try_received_cases (h : string) (auth : authority) (status : Z)
  (body : response_body) :
  client_post h auth = Ok (status, body) ->
  (exists u, verify_admin_try h auth = Ok u) \/
  (exists d, verify_admin_try h auth = Raise (HTTPException 401 d)) \/
  (exists d, verify_admin_try h auth = Raise (HTTPException 403 d)) \/
  (exists x, verify_admin_try h auth = Raise x /\ (forall m, x <> RequestError m) /\
             (forall c d, x <> HTTPException c d)).
Proof.
  intros H. rewrite (verify_admin_try_received h auth status body H).
  destruct (status =? 200); simpl; [|right; left; eauto].
  destruct body as [data|err]; simpl.
  2:{ right. right. right. eexists. repeat split; discriminate. }
  destruct data as [| | | | | |fields]; simpl;
    try (right; right; right; eexists; repeat split; discriminate).
  destruct (truthy _) eqn:Et; simpl; [|right; right; left; eauto].
  destruct (match assoc "user" fields with Some v => v | None => JNull end)
    as [| | | | | |ufields]; simpl;
    try (right; right; right; eexists; repeat split; discriminate).
  destruct (is_admin_role _); simpl; [left; eauto|right; right; left; eauto].
Qed.

(** X1. Whatever credential is sent and whatever the authority does, the
    gate either returns a user or raises one of 401, 403, 503 -- never
    another status and never a raw exception; and it raises 503 exactly when
    a non-empty ASCII credential was given and either the authority could
    not be reached or the client refused to send the credential. *)
Theorem verify_admin_answers (a : option string) (auth : authority) :
  ((exists u, verify_admin a auth = Ok u) \/
   is_http 401 (verify_admin a auth) \/
   is_http 403 (verify_admin a auth) \/
   is_http 503 (verify_admin a auth)) /\
  (is_http 503 (verify_admin a auth)
   <-> exists h, a = Some h /\ h <> ""%string /\ ascii_only h = true /\
                 ((exists m, auth = Unreachable m) \/ field_value h = false)).
Proof.
  unfold is_http.
  destruct a as [h|].
  2:{ split; [right; left; eexists; reflexivity|].
      split; [intros [d H]; discriminate|intros [h [H _]]; discriminate]. }
  destruct (String.eqb h "") eqn:Eh.
  { apply String.eqb_eq in Eh. subst h.
    split; [right; left; eexists; reflexivity|].
    split; [intros [d H]; discriminate|intros [h [H [Hne _]]]; congruence]. }
  apply String.eqb_neq in Eh.
  destruct (client_post_cases h auth)
    as [[Ha E]|[[Ha [Hc [m E]]]|[Hs [status [body [Eauth E]]]]]].
  - rewrite (verify_admin_not_ascii h auth Ha).
    split; [right; left; eexists; reflexivity|].
    split; [intros [d H]; discriminate|].
    intros [h' [Hh [_ [Ha' _]]]]. inversion Hh; subst h'. congruence.
  - rewrite (verify_admin_not_sent h auth Eh Ha Hc).
    split; [right; right; right; eexists; reflexivity|].
    split; [intros _; exists h; auto|intros _; eexists; reflexivity].
  - assert (Hno : ~ exists h', Some h = Some h' /\ h' <> ""%string /\
                               ascii_only h' = true /\
                               ((exists m, auth = Unreachable m) \/ field_value h' = false)).
    { intros [h' [Hh [_ [_ Hc]]]]. inversion Hh; subst h'.
      apply sendable_parts in Hs. destruct Hs as [_ Hf].
      destruct Hc as [[m Hm]|Hc]; congruence. }
    rewrite (verify_admin_some h auth Eh).
    destruct (verify_admin_try_received_cases h auth status body E)
      as [[u Hu]|[[d Hd]|[[d Hd]|[x [Hx [Hnr Hnh]]]]]].
    + rewrite Hu. cbn [verify_admin_except].
      split; [left; eauto|].
      split; [intros [d H]; discriminate|intros H; contradiction].
    + rewrite Hd. cbn [verify_admin_except].
      split; [right; left; eexists; reflexivity|].
      split; [intros [d' H]; discriminate|intros H; contradiction].
    + rewrite Hd. cbn [verify_admin_except].
      split; [right; right; left; eexists; reflexivity|].
      split; [intros [d' H]; discriminate|intros H; contradiction].
    + rewrite Hx.
      destruct (verify_admin_except_cases (Raise x))
        as [[u [F _]]|[[m [F _]]|[[c [d [F _]]]|[x' [Ex [_ [_ Ev]]]]]]].
      * discriminate F.
      * inversion F. exfalso. now apply (Hnr m).
      * inversion F. exfalso. now apply (Hnh c d).
      * rewrite Ev.
        split; [right; left; eexists; reflexivity|].
        split; [intros [d' H]; discriminate|intros H; contradiction].
Qed.

Lemma verify_admin_answers_witness :
  is_http 503 (verify_admin bearer (Unreachable "timed out")) /\
  is_http 503 (verify_admin (Some broken_credential) admin_verdict).
Proof.
  split.
  - apply (proj2 (verify_admin_answers bearer (Unreachable "timed out"))).
    exists "Bearer abc"%string.
    split; [reflexivity|]. split; [discriminate|]. split; [reflexivity|].
    left. eexists. reflexivity.
  - apply (proj2 (verify_admin_answers (Some broken_credential) admin_verdict)).
    exists broken_credential.
    split; [reflexivity|]. split; [discriminate|]. split; [reflexivity|].
    right. reflexivity.
Defined.

(** X2. Answers with status 200 that are not the expected document, once
    received (the credential was sent and the authority answered): a body
    that is not JSON, a JSON body that is not an object, and a ["user"]
    value that is truthy but not an object are all answered 401 (they fail
    inside the [try] block); an object whose ["user"] is missing or falsy is
    answered 403. *)
Theorem verify_admin_unexpected_body (h : string) (auth : authority) :
  h <> ""%string ->
  (forall err,
     client_post h auth = Ok (200, NotJson err) ->
     is_http 401 (verify_admin (Some h) auth)) /\
  (forall j,
     client_post h auth = Ok (200, Json j) -> is_object j = false ->
     is_http 401 (verify_admin (Some h) auth)) /\
  (forall fields u,
     client_post h auth = Ok (200, Json (JObj fields)) ->
     assoc "user" fields = Some u -> truthy u = true -> is_object u = false ->
     is_http 401 (verify_admin (Some h) auth)) /\
  (forall fields,
     client_post h auth = Ok (200, Json (JObj fields)) ->
     assoc "user" fields = None ->
     verify_admin (Some h) auth
     = Raise (HTTPException 403 "Access denied. Admin only.")) /\
  (forall fields u,
     client_post h auth = Ok (200, Json (JObj fields)) ->
     assoc "user" fields = Some u -> truthy u = false ->
     verify_admin (Some h) auth
     = Raise (HTTPException 403 "Access denied. Admin only.")) /\
  (forall status body,
     sendable h = true ->
     client_post h (Responds status body) = Ok (status, body)).
Proof.
  intros Hh. rewrite (verify_admin_some h auth Hh). unfold is_http.
  split; [|split; [|split; [|split; [|split]]]].
  - intros err E. rewrite (verify_admin_try_received h auth _ _ E).
    eexists. reflexivity.
  - intros j E Hj. rewrite (verify_admin_try_received h auth _ _ E).
    destruct j; try discriminate; eexists; reflexivity.
  - intros fields u E Hu Ht Ho. rewrite (verify_admin_try_received h auth _ _ E).
    simpl. rewrite Hu. simpl. rewrite Ht. simpl.
    destruct u; try discriminate; eexists; reflexivity.
  - intros fields E Hu. rewrite (verify_admin_try_received h auth _ _ E).
    simpl. rewrite Hu. reflexivity.
  - intros fields u E Hu Ht. rewrite (verify_admin_try_received h auth _ _ E).
    simpl. rewrite Hu. simpl. rewrite Ht. reflexivity.
  - intros status body Hs. now apply client_post_sent.
Qed.

Lemma verify_admin_unexpected_body_witness :
  is_http 401 (verify_admin bearer (Responds 200 (NotJson "Expecting value"))) /\
  is_http 401 (verify_admin bearer (Responds 200 (Json (JArr [])))) /\
  verify_admin bearer (Responds 200 (Json (JObj [("detail"%string, JStr "ok")])))
  = Raise (HTTPException 403 "Access denied. Admin only.").
Proof.
  split; [|split].
  - destruct (verify_admin_unexpected_body "Bearer abc"%string
                (Responds 200 (NotJson "Expecting value"))) as [H _];
      [discriminate|]. apply (H "Expecting value"%string). reflexivity.
  - destruct (verify_admin_unexpected_body "Bearer abc"%string
                (Responds 200 (Json (JArr [])))) as [_ [H _]];
      [discriminate|]. apply (H (JArr [])); reflexivity.
  - destruct (verify_admin_unexpected_body "Bearer abc"%string
                (Responds 200 (Json (JObj [("detail"%string, JStr "ok")]))))
      as [_ [_ [_ [H _]]]]; [discriminate|].
    apply (H [("detail"%string, JStr "ok")]); reflexivity.
Defined.

(** ** The example stores satisfy the invariant *)

Lemma wf_db_two_courses : wf db_two_courses.
Proof. wf_concrete. Qed.

Lemma wf_db_thirds : wf db_thirds.
Proof. wf_concrete. Qed.

Lemma wf_db_two_terms : wf db_two_terms.
Proof. wf_concrete. Qed.

Lemma wf_db_thirds_two_terms : wf db_thirds_two_terms.
Proof. wf_concrete. Qed.

Lemma wf_db_fine_weights : wf db_fine_weights.
Proof. wf_concrete. Qed.

Lemma wf_db_pending : wf db_pending.
Proof. wf_concrete. Qed.


(** ** Every answer of the two grade-point handlers *)

Lemma hitung_ips_cases (e : engine) (db : database) (n : string) (s : Z) :
  (has_nul n = true /\
   hitung_ips e db n s = Raise (HTTPException 500 (str_exc nul_refused))) \/
  (has_nul n = false /\ ~ student_known db n /\
   hitung_ips e db n s = Raise (HTTPException 404 "Mahasiswa tidak ditemukan")) \/
  (has_nul n = false /\ student_known db n /\ rows_ips db n s = [] /\
   hitung_ips e db n s =
   Raise (HTTPException 404 ("Tidak ada data nilai untuk mahasiswa " ++ n
                               ++ " di semester " ++ str_Z s))) \/
  (has_nul n = false /\ student_known db n /\ rows_ips db n s <> [] /\
   ((exists r, hitung_ips e db n s = Ok r) \/
    hitung_ips e db n s = Raise (HTTPException 500 (str_exc OverflowError)))).
Proof.
  destruct (has_nul n) eqn:Hn.
  { left. split; [reflexivity|]. now apply hitung_ips_nul. }
  right.
  destruct (student_known_dec db n) as [Hk|Hk].
  2:{ left. split; [reflexivity|]. split; [exact Hk|].
      apply hitung_ips_no_student; [exact Hn|]. now apply select_mahasiswa_nil. }
  right.
  destruct (fetch_mahasiswa_known e db n Hk) as [mhs Hf].
  destruct (list_nil_dec (rows_ips db n s)) as [Hr|Hr].
  { left. split; [reflexivity|]. split; [exact Hk|]. split; [exact Hr|].
    now apply hitung_ips_no_rows with (mhs := mhs). }
  right. split; [reflexivity|]. split; [exact Hk|]. split; [exact Hr|].
  unfold hitung_ips, hitung_ips_try.
  rewrite (adapt_nim n Hn), Hf, (adapt_nim_int n s Hn). cbn [bind].
  destruct (query_ips e db n s) as [|row rows] eqn:Eq.
  { exfalso. apply Hr. unfold query_ips in Eq. now apply arrange_nil in Eq. }
  destruct (ips_loop (row :: rows)) as [a|x] eqn:El; cbn [bind].
  2:{ right. unfold ips_loop in El.
      apply (for_each_raises ips_step (fun x => x = OverflowError)) in El.
      - subst x. reflexivity.
      - intros a b x0. apply ips_step_raises. }
  destruct (guarded_div (acc_total_mutu a) (acc_total_sks a)) as [v|x] eqn:Eg; cbn [bind].
  - left. eexists. reflexivity.
  - right. apply guarded_div_raises in Eg. subst x. reflexivity.
Qed.

Lemma hitung_ipk_cases (e : engine) (db : database) (n : string) :
  (has_nul n = true /\
   hitung_ipk e db n = Raise (HTTPException 500 (str_exc nul_refused))) \/
  (has_nul n = false /\ ~ student_known db n /\
   hitung_ipk e db n = Raise (HTTPException 404 "Mahasiswa tidak ditemukan")) \/
  (has_nul n = false /\ student_known db n /\ rows_ipk db n = [] /\
   hitung_ipk e db n =
   Raise (HTTPException 404 ("Tidak ada data nilai untuk mahasiswa " ++ n))) \/
  (has_nul n = false /\ student_known db n /\ rows_ipk db n <> [] /\
   ((exists c, hitung_ipk e db n = Ok c) \/
    hitung_ipk e db n = Raise (HTTPException 500 (str_exc OverflowError)))).
Proof.
  destruct (has_nul n) eqn:Hn.
  { left. split; [reflexivity|]. now apply hitung_ipk_nul. }
  right.
  destruct (student_known_dec db n) as [Hk|Hk].
  2:{ left. split; [reflexivity|]. split; [exact Hk|].
      apply hitung_ipk_no_student; [exact Hn|]. now apply select_mahasiswa_nil. }
  right.
  destruct (fetch_mahasiswa_known e db n Hk) as [mhs Hf].
  destruct (list_nil_dec (rows_ipk db n)) as [Hr|Hr].
  { left. split; [reflexivity|]. split; [exact Hk|]. split; [exact Hr|].
    now apply hitung_ipk_no_rows with (mhs := mhs). }
  right. split; [reflexivity|]. split; [exact Hk|]. split; [exact Hr|].
  unfold hitung_ipk, hitung_ipk_try.
  rewrite (adapt_nim n Hn), Hf. cbn [bind].
  destruct (query_ipk e db n) as [|row rows] eqn:Eq.
  { exfalso. apply Hr. now apply query_ipk_nil in Eq. }
  destruct (ipk_loop (row :: rows)) as [a|x] eqn:El; cbn [bind].
  2:{ right. unfold ipk_loop in El.
      apply (for_each_raises ipk_step (fun x => x = OverflowError)) in El.
      - subst x. reflexivity.
      - intros a b x0. apply ipk_step_raises. }
  destruct (finish_all (acc_per_semester a)) as [d|x] eqn:Ef; cbn [bind].
  2:{ right. apply finish_all_raises in Ef. subst x. reflexivity. }
  destruct (guarded_div (acc_total_mutu_kumulatif a) (acc_total_sks_kumulatif a))
    as [v|x] eqn:Eg; cbn [bind].
  - left. eexists. reflexivity.
  - right. apply guarded_div_raises in Eg. subst x. reflexivity.
Qed.

Lemma map_e_mutu (rows : list nilai_row) :
  map e_mutu (map entry_of rows) = map mutu_of rows.
Proof. rewrite map_map. reflexivity. Qed.

Lemma entry_of_mutu (rows : list nilai_row) (x : mk_entry) :
  In x (map entry_of rows) -> e_mutu x = fmul (e_bobot x) (float_of_Z (e_sks x)).
Proof. intros H. apply in_map_iff in H. destruct H as [row [<- _]]. reflexivity. Qed.


Lemma term_bound (db : database) (n : string) (s : Z) :
  wf db ->
  spec_total_credit db (all_enrollments db n) < 2 ^ 53 ->
  spec_total_credit db (term_enrollments db n s) < 2 ^ 53.
Proof.
  intros Hwf Hb. rewrite <- term_of_all.
  pose proof (spec_total_credit_filter db (fun k => k_semester k =? s)
                (all_enrollments db n) Hwf).
  lia.
Qed.

(** ** C1: the semester grade point average *)

(** C1, as stated, fails: the reported semester GPA is the quotient of the
    totals rounded to two decimals, not the quotient itself.  One term with
    a 1-credit course graded A and a 2-credit course graded B gives 10
    quality points on 3 credits; the report says 3.33, which is not 10/3. *)
Lemma semester_gpa_is_not_the_quotient :
  (exists r,
     hitung_ips in_order db_thirds "2101" 1 = Ok r /\
     ips_total_sks r = 3 /\ ips_total_mutu r = dec 10 1 /\
     ips r = dec 333 100 /\
     ips r <> spec_gpa db_thirds (delivered_ips in_order db_thirds "2101" 1)) /\
  ~ (forall e db n s r,
       wf db -> hitung_ips e db n s = Ok r ->
       ips r = spec_gpa db (delivered_ips e db n s)).
Proof.
  assert (H : exists r,
     hitung_ips in_order db_thirds "2101" 1 = Ok r /\
     ips_total_sks r = 3 /\ ips_total_mutu r = dec 10 1 /\
     ips r = dec 333 100 /\
     ips r <> spec_gpa db_thirds (delivered_ips in_order db_thirds "2101" 1)).
  { eexists. split; [vm_compute; reflexivity|].
    split; [reflexivity|]. split; [vm_compute; reflexivity|].
    split; [vm_compute; reflexivity|]. vm_compute. discriminate. }
  split; [exact H|].
  intros C. destruct H as [r [Hr [_ [_ [_ Hne]]]]].
  apply Hne. apply C; [exact wf_db_thirds|exact Hr].
Qed.

(** C1 (amended). For a stored student with at least one enrollment in the
    requested term (and a credit total below 2^53), the semester report is
    returned; its credit total is the sum of the credit-weights of the
    term's enrollments, its quality-point total is the sum of
    weight(grade) x credit-weight over these enrollments -- binary
    floating-point numbers added in the order in which the rows are
    delivered -- rounded to two decimals, and its GPA is the quotient of the
    unrounded total by the credit total, rounded to two decimals.  A 3-credit
    course at weight 4.0 and a 2-credit course at weight 3.0 give 18.0
    quality points on 5 credits and a GPA of 3.6, whatever the order of
    delivery. *)
Theorem semester_gpa_rounded_quotient :
  (forall e db n s,
     wf db -> student_known db n -> term_enrollments db n s <> [] ->
     spec_total_credit db (term_enrollments db n s) < 2 ^ 53 ->
     exists r,
       hitung_ips e db n s = Ok r /\
       ips_total_sks r = spec_total_credit db (term_enrollments db n s) /\
       ips_total_mutu r = py_round2 (spec_total_quality db (delivered_ips e db n s)) /\
       ips r = py_round2 (spec_gpa db (delivered_ips e db n s))) /\
  (forall e, exists r,
     hitung_ips e db_two_courses "2101" 1 = Ok r /\
     Permutation (map (fun x => (e_sks x, e_bobot x)) (ips_mata_kuliah r))
                 [(3, dec 4 1); (2, dec 3 1)] /\
     ips_total_sks r = 5 /\ ips_total_mutu r = dec 18 1 /\ ips r = dec 36 10).
Proof.
  split.
  - intros e db n s Hwf Hk Hne Hb.
    destruct (hitung_ips_spec e db n s Hwf Hk Hne Hb) as [mhs [_ [_ Hr]]].
    destruct (ips_report_of_spec e db n s mhs Hwf Hne) as [_ [H1 [H2 H3]]].
    eexists. split; [exact Hr|]. auto.
  - intros e. run_ips @arrange_one @arrange_two e.
    + eexists. split; [vm_compute; reflexivity|].
      split; [vm_compute; apply Permutation_refl|].
      split; [reflexivity|]. split; vm_compute; reflexivity.
    + eexists. split; [vm_compute; reflexivity|].
      split; [vm_compute; apply perm_swap|].
      split; [reflexivity|]. split; vm_compute; reflexivity.
Qed.

Lemma semester_gpa_rounded_quotient_witness :
  exists r,
    hitung_ips reversed db_two_courses "2101" 1 = Ok r /\
    ips_total_sks r = spec_total_credit db_two_courses
                        (term_enrollments db_two_courses "2101" 1) /\
    ips_total_mutu r
    = py_round2 (spec_total_quality db_two_courses
                   (delivered_ips reversed db_two_courses "2101" 1)) /\
    ips r = py_round2 (spec_gpa db_two_courses
                         (delivered_ips reversed db_two_courses "2101" 1)).
Proof.
  apply (proj1 semester_gpa_rounded_quotient reversed db_two_courses "2101"%string 1).
  - exact wf_db_two_courses.
  - left. reflexivity.
  - discriminate.
  - reflexivity.
Defined.

(** ** C2: the cumulative grade point average *)

(** C2, as stated, fails for the same reason as C1: term 1 with 1 credit at
    weight 4.0 and term 2 with 2 credits at weight 3.0 give 10 quality
    points on 3 credits; the cumulative report says 3.33, which is not
    10/3. *)
Lemma cumulative_gpa_is_not_the_quotient :
  (exists c,
     hitung_ipk in_order db_thirds_two_terms "2101" = Ok c /\
     total_sks_kumulatif c = 3 /\ total_mutu_kumulatif c = dec 10 1 /\
     ipk c = dec 333 100 /\
     ipk c <> spec_gpa db_thirds_two_terms
                (delivered_ipk in_order db_thirds_two_terms "2101")) /\
  ~ (forall e db n c,
       wf db -> hitung_ipk e db n = Ok c ->
       ipk c = spec_gpa db (delivered_ipk e db n)).
Proof.
  assert (H : exists c,
     hitung_ipk in_order db_thirds_two_terms "2101" = Ok c /\
     total_sks_kumulatif c = 3 /\ total_mutu_kumulatif c = dec 10 1 /\
     ipk c = dec 333 100 /\
     ipk c <> spec_gpa db_thirds_two_terms
                (delivered_ipk in_order db_thirds_two_terms "2101")).
  { eexists. split; [vm_compute; reflexivity|].
    split; [reflexivity|]. split; [vm_compute; reflexivity|].
    split; [vm_compute; reflexivity|]. vm_compute. discriminate. }
  split; [exact H|].
  intros C. destruct H as [c [Hc [_ [_ [_ Hne]]]]].
  apply Hne. apply C; [exact wf_db_thirds_two_terms|exact Hc].
Qed.

(** C2 (amended). For a stored student with at least one enrollment (and a
    credit total below 2^53), the cumulative report is returned; its credit
    total and its quality-point total are taken over all enrollments of the
    student in all terms, the quality points added as binary floating-point
    numbers in the order of the query (by term) and rounded to two decimals,
    and its GPA is the quotient of the unrounded grand total by the credit
    total, rounded to two decimals -- not the mean of the per-term GPAs:
    with term 1 at GPA 4.0 on 3 credits and term 2 at GPA 2.0 on 1 credit the
    cumulative GPA is 3.5, while the mean of the term GPAs is 3.0. *)
Theorem cumulative_gpa_rounded_quotient :
  (forall e db n,
     wf db -> student_known db n -> all_enrollments db n <> [] ->
     spec_total_credit db (all_enrollments db n) < 2 ^ 53 ->
     exists c,
       hitung_ipk e db n = Ok c /\
       total_sks_kumulatif c = spec_total_credit db (all_enrollments db n) /\
       total_mutu_kumulatif c = py_round2 (spec_total_quality db (delivered_ipk e db n)) /\
       ipk c = py_round2 (spec_gpa db (delivered_ipk e db n))) /\
  (forall e, exists c,
     hitung_ipk e db_two_terms "2101" = Ok c /\
     map (fun x => (s_semester x, s_total_sks x, s_ips x)) (detail_per_semester c)
     = [(1, 3, dec 4 1); (2, 1, dec 2 1)] /\
     total_sks_kumulatif c = 4 /\ total_mutu_kumulatif c = dec 14 1 /\
     ipk c = dec 35 10 /\
     mean_of_term_gpas c = dec 3 1 /\
     ipk c <> mean_of_term_gpas c).
Proof.
  split.
  - intros e db n Hwf Hk Hne Hb.
    destruct (hitung_ipk_spec e db n Hwf Hk Hne Hb) as [mhs [_ [_ Hc]]].
    destruct (ipk_report_of_spec e db n mhs Hwf Hne) as [H1 [H2 [H3 _]]].
    eexists. split; [exact Hc|]. auto.
  - intros e. run_ipk @arrange_one @arrange_two e.
    + eexists. split; [vm_compute; reflexivity|].
      split; [vm_compute; reflexivity|].
      split; [reflexivity|]. split; [vm_compute; reflexivity|].
      split; [vm_compute; reflexivity|]. split; [vm_compute; reflexivity|].
      vm_compute. discriminate.
    + eexists. split; [vm_compute; reflexivity|].
      split; [vm_compute; reflexivity|].
      split; [reflexivity|]. split; [vm_compute; reflexivity|].
      split; [vm_compute; reflexivity|]. split; [vm_compute; reflexivity|].
      vm_compute. discriminate.
Qed.

Lemma cumulative_gpa_rounded_quotient_witness :
  exists c,
    hitung_ipk reversed db_two_terms "2101" = Ok c /\
    total_sks_kumulatif c = spec_total_credit db_two_terms
                              (all_enrollments db_two_terms "2101") /\
    total_mutu_kumulatif c
    = py_round2 (spec_total_quality db_two_terms
                   (delivered_ipk reversed db_two_terms "2101")) /\
    ipk c = py_round2 (spec_gpa db_two_terms (delivered_ipk reversed db_two_terms "2101")).
Proof.
  apply (proj1 cumulative_gpa_rounded_quotient reversed db_two_terms "2101"%string).
  - exact wf_db_two_terms.
  - left. reflexivity.
  - discriminate.
  - reflexivity.
Defined.

(** ** C3: enrollments without a grade *)

Lemma ungraded_entry (db : database) (k : krs_row) :
  wf db -> In k (krs db) -> ungraded db k ->
  e_bobot (entry_of (row_of db k)) = pos_zero /\
  e_mutu (entry_of (row_of db k)) = pos_zero /\
  e_sks (entry_of (row_of db k)) = spec_credit db (k_kode_mk k) /\
  1 <= spec_credit db (k_kode_mk k).
Proof.
  intros Hwf Hin Hu.
  split; [|split; [|split]].
  - cbn [entry_of e_bobot]. rewrite bobot_of_row_of. now apply ungraded_weight.
  - cbn [entry_of e_mutu]. rewrite mutu_of_row_of. now apply ungraded_quality.
  - reflexivity.
  - apply spec_credit_pos; [exact Hwf|]. now apply (wf_krs_course db Hwf).
Qed.




(** ** C4: division by zero *)

Lemma truediv_zero (x : float) : truediv x 0 = Raise ZeroDivisionError.
Proof. reflexivity. Qed.

Lemma guarded_div_never_zero (x : float) (n : Z) :
  guarded_div x n <> Raise ZeroDivisionError.
Proof.
  intros H. apply guarded_div_raises in H. discriminate.
Qed.

Lemma quotient_nonpos (x : float) (n : Z) : n <= 0 -> quotient x n = pos_zero.
Proof.
  intros H. unfold quotient.
  destruct (n >? 0) eqn:E; [|reflexivity].
  apply Z.gtb_lt in E. lia.
Qed.

Lemma no_zero_division {A} (r : result A) :
  (forall x, r = Raise x ->
     x = nul_refused \/ x = OverflowError \/ exists d, x = HTTPException 404 d) ->
  r <> Raise ZeroDivisionError /\
  except_500 r <> Raise (HTTPException 500 (str_exc ZeroDivisionError)).
Proof.
  intros H. destruct r as [a|x]; [split; discriminate|].
  destruct (H x eq_refl) as [->|[->|[d ->]]]; split; discriminate.
Qed.

(** C4. Dividing by a zero credit total would raise ZeroDivisionError, and
    neither handler ever does: the division is guarded, a credit total of 0
    (or less) gives the average 0.0 -- in the semester report, in the
    cumulative report and in each of its per-term lines -- and no request
    is answered with the 500 error of a division by zero.  On a store whose
    only course taken has credit-weight 0, both reports are returned with
    credit total 0 and GPA 0.0. *)
Theorem division_by_zero_is_guarded :
  (forall x, truediv x 0 = Raise ZeroDivisionError) /\
  (forall x n, guarded_div x n <> Raise ZeroDivisionError) /\
  (forall x n, n <= 0 -> guarded_div x n = Ok pos_zero) /\
  (forall e db n s,
     hitung_ips_try e db n s <> Raise ZeroDivisionError /\
     hitung_ips e db n s <> Raise (HTTPException 500 (str_exc ZeroDivisionError))) /\
  (forall e db n,
     hitung_ipk_try e db n <> Raise ZeroDivisionError /\
     hitung_ipk e db n <> Raise (HTTPException 500 (str_exc ZeroDivisionError))) /\
  (forall e db n s r,
     hitung_ips e db n s = Ok r -> ips_total_sks r <= 0 -> ips r = pos_zero) /\
  (forall e db n c,
     hitung_ipk e db n = Ok c ->
     (total_sks_kumulatif c <= 0 -> ipk c = pos_zero) /\
     (forall x, In x (detail_per_semester c) -> s_total_sks x <= 0 -> s_ips x = pos_zero)) /\
  (forall e, exists r c,
     hitung_ips e db_zero_credit "2101" 1 = Ok r /\
     ips_total_sks r = 0 /\ ips r = pos_zero /\
     hitung_ipk e db_zero_credit "2101" = Ok c /\
     total_sks_kumulatif c = 0 /\ ipk c = pos_zero /\
     map (fun x => (s_semester x, s_total_sks x, s_ips x)) (detail_per_semester c)
     = [(1, 0, pos_zero)]).
Proof.
  split; [exact truediv_zero|].
  split; [exact guarded_div_never_zero|].
  split.
  { intros x n Hn. rewrite guarded_div_ok by (now left).
    now rewrite quotient_nonpos. }
  split.
  { intros e db n s. apply no_zero_division.
    intros x. apply hitung_ips_try_raises. }
  split.
  { intros e db n. apply no_zero_division.
    intros x. apply hitung_ipk_try_raises. }
  split.
  { intros e db n s r Hr Hs.
    destruct (hitung_ips_ok_inv e db n s r Hr) as [mhs [_ [_ [_ ->]]]].
    cbn [ips_report_of ips ips_total_sks] in *.
    now rewrite quotient_nonpos. }
  split.
  { intros e db n c Hc.
    destruct (hitung_ipk_ok_inv e db n c Hc) as [mhs [_ [_ [_ ->]]]].
    split.
    - cbn [ipk_report_of ipk total_sks_kumulatif]. intros Hs.
      now rewrite quotient_nonpos.
    - intros x Hx Hs.
      destruct (ipk_report_detail _ _ _ _ Hx) as [H1 [_ H3]].
      rewrite H3, quotient_nonpos; [reflexivity|]. now rewrite <- H1. }
  intros e.
  assert (H1 : exists r, hitung_ips e db_zero_credit "2101" 1 = Ok r /\
                         ips_total_sks r = 0 /\ ips r = pos_zero).
  { run_ips @arrange_one @arrange_two e. eexists. split; [vm_compute; reflexivity|]. split; reflexivity. }
  assert (H2 : exists c, hitung_ipk e db_zero_credit "2101" = Ok c /\
     total_sks_kumulatif c = 0 /\ ipk c = pos_zero /\
     map (fun x => (s_semester x, s_total_sks x, s_ips x)) (detail_per_semester c)
     = [(1, 0, pos_zero)]).
  { run_ipk @arrange_one @arrange_two e. eexists. split; [vm_compute; reflexivity|]. repeat split. }
  destruct H1 as [r [Hr [A1 A2]]], H2 as [c [Hc [B1 [B2 B3]]]].
  exists r, c. repeat split; assumption.
Qed.

Lemma division_by_zero_is_guarded_witness :
  guarded_div (dec 12 1) 0 = Ok pos_zero.
Proof.
  apply (proj1 (proj2 (proj2 division_by_zero_is_guarded))). lia.
Defined.

(** ** C7: rounding *)

(** C7. Every reported quality-point total and average is rounded to two
    decimals, and only at the end: each listed course carries the product
    weight x credit-weight as computed, the totals are sums of these
    unrounded products, the averages are quotients of the unrounded totals,
    and each reported number is one such value rounded once.  The per-term
    averages of the cumulative report are computed from the unrounded term
    totals.  With quality points 1.004, 1.004 and 1.008 on 1 credit each the
    report says 3.02 and 1.01, where rounding each value before adding
    would have given 3.01 and 1.0. *)
Theorem rounding_only_at_the_end :
  (forall e db n s,
     wf db -> student_known db n -> term_enrollments db n s <> [] ->
     spec_total_credit db (term_enrollments db n s) < 2 ^ 53 ->
     exists r,
       hitung_ips e db n s = Ok r /\
       (forall x, In x (ips_mata_kuliah r) ->
          e_mutu x = fmul (e_bobot x) (float_of_Z (e_sks x))) /\
       ips_total_mutu r = py_round2 (fsum (map e_mutu (ips_mata_kuliah r))) /\
       ips r = py_round2 (fdiv (fsum (map e_mutu (ips_mata_kuliah r)))
                               (float_of_Z (ips_total_sks r))) /\
       fsum (map e_mutu (ips_mata_kuliah r))
       = spec_total_quality db (delivered_ips e db n s)) /\
  (forall e db n,
     wf db -> student_known db n -> all_enrollments db n <> [] ->
     spec_total_credit db (all_enrollments db n) < 2 ^ 53 ->
     exists c,
       hitung_ipk e db n = Ok c /\
       total_mutu_kumulatif c = py_round2 (spec_total_quality db (delivered_ipk e db n)) /\
       ipk c = py_round2 (fdiv (spec_total_quality db (delivered_ipk e db n))
                               (float_of_Z (total_sks_kumulatif c))) /\
       (forall x, In x (detail_per_semester c) ->
          let ts := delivered_term e db n (s_semester x) in
          s_total_mutu x = py_round2 (spec_total_quality db ts) /\
          s_ips x = py_round2 (fdiv (spec_total_quality db ts)
                                    (float_of_Z (s_total_sks x))))) /\
  (forall e, e = in_order \/ e = reversed ->
     exists r,
       hitung_ips e db_fine_weights "2101" 1 = Ok r /\
       ips_total_mutu r = dec 302 100 /\ ips r = dec 101 100 /\
       py_round2 (total_of_rounded_mutu (ips_mata_kuliah r)) = dec 301 100 /\
       py_round2 (fdiv (total_of_rounded_mutu (ips_mata_kuliah r))
                       (float_of_Z (ips_total_sks r))) = dec 1 1).
Proof.
  split; [|split].
  - intros e db n s Hwf Hk Hne Hb.
    destruct (hitung_ips_spec e db n s Hwf Hk Hne Hb) as [mhs [_ [_ Hr]]].
    destruct (ips_report_of_spec e db n s mhs Hwf Hne) as [H0 [H1 [H2 H3]]].
    eexists. split; [exact Hr|].
    assert (Hm : fsum (map e_mutu (map entry_of (map (row_of db) (delivered_ips e db n s))))
                 = spec_total_quality db (delivered_ips e db n s)).
    { rewrite map_e_mutu. apply rows_total_mutu. }
    split; [intros x Hx; rewrite H0 in Hx; now apply entry_of_mutu in Hx|].
    rewrite H0, Hm.
    split; [exact H2|]. split; [|reflexivity].
    rewrite H3, H1. unfold spec_gpa.
    now rewrite (spec_total_credit_perm db _ _ (delivered_ips_perm e db n s)).
  - intros e db n Hwf Hk Hne Hb.
    destruct (hitung_ipk_spec e db n Hwf Hk Hne Hb) as [mhs [_ [_ Hr]]].
    destruct (ipk_report_of_spec e db n mhs Hwf Hne) as [H1 [H2 [H3 [_ H5]]]].
    eexists. split; [exact Hr|].
    split; [exact H2|].
    split.
    { rewrite H3, H1. unfold spec_gpa.
      now rewrite (spec_total_credit_perm db _ _ (delivered_ipk_perm e db n)). }
    intros x Hx ts. destruct (H5 x Hx) as [A1 [A2 A3]]. fold ts in A2, A3.
    split; [exact A2|].
    rewrite A3, A1. unfold spec_gpa.
    now rewrite (spec_total_credit_perm db ts _ (delivered_term_perm e db n (s_semester x))).
  - intros e [->| ->]; eexists; (split; [vm_compute; reflexivity|]);
      repeat split; vm_compute; reflexivity.
Qed.

Lemma rounding_only_at_the_end_witness :
  exists r,
    hitung_ips in_order db_fine_weights "2101" 1 = Ok r /\
    ips_total_mutu r = py_round2 (fsum (map e_mutu (ips_mata_kuliah r))) /\
    ips r = py_round2 (fdiv (fsum (map e_mutu (ips_mata_kuliah r)))
                            (float_of_Z (ips_total_sks r))).
Proof.
  destruct (proj1 rounding_only_at_the_end in_order db_fine_weights "2101"%string 1)
    as [r [Hr [_ [Ht [Hi _]]]]].
  - exact wf_db_fine_weights.
  - left. reflexivity.
  - discriminate.
  - reflexivity.
  - exists r. split; [exact Hr|]. split; [exact Ht|exact Hi].
Defined.

(** ** C8: NotFound *)

(** C8, as stated, fails: for a student identifier with a NUL character --
    which names no stored student -- both grade-point endpoints answer 500,
    not 404 NotFound: the driver refuses the parameter before the student
    is looked up. *)
Lemma unknown_student_is_not_always_404 :
  ~ student_known db_two_courses nul_nim /\
  (forall e s,
     hitung_ips e db_two_courses nul_nim s
     = Raise (HTTPException 500 "A string literal cannot contain NUL (0x00) characters.")) /\
  (forall e,
     hitung_ipk e db_two_courses nul_nim
     = Raise (HTTPException 500 "A string literal cannot contain NUL (0x00) characters.")) /\
  ~ (forall e db n s, ~ student_known db n -> is_http 404 (hitung_ips e db n s)).
Proof.
  assert (Hu : ~ student_known db_two_courses nul_nim).
  { intros [H|[]]. discriminate H. }
  split; [exact Hu|].
  split; [intros e s; now apply hitung_ips_nul|].
  split; [intros e; now apply hitung_ipk_nul|].
  intros C. destruct (C in_order db_two_courses nul_nim 1 Hu) as [d Hd].
  rewrite hitung_ips_nul in Hd by reflexivity. discriminate Hd.
Qed.

Lemma rows_ips_nil (db : database) (n : string) (s : Z) :
  wf db -> rows_ips db n s = [] <-> term_enrollments db n s = [].
Proof.
  intros Hwf. rewrite rows_ips_spec by exact Hwf.
  split; intros H; [now apply map_eq_nil in H|now rewrite H].
Qed.

Lemma rows_ipk_nil (db : database) (n : string) :
  wf db -> rows_ipk db n = [] <-> all_enrollments db n = [].
Proof.
  intros Hwf. rewrite rows_ipk_spec by exact Hwf.
  split; intros H; [now apply map_eq_nil in H|now rewrite H].
Qed.

(** C8 (amended). For a student identifier the driver accepts (one without
    a NUL character), on a store satisfying the invariants: the semester
    endpoint answers 404 NotFound exactly when the student is unknown or has
    no enrollment in the requested term, and the cumulative endpoint exactly
    when the student is unknown or has no enrollment at all; otherwise (the
    credit total being below 2^53) the report is returned.  An identifier
    with a NUL character is answered 500 by both. *)
Theorem gpa_not_found_exactly (e : engine) (db : database) (n : string) (s : Z) :
  wf db ->
  (has_nul n = false ->
   (is_http 404 (hitung_ips e db n s)
    <-> ~ student_known db n \/ term_enrollments db n s = []) /\
   (is_http 404 (hitung_ipk e db n)
    <-> ~ student_known db n \/ all_enrollments db n = []) /\
   (spec_total_credit db (term_enrollments db n s) < 2 ^ 53 ->
    ((exists r, hitung_ips e db n s = Ok r)
     <-> student_known db n /\ term_enrollments db n s <> [])) /\
   (spec_total_credit db (all_enrollments db n) < 2 ^ 53 ->
    ((exists c, hitung_ipk e db n = Ok c)
     <-> student_known db n /\ all_enrollments db n <> []))) /\
  (has_nul n = true ->
   is_http 500 (hitung_ips e db n s) /\ is_http 500 (hitung_ipk e db n)).
Proof.
  intros Hwf. split.
  2:{ intros Hn. split; [rewrite hitung_ips_nul by exact Hn|rewrite hitung_ipk_nul by exact Hn];
        eexists; reflexivity. }
  intros Hn.
  pose proof (rows_ips_nil db n s Hwf) as Ni.
  pose proof (rows_ipk_nil db n Hwf) as Nk.
  split; [|split; [|split]].
  - destruct (hitung_ips_cases e db n s)
      as [[H _]|[[_ [Hu E]]|[[_ [Hk [Hr E]]]|[_ [Hk [Hr [[r E]|E]]]]]]]; [congruence| | | |];
      rewrite E; unfold is_http.
    + split; [auto|intros _; eexists; reflexivity].
    + split; [intros _; right; now apply Ni|intros _; eexists; reflexivity].
    + split; [intros [d Hd]; discriminate|].
      intros [Hu|He]; [contradiction|]. exfalso. apply Hr. now apply Ni.
    + split; [intros [d Hd]; discriminate|].
      intros [Hu|He]; [contradiction|]. exfalso. apply Hr. now apply Ni.
  - destruct (hitung_ipk_cases e db n)
      as [[H _]|[[_ [Hu E]]|[[_ [Hk [Hr E]]]|[_ [Hk [Hr [[r E]|E]]]]]]]; [congruence| | | |];
      rewrite E; unfold is_http.
    + split; [auto|intros _; eexists; reflexivity].
    + split; [intros _; right; now apply Nk|intros _; eexists; reflexivity].
    + split; [intros [d Hd]; discriminate|].
      intros [Hu|He]; [contradiction|]. exfalso. apply Hr. now apply Nk.
    + split; [intros [d Hd]; discriminate|].
      intros [Hu|He]; [contradiction|]. exfalso. apply Hr. now apply Nk.
  - intros Hb. split.
    + intros [r Hr].
      destruct (hitung_ips_cases e db n s)
        as [[H _]|[[_ [Hu E]]|[[_ [Hk [Hr0 E]]]|[_ [Hk [Hr0 _]]]]]]; try congruence.
      split; [exact Hk|]. intros He. apply Hr0. now apply Ni.
    + intros [Hk Hne].
      destruct (hitung_ips_spec e db n s Hwf Hk Hne Hb) as [mhs [_ [_ Hr]]].
      eexists. exact Hr.
  - intros Hb. split.
    + intros [r Hr].
      destruct (hitung_ipk_cases e db n)
        as [[H _]|[[_ [Hu E]]|[[_ [Hk [Hr0 E]]]|[_ [Hk [Hr0 _]]]]]]; try congruence.
      split; [exact Hk|]. intros He. apply Hr0. now apply Nk.
    + intros [Hk Hne].
      destruct (hitung_ipk_spec e db n Hwf Hk Hne Hb) as [mhs [_ [_ Hr]]].
      eexists. exact Hr.
Qed.

Lemma gpa_not_found_exactly_witness :
  is_http 404 (hitung_ips in_order db_two_courses "2101" 2) /\
  is_http 404 (hitung_ipk in_order db_two_courses "2199") /\
  (exists r, hitung_ips in_order db_two_courses "2101" 1 = Ok r).
Proof.
  destruct (gpa_not_found_exactly in_order db_two_courses "2101"%string 2 wf_db_two_courses)
    as [H2 _].
  destruct (gpa_not_found_exactly in_order db_two_courses "2199"%string 1 wf_db_two_courses)
    as [H9 _].
  destruct (gpa_not_found_exactly in_order db_two_courses "2101"%string 1 wf_db_two_courses)
    as [H1 _].
  destruct (H2 eq_refl) as [A _].
  destruct (H9 eq_refl) as [_ [B _]].
  destruct (H1 eq_refl) as [_ [_ [C _]]].
  split; [apply A; right; reflexivity|].
  split.
  - apply B. left. intros [H|[]]. discriminate H.
  - apply C; [reflexivity|]. split; [left; reflexivity|discriminate].
Defined.

(** ** C9: the term bound of the semester endpoint *)

(** C9. The semester GPA endpoint accepts any term number from 1 upward,
    with no upper bound: such a request reaches the handler, and for a
    stored student a term above 14 is answered 404 NotFound, since
    enrollments can only be created for terms 1 to 14 -- a request to create
    one outside 1-14 is rejected with 422 and stores nothing.  A term below
    1 is rejected with 422 before the handler runs, whatever the store. *)
Theorem ips_term_unbounded_above :
  (forall e db n s, 1 <= s -> get_ips e db n s = hitung_ips e db n s) /\
  (forall e db n s,
     wf db -> student_known db n -> 14 < s ->
     get_ips e db n s =
     Raise (HTTPException 404 ("Tidak ada data nilai untuk mahasiswa " ++ n
                                 ++ " di semester " ++ str_Z s))) /\
  (forall a auth admin k db,
     verify_admin a auth = Ok admin ->
     krs_semester k < 1 \/ 14 < krs_semester k ->
     is_http 422 (fst (post_nilai a auth k db)) /\ snd (post_nilai a auth k db) = db) /\
  (forall e e' db db' n s,
     s < 1 ->
     is_http 422 (get_ips e db n s) /\ get_ips e db n s = get_ips e' db' n s).
Proof.
  split; [|split; [|split]].
  - intros e db n s Hs. unfold get_ips.
    destruct (s <? 1) eqn:E; [apply Z.ltb_lt in E; lia|reflexivity].
  - intros e db n s Hwf Hk Hs. unfold get_ips.
    destruct (s <? 1) eqn:E; [apply Z.ltb_lt in E; lia|].
    destruct (fetch_mahasiswa_known e db n Hk) as [mhs Hf].
    apply hitung_ips_no_rows with (mhs := mhs); [now apply known_clean with (db := db)|exact Hf|].
    apply (rows_ips_nil db n s Hwf).
    apply filter_nil_iff. intros k Hin.
    pose proof (wf_krs_term db Hwf k Hin) as Ht.
    destruct (k_semester k =? s) eqn:E'; [apply Z.eqb_eq in E'; lia|].
    apply andb_false_r.
  - intros a auth admin k db Ha Hs. unfold post_nilai, post. rewrite Ha.
    assert (Hv : valid_KRS k = false).
    { unfold valid_KRS. destruct Hs as [Hs|Hs].
      - destruct (1 <=? krs_semester k) eqn:E; [apply Z.leb_le in E; lia|reflexivity].
      - destruct (krs_semester k <=? 14) eqn:E; [apply Z.leb_le in E; lia|].
        apply andb_false_r. }
    rewrite Hv. split; [eexists; reflexivity|reflexivity].
  - intros e e' db db' n s Hs. unfold get_ips.
    apply Z.ltb_lt in Hs. rewrite Hs. split; [eexists; reflexivity|reflexivity].
Qed.

Lemma ips_term_unbounded_above_witness :
  get_ips in_order db_two_courses "2101" 15 =
  Raise (HTTPException 404 "Tidak ada data nilai untuk mahasiswa 2101 di semester 15").
Proof.
  apply (proj1 (proj2 ips_term_unbounded_above) in_order db_two_courses "2101"%string 15).
  - exact wf_db_two_courses.
  - left. reflexivity.
  - lia.
Defined.

(** ** The mutating handlers, by the checks in their order *)

Lemma execute_fetchone_run {A} (params : list param) (q : database -> list A)
  (db : database) :
  execute_fetchone params q db
  = (if forallb adaptable params then Ok (fetchone (q db)) else Raise nul_refused, db).
Proof.
  unfold execute_fetchone, adapt. destruct (forallb adaptable params); reflexivity.
Qed.

Lemma execute_insert_run {A} (params : list param) (ins : database -> A * database)
  (db : database) :
  execute_insert params ins db
  = if forallb adaptable params then (Ok (fst (ins db)), snd (ins db))
    else (Raise nul_refused, db).
Proof.
  unfold execute_insert, adapt. destruct (forallb adaptable params); [|reflexivity].
  destruct (ins db); reflexivity.
Qed.

Lemma enrolled_dec (db : database) (n c : string) (s : Z) :
  {enrolled db n c s} + {~ enrolled db n c s}.
Proof.
  destruct (fetchone (select_krs db n c s)) as [d|] eqn:Ed.
  - left. apply fetchone_filter_some in Ed. destruct Ed as [Hin Hb].
    apply andb_prop in Hb. destruct Hb as [Hb H3].
    apply andb_prop in Hb. destruct Hb as [H1 H2].
    apply String.eqb_eq in H1, H2. apply Z.eqb_eq in H3.
    exists d. auto.
  - right. now apply select_krs_none.
Qed.

Lemma fetch_known_mahasiswa (db : database) (n : string) :
  student_known db n -> exists x, fetchone (select_mahasiswa db n) = Some x.
Proof.
  intros H. destruct (fetchone (select_mahasiswa db n)) as [x|] eqn:E; [eauto|].
  apply select_mahasiswa_none in E. contradiction.
Qed.

Lemma fetch_known_mata_kuliah (db : database) (c : string) :
  course_known db c -> exists x, fetchone (select_mata_kuliah db c) = Some x.
Proof.
  intros H. destruct (fetchone (select_mata_kuliah db c)) as [x|] eqn:E; [eauto|].
  apply select_mata_kuliah_none in E. contradiction.
Qed.

Lemma fetch_enrolled (db : database) (n c : string) (s : Z) :
  enrolled db n c s -> exists x, fetchone (select_krs db n c s) = Some x.
Proof.
  intros H. destruct (fetchone (select_krs db n c s)) as [x|] eqn:E; [eauto|].
  apply select_krs_none in E. contradiction.
Qed.

(** The outcomes of [create_mahasiswa]. *)
Lemma create_mahasiswa_cases (m : Mahasiswa) (admin : json) (db : database) :
  (has_nul (nim m) = true /\
   create_mahasiswa m admin db = (Raise (HTTPException 500 (str_exc nul_refused)), db)) \/
  (has_nul (nim m) = false /\ student_known db (nim m) /\
   create_mahasiswa m admin db = (Raise (HTTPException 400 "NIM sudah terdaftar"), db)) \/
  (has_nul (nim m) = false /\ ~ student_known db (nim m) /\ clean_Mahasiswa m = false /\
   create_mahasiswa m admin db = (Raise (HTTPException 500 (str_exc nul_refused)), db)) \/
  (clean_Mahasiswa m = true /\ ~ student_known db (nim m) /\
   create_mahasiswa m admin db =
   (Ok {| message := "Mahasiswa berhasil ditambahkan"; data := m;
          created_by := admin_username admin |}, with_mahasiswa db m)).
Proof.
  unfold create_mahasiswa, texcept_500, get_db_connection, tbind.
  rewrite execute_fetchone_run. cbn [forallb adaptable].
  unfold clean_Mahasiswa.
  destruct (has_nul (nim m)) eqn:Hn; cbn [negb andb].
  { left. split; reflexivity. }
  right.
  destruct (student_known_dec db (nim m)) as [Hk|Hk].
  { left. destruct (fetch_known_mahasiswa db (nim m) Hk) as [x ->].
    split; [reflexivity|]. split; [exact Hk|reflexivity]. }
  right.
  assert (E : fetchone (select_mahasiswa db (nim m)) = None)
    by now apply select_mahasiswa_none.
  rewrite E. rewrite execute_insert_run. cbn [forallb adaptable]. rewrite Hn.
  cbn [negb andb].
  destruct (has_nul (nama m)); cbn [negb andb].
  { left. repeat split; auto. }
  destruct (has_nul (jurusan m)); cbn [negb andb].
  { left. repeat split; auto. }
  right. repeat split; auto.
Qed.

(** The outcomes of [create_mata_kuliah]. *)
Lemma create_mata_kuliah_cases (mk : MataKuliah) (admin : json) (db : database) :
  (has_nul (kode_mk mk) = true /\
   create_mata_kuliah mk admin db
   = (Raise (HTTPException 500 (str_exc nul_refused)), db)) \/
  (has_nul (kode_mk mk) = false /\ course_known db (kode_mk mk) /\
   create_mata_kuliah mk admin db
   = (Raise (HTTPException 400 "Kode mata kuliah sudah ada"), db)) \/
  (has_nul (kode_mk mk) = false /\ ~ course_known db (kode_mk mk) /\
   clean_MataKuliah mk = false /\
   create_mata_kuliah mk admin db
   = (Raise (HTTPException 500 (str_exc nul_refused)), db)) \/
  (clean_MataKuliah mk = true /\ ~ course_known db (kode_mk mk) /\
   create_mata_kuliah mk admin db =
   (Ok {| message := "Mata kuliah berhasil ditambahkan"; data := mk;
          created_by := admin_username admin |}, with_mata_kuliah db mk)).
Proof.
  unfold create_mata_kuliah, texcept_500, get_db_connection, tbind.
  rewrite execute_fetchone_run. cbn [forallb adaptable].
  unfold clean_MataKuliah.
  destruct (has_nul (kode_mk mk)) eqn:Hn; cbn [negb andb].
  { left. split; reflexivity. }
  right.
  destruct (course_known_dec db (kode_mk mk)) as [Hk|Hk].
  { left. destruct (fetch_known_mata_kuliah db (kode_mk mk) Hk) as [x ->].
    split; [reflexivity|]. split; [exact Hk|reflexivity]. }
  right.
  assert (E : fetchone (select_mata_kuliah db (kode_mk mk)) = None)
    by now apply select_mata_kuliah_none.
  rewrite E. rewrite execute_insert_run. cbn [forallb adaptable]. rewrite Hn.
  cbn [negb andb].
  destruct (has_nul (nama_mk mk)); cbn [negb andb].
  { left. repeat split; auto. }
  right. repeat split; auto.
Qed.

(** The outcomes of [create_nilai]. *)
Lemma create_nilai_cases (k : KRS) (admin : json) (db : database) :
  (has_nul (krs_nim k) = true /\
   create_nilai k admin db = (Raise (HTTPException 500 (str_exc nul_refused)), db)) \/
  (has_nul (krs_nim k) = false /\ ~ student_known db (krs_nim k) /\
   create_nilai k admin db = (Raise (HTTPException 404 "Mahasiswa tidak ditemukan"), db)) \/
  (has_nul (krs_nim k) = false /\ student_known db (krs_nim k) /\
   has_nul (krs_kode_mk k) = true /\
   create_nilai k admin db = (Raise (HTTPException 500 (str_exc nul_refused)), db)) \/
  (has_nul (krs_nim k) = false /\ student_known db (krs_nim k) /\
   has_nul (krs_kode_mk k) = false /\ ~ course_known db (krs_kode_mk k) /\
   create_nilai k admin db = (Raise (HTTPException 404 "Mata kuliah tidak ditemukan"), db)) \/
  (has_nul (krs_nim k) = false /\ student_known db (krs_nim k) /\
   has_nul (krs_kode_mk k) = false /\ course_known db (krs_kode_mk k) /\
   enrolled db (krs_nim k) (krs_kode_mk k) (krs_semester k) /\
   create_nilai k admin db =
   (Raise (HTTPException 400
             "Mahasiswa sudah mengambil mata kuliah ini di semester yang sama"), db)) \/
  (has_nul (krs_nim k) = false /\ student_known db (krs_nim k) /\
   has_nul (krs_kode_mk k) = false /\ course_known db (krs_kode_mk k) /\
   ~ enrolled db (krs_nim k) (krs_kode_mk k) (krs_semester k) /\
   adaptable (param_of_option (krs_nilai k)) = false /\
   create_nilai k admin db = (Raise (HTTPException 500 (str_exc nul_refused)), db)) \/
  (clean_KRS k = true /\ student_known db (krs_nim k) /\
   course_known db (krs_kode_mk k) /\
   ~ enrolled db (krs_nim k) (krs_kode_mk k) (krs_semester k) /\
   create_nilai k admin db =
   (Ok {| message := "Nilai/KRS berhasil ditambahkan"; data := new_krs_row db k;
          created_by := admin_username admin |},
    with_krs_row db (new_krs_row db k))).
Proof.
  unfold create_nilai, texcept_500, get_db_connection, tbind.
  rewrite execute_fetchone_run. cbn [forallb adaptable].
  unfold clean_KRS.
  destruct (has_nul (krs_nim k)) eqn:Hn; cbn [negb andb].
  { left. split; reflexivity. }
  right.
  destruct (student_known_dec db (krs_nim k)) as [Hs|Hs].
  2:{ left. assert (E : fetchone (select_mahasiswa db (krs_nim k)) = None)
        by now apply select_mahasiswa_none.
      rewrite E. repeat split; auto. }
  right.
  destruct (fetch_known_mahasiswa db (krs_nim k) Hs) as [x ->].
  rewrite execute_fetchone_run. cbn [forallb adaptable].
  destruct (has_nul (krs_kode_mk k)) eqn:Hc; cbn [negb andb].
  { left. repeat split; auto. }
  right.
  destruct (course_known_dec db (krs_kode_mk k)) as [Hm|Hm].
  2:{ left. assert (E : fetchone (select_mata_kuliah db (krs_kode_mk k)) = None)
        by now apply select_mata_kuliah_none.
      rewrite E. repeat split; auto. }
  right.
  destruct (fetch_known_mata_kuliah db (krs_kode_mk k) Hm) as [y ->].
  rewrite execute_fetchone_run. cbn [forallb adaptable]. rewrite Hn, Hc.
  cbn [negb andb].
  destruct (enrolled_dec db (krs_nim k) (krs_kode_mk k) (krs_semester k)) as [He|He].
  { left. destruct (fetch_enrolled _ _ _ _ He) as [z ->]. repeat split; auto. }
  right.
  assert (E : fetchone (select_krs db (krs_nim k) (krs_kode_mk k) (krs_semester k)) = None)
    by now apply select_krs_none.
  rewrite E. rewrite execute_insert_run. cbn [forallb adaptable].
  rewrite Hn, Hc. cbn [negb andb].
  destruct (adaptable (param_of_option (krs_nilai k))) eqn:Hg; cbn [andb].
  - right. repeat split; auto.
  - left. repeat split; auto.
Qed.

(** Whenever a mutating handler raises, the store is the one it started
    from. *)
Lemma create_mahasiswa_rollback (m : Mahasiswa) (admin : json) (db : database)
  (x : exception) :
  fst (create_mahasiswa m admin db) = Raise x -> snd (create_mahasiswa m admin db) = db.
Proof.
  destruct (create_mahasiswa_cases m admin db)
    as [[_ E]|[[_ [_ E]]|[[_ [_ [_ E]]]|[_ [_ E]]]]]; rewrite E; cbn [fst snd];
    [reflexivity|reflexivity|reflexivity|discriminate].
Qed.

Lemma create_mata_kuliah_rollback (mk : MataKuliah) (admin : json) (db : database)
  (x : exception) :
  fst (create_mata_kuliah mk admin db) = Raise x ->
  snd (create_mata_kuliah mk admin db) = db.
Proof.
  destruct (create_mata_kuliah_cases mk admin db)
    as [[_ E]|[[_ [_ E]]|[[_ [_ [_ E]]]|[_ [_ E]]]]]; rewrite E; cbn [fst snd];
    [reflexivity|reflexivity|reflexivity|discriminate].
Qed.

Lemma create_nilai_rollback (k : KRS) (admin : json) (db : database) (x : exception) :
  fst (create_nilai k admin db) = Raise x -> snd (create_nilai k admin db) = db.
Proof.
  destruct (create_nilai_cases k admin db)
    as [[_ E]|[[_ [_ E]]|[[_ [_ [_ E]]]|[[_ [_ [_ [_ E]]]]|[[_ [_ [_ [_ [_ E]]]]]
       |[[_ [_ [_ [_ [_ [_ E]]]]]]|[_ [_ [_ [_ E]]]]]]]]]];
    rewrite E; cbn [fst snd]; try reflexivity. discriminate.
Qed.

(** What a created response tells. *)
Lemma create_mahasiswa_ok (m : Mahasiswa) (admin : json) (db : database)
  (resp : created Mahasiswa) :
  fst (create_mahasiswa m admin db) = Ok resp ->
  clean_Mahasiswa m = true /\ ~ student_known db (nim m) /\
  resp = {| message := "Mahasiswa berhasil ditambahkan"; data := m;
            created_by := admin_username admin |} /\
  snd (create_mahasiswa m admin db) = with_mahasiswa db m.
Proof.
  destruct (create_mahasiswa_cases m admin db)
    as [[_ E]|[[_ [_ E]]|[[_ [_ [_ E]]]|[Hc [Hu E]]]]]; rewrite E; cbn [fst snd];
    try discriminate.
  intros H. inversion H. auto.
Qed.

Lemma create_mata_kuliah_ok (mk : MataKuliah) (admin : json) (db : database)
  (resp : created MataKuliah) :
  fst (create_mata_kuliah mk admin db) = Ok resp ->
  clean_MataKuliah mk = true /\ ~ course_known db (kode_mk mk) /\
  resp = {| message := "Mata kuliah berhasil ditambahkan"; data := mk;
            created_by := admin_username admin |} /\
  snd (create_mata_kuliah mk admin db) = with_mata_kuliah db mk.
Proof.
  destruct (create_mata_kuliah_cases mk admin db)
    as [[_ E]|[[_ [_ E]]|[[_ [_ [_ E]]]|[Hc [Hu E]]]]]; rewrite E; cbn [fst snd];
    try discriminate.
  intros H. inversion H. auto.
Qed.

Lemma create_nilai_ok (k : KRS) (admin : json) (db : database) (resp : created krs_row) :
  fst (create_nilai k admin db) = Ok resp ->
  clean_KRS k = true /\ student_known db (krs_nim k) /\
  course_known db (krs_kode_mk k) /\
  ~ enrolled db (krs_nim k) (krs_kode_mk k) (krs_semester k) /\
  resp = {| message := "Nilai/KRS berhasil ditambahkan"; data := new_krs_row db k;
            created_by := admin_username admin |} /\
  snd (create_nilai k admin db) = with_krs_row db (new_krs_row db k).
Proof.
  destruct (create_nilai_cases k admin db)
    as [[_ E]|[[_ [_ E]]|[[_ [_ [_ E]]]|[[_ [_ [_ [_ E]]]]|[[_ [_ [_ [_ [_ E]]]]]
       |[[_ [_ [_ [_ [_ [_ E]]]]]]|[Hc [Hs [Hm [He E]]]]]]]]]];
    rewrite E; cbn [fst snd]; try discriminate.
  intros H. inversion H. auto 10.
Qed.

Lemma create_nilai_run (k : KRS) (admin : json) (db : database) :
  clean_KRS k = true -> student_known db (krs_nim k) ->
  course_known db (krs_kode_mk k) ->
  ~ enrolled db (krs_nim k) (krs_kode_mk k) (krs_semester k) ->
  create_nilai k admin db =
  (Ok {| message := "Nilai/KRS berhasil ditambahkan"; data := new_krs_row db k;
         created_by := admin_username admin |},
   with_krs_row db (new_krs_row db k)).
Proof.
  intros Hc Hs Hm He. unfold clean_KRS in Hc.
  apply andb_prop in Hc. destruct Hc as [Hc Hg].
  apply andb_prop in Hc. destruct Hc as [Hn Hc].
  apply negb_true_iff in Hn, Hc.
  destruct (create_nilai_cases k admin db)
    as [[F _]|[[_ [F _]]|[[_ [_ [F _]]]|[[_ [_ [_ [F _]]]]|[[_ [_ [_ [_ [F _]]]]]
       |[[_ [_ [_ [_ [_ [F _]]]]]]|[_ [_ [_ [_ E]]]]]]]]]];
    try congruence; try contradiction.
Qed.

(** ** C5: creating an enrollment *)

(** C5, as stated, fails: a request naming an unknown student is not always
    answered 404 NotFound.  When the student identifier holds a NUL
    character the driver refuses the parameter of the very first query and
    the answer is 500. *)
Lemma unknown_student_with_nul_is_not_404 :
  ~ student_known db_two_courses (krs_nim krs_nul_nim_request) /\
  valid_KRS krs_nul_nim_request = true /\
  (forall admin,
     create_nilai krs_nul_nim_request admin db_two_courses
     = (Raise (HTTPException 500 "A string literal cannot contain NUL (0x00) characters."),
        db_two_courses)) /\
  ~ (forall k admin db,
       ~ student_known db (krs_nim k) ->
       create_nilai k admin db
       = (Raise (HTTPException 404 "Mahasiswa tidak ditemukan"), db)).
Proof.
  assert (Hu : ~ student_known db_two_courses (krs_nim krs_nul_nim_request)).
  { intros [H|[]]. discriminate H. }
  split; [exact Hu|]. split; [reflexivity|]. split; [reflexivity|].
  intros C. specialize (C krs_nul_nim_request JNull db_two_courses Hu). discriminate C.
Qed.

Lemma enrolled_known (db : database) (n c : string) (s : Z) :
  wf db -> enrolled db n c s ->
  student_known db n /\ course_known db c /\ has_nul n = false /\ has_nul c = false.
Proof.
  intros Hwf [k0 [Hin [Hn [Hc _]]]]. subst n c.
  pose proof (wf_krs_student db Hwf k0 Hin) as Hs.
  pose proof (wf_krs_course db Hwf k0 Hin) as Hm.
  split; [exact Hs|]. split; [exact Hm|].
  split; [now apply known_clean with (db := db)|].
  unfold course_known in Hm. apply in_map_iff in Hm. destruct Hm as [mk [E Hmk]].
  rewrite <- E. now apply (wf_text_mata_kuliah db Hwf mk Hmk).
Qed.

Lemma course_clean (db : database) (c : string) :
  wf db -> course_known db c -> has_nul c = false.
Proof.
  intros Hwf Hm. unfold course_known in Hm. apply in_map_iff in Hm.
  destruct Hm as [mk [E Hmk]]. rewrite <- E.
  now apply (wf_text_mata_kuliah db Hwf mk Hmk).
Qed.

Lemma clean_KRS_parts (k : KRS) :
  clean_KRS k = true <->
  has_nul (krs_nim k) = false /\ has_nul (krs_kode_mk k) = false /\
  adaptable (param_of_option (krs_nilai k)) = true.
Proof.
  unfold clean_KRS. rewrite !andb_true_iff, !negb_true_iff. tauto.
Qed.

(** C5 (amended). Creating an enrollment, the checks in their order, each
    parameter being refused by the driver (answer 500) when it holds a NUL
    character: a NUL-free student identifier that is unknown is answered
    404 NotFound; for a known student, a NUL-free course code that is
    unknown 404 NotFound; an existing record for the same (student, course,
    term) the conflict error (status 400) -- on a store satisfying the
    invariants, whenever such a record exists; otherwise, the grade being
    absent or NUL-free, the record is appended with the grade as given under
    the next identifier and returned.  A student identifier with a NUL
    character, for a known student a course code with one, and for a new
    triple a grade with one are answered 500.  Whenever the handler raises,
    the store is the one it started from. *)
Theorem create_nilai_outcomes (k : KRS) (admin : json) (db : database) :
  (has_nul (krs_nim k) = false -> ~ student_known db (krs_nim k) ->
   create_nilai k admin db = (Raise (HTTPException 404 "Mahasiswa tidak ditemukan"), db)) /\
  (has_nul (krs_nim k) = false -> student_known db (krs_nim k) ->
   has_nul (krs_kode_mk k) = false -> ~ course_known db (krs_kode_mk k) ->
   create_nilai k admin db = (Raise (HTTPException 404 "Mata kuliah tidak ditemukan"), db)) /\
  (has_nul (krs_nim k) = false -> student_known db (krs_nim k) ->
   has_nul (krs_kode_mk k) = false -> course_known db (krs_kode_mk k) ->
   enrolled db (krs_nim k) (krs_kode_mk k) (krs_semester k) ->
   create_nilai k admin db =
   (Raise (HTTPException 400
             "Mahasiswa sudah mengambil mata kuliah ini di semester yang sama"), db)) /\
  (wf db -> enrolled db (krs_nim k) (krs_kode_mk k) (krs_semester k) ->
   create_nilai k admin db =
   (Raise (HTTPException 400
             "Mahasiswa sudah mengambil mata kuliah ini di semester yang sama"), db)) /\
  (clean_KRS k = true ->
   student_known db (krs_nim k) -> course_known db (krs_kode_mk k) ->
   ~ enrolled db (krs_nim k) (krs_kode_mk k) (krs_semester k) ->
   exists row,
     row = {| id_krs := krs_id_seq db + 1; k_nim := krs_nim k;
              k_kode_mk := krs_kode_mk k; k_nilai := krs_nilai k;
              k_semester := krs_semester k |} /\
     fst (create_nilai k admin db) =
       Ok {| message := "Nilai/KRS berhasil ditambahkan"; data := row;
             created_by := admin_username admin |} /\
     krs (snd (create_nilai k admin db)) = krs db ++ [row] /\
     mahasiswa (snd (create_nilai k admin db)) = mahasiswa db /\
     mata_kuliah (snd (create_nilai k admin db)) = mata_kuliah db /\
     bobot_nilai (snd (create_nilai k admin db)) = bobot_nilai db) /\
  (has_nul (krs_nim k) = true ->
   create_nilai k admin db = (Raise (HTTPException 500 (str_exc nul_refused)), db)) /\
  (has_nul (krs_nim k) = false -> student_known db (krs_nim k) ->
   has_nul (krs_kode_mk k) = true ->
   create_nilai k admin db = (Raise (HTTPException 500 (str_exc nul_refused)), db)) /\
  (has_nul (krs_nim k) = false -> student_known db (krs_nim k) ->
   has_nul (krs_kode_mk k) = false -> course_known db (krs_kode_mk k) ->
   ~ enrolled db (krs_nim k) (krs_kode_mk k) (krs_semester k) ->
   adaptable (param_of_option (krs_nilai k)) = false ->
   create_nilai k admin db = (Raise (HTTPException 500 (str_exc nul_refused)), db)) /\
  (forall e, fst (create_nilai k admin db) = Raise e ->
             snd (create_nilai k admin db) = db).
Proof.
  pose proof (enrolled_known db (krs_nim k) (krs_kode_mk k) (krs_semester k)) as Href.
  pose proof (clean_KRS_parts k) as Hclean.
  assert (Hroll := create_nilai_rollback k admin db).
  destruct (create_nilai_cases k admin db)
    as [[H1 E]|[[H1 [H2 E]]|[[H1 [H2 [H3 E]]]|[[H1 [H2 [H3 [H4 E]]]]
       |[[H1 [H2 [H3 [H4 [H5 E]]]]]|[[H1 [H2 [H3 [H4 [H5 [H6 E]]]]]]
       |[H1 [H2 [H3 [H4 E]]]]]]]]]];
    (repeat split; [| | | | | | | |exact Hroll]);
    intros;
    try match goal with
        | Hw : wf db, He : enrolled _ _ _ _ |- _ =>
          destruct (Href Hw He) as [? [? [? ?]]]
        end;
    try match goal with
        | Hc : clean_KRS k = true |- _ => apply Hclean in Hc; destruct Hc as [? [? ?]]
        end;
    try congruence; try contradiction; try exact E.
  exists (new_krs_row db k). rewrite E. repeat split.
Qed.

Lemma create_nilai_outcomes_witness :
  (exists row,
     fst (create_nilai krs_request admin_user db_two_courses) =
       Ok {| message := "Nilai/KRS berhasil ditambahkan"; data := row;
             created_by := JStr "admin1" |} /\
     k_nilai row = Some "Z+"%string /\ id_krs row = 3 /\
     krs (snd (create_nilai krs_request admin_user db_two_courses))
     = krs db_two_courses ++ [row]) /\
  create_nilai krs_nul_nim_request admin_user db_two_courses
  = (Raise (HTTPException 500 "A string literal cannot contain NUL (0x00) characters."),
     db_two_courses).
Proof.
  pose proof (create_nilai_outcomes krs_request admin_user db_two_courses)
    as [_ [_ [_ [_ [H _]]]]].
  pose proof (create_nilai_outcomes krs_nul_nim_request admin_user db_two_courses)
    as [_ [_ [_ [_ [_ [N _]]]]]].
  split.
  - destruct H as [row [Hrow [Hf [Hk _]]]].
    + reflexivity.
    + left. reflexivity.
    + left. reflexivity.
    + intros [k0 [Hin [_ [_ Hs]]]]. simpl in Hin.
      destruct Hin as [<-|[<-|[]]]; discriminate Hs.
    + exists row. subst row. split; [exact Hf|]. split; [reflexivity|].
      split; [reflexivity|exact Hk].
  - apply N. reflexivity.
Defined.

(** ** C10: the grade of a created enrollment *)

Lemma joined_null_weight (db : database) (k : krs_row) :
  left_join_bobot db (k_nilai k) = [None] ->
  joined db k =
  map (fun mk => {| r_semester := k_semester k; r_kode_mk := k_kode_mk k;
                    r_nama_mk := nama_mk mk; r_sks := sks mk;
                    r_nilai := k_nilai k; r_bobot := None |})
      (join_mata_kuliah db k).
Proof.
  intros H. unfold joined. rewrite H.
  induction (join_mata_kuliah db k) as [|mk l IH]; simpl; [reflexivity|].
  f_equal; exact IH.
Qed.

(** Two enrollments that differ in the letter grade only, neither grade
    listed in the weight table, give the same query rows up to the grade. *)
Lemma joined_same_up_to_grade (db : database) (k1 k2 : krs_row) :
  k_nim k1 = k_nim k2 -> k_kode_mk k1 = k_kode_mk k2 -> k_semester k1 = k_semester k2 ->
  left_join_bobot db (k_nilai k1) = [None] ->
  left_join_bobot db (k_nilai k2) = [None] ->
  map strip_nilai (joined db k1) = map strip_nilai (joined db k2).
Proof.
  intros Hn Hc Hs H1 H2.
  rewrite (joined_null_weight db k1 H1), (joined_null_weight db k2 H2), !map_map.
  unfold join_mata_kuliah, strip_nilai; simpl. rewrite Hc, Hs. reflexivity.
Qed.

Lemma rows_ips_snoc (db : database) (row : krs_row) (n : string) (s : Z) :
  rows_ips (with_krs_row db row) n s =
  rows_ips db n s ++
  (if String.eqb (k_nim row) n && (k_semester row =? s) then joined db row else []).
Proof.
  unfold rows_ips. cbn [with_krs_row krs].
  rewrite filter_app, flat_map_app. f_equal. simpl.
  destruct (String.eqb (k_nim row) n && (k_semester row =? s)); simpl;
    [apply app_nil_r|reflexivity].
Qed.

Lemma rows_ipk_snoc (db : database) (row : krs_row) (n : string) :
  rows_ipk (with_krs_row db row) n =
  rows_ipk db n ++ (if String.eqb (k_nim row) n then joined db row else []).
Proof.
  unfold rows_ipk. cbn [with_krs_row krs].
  rewrite filter_app, flat_map_app. f_equal. simpl.
  destruct (String.eqb (k_nim row) n); simpl; [apply app_nil_r|reflexivity].
Qed.

Lemma ips_loop_strip (rows : list nilai_row) (a : ips_acc) :
  for_each ips_step (map strip_nilai rows) (forget_acc a)
  = map_result forget_acc (for_each ips_step rows a).
Proof.
  revert a. induction rows as [|row rows IH]; intros a; [reflexivity|].
  cbn [map for_each]. unfold ips_step at 1 3.
  cbn [strip_nilai r_sks r_bobot r_kode_mk r_nama_mk r_nilai].
  destruct (float_of_int (r_sks row)) as [f|x]; cbn [bind]; [|reflexivity].
  rewrite <- IH. f_equal.
  unfold forget_acc; cbn. f_equal. now rewrite map_app.
Qed.

Lemma ipk_loop_strip (rows : list nilai_row) (a : ipk_acc) :
  for_each ipk_step (map strip_nilai rows) a = for_each ipk_step rows a.
Proof.
  revert a. induction rows as [|row rows IH]; intros a; [reflexivity|].
  cbn [map for_each]. unfold ipk_step at 1 3.
  cbn [strip_nilai r_sks r_bobot r_semester].
  destruct (float_of_int (r_sks row)) as [f|x]; cbn [bind]; [|reflexivity].
  apply IH.
Qed.

Lemma query_ipk_strip (e : engine) (db : database) (n : string) :
  map strip_nilai (query_ipk e db n)
  = sort_by r_semester (arrange e (map strip_nilai (rows_ipk db n))).
Proof.
  unfold query_ipk.
  rewrite (map_sort_by strip_nilai r_semester r_semester) by reflexivity.
  now rewrite arrange_map.
Qed.

Lemma query_ips_strip (e : engine) (db : database) (n : string) (s : Z) :
  map strip_nilai (query_ips e db n s) = arrange e (map strip_nilai (rows_ips db n s)).
Proof. unfold query_ips. now rewrite arrange_map. Qed.

(** The cumulative report depends on the query rows up to their letter
    grades only. *)
Lemma hitung_ipk_same_rows (e : engine) (db1 db2 : database) (n : string) :
  mahasiswa db1 = mahasiswa db2 ->
  map strip_nilai (rows_ipk db1 n) = map strip_nilai (rows_ipk db2 n) ->
  hitung_ipk e db1 n = hitung_ipk e db2 n.
Proof.
  intros Hm Hrows.
  assert (Hq : map strip_nilai (query_ipk e db1 n) = map strip_nilai (query_ipk e db2 n)).
  { now rewrite !query_ipk_strip, Hrows. }
  unfold hitung_ipk, hitung_ipk_try, select_mahasiswa. rewrite Hm.
  destruct (adapt [PStr n]); cbn [bind]; [|reflexivity].
  destruct (fetchone _) as [mhs|]; [|reflexivity].
  assert (Hloop : ipk_loop (query_ipk e db1 n) = ipk_loop (query_ipk e db2 n)).
  { unfold ipk_loop.
    rewrite <- (ipk_loop_strip (query_ipk e db1 n)), Hq. apply ipk_loop_strip. }
  remember (query_ipk e db1 n) as q1. remember (query_ipk e db2 n) as q2.
  destruct q1 as [|r1 l1], q2 as [|r2 l2]; try discriminate; [reflexivity|].
  cbv zeta. rewrite Hloop. reflexivity.
Qed.

(** The semester report depends on the query rows up to their letter grades
    only, but for the letter grades it shows. *)
Lemma hitung_ips_same_rows (e : engine) (db1 db2 : database) (n : string) (s : Z) :
  mahasiswa db1 = mahasiswa db2 ->
  map strip_nilai (rows_ips db1 n s) = map strip_nilai (rows_ips db2 n s) ->
  map_result forget_grades (hitung_ips e db1 n s)
  = map_result forget_grades (hitung_ips e db2 n s).
Proof.
  intros Hm Hrows.
  assert (Hq : map strip_nilai (query_ips e db1 n s)
               = map strip_nilai (query_ips e db2 n s)).
  { now rewrite !query_ips_strip, Hrows. }
  unfold hitung_ips, hitung_ips_try, select_mahasiswa. rewrite Hm.
  destruct (adapt [PStr n]); cbn [bind]; [|reflexivity].
  destruct (fetchone _) as [mhs|]; [|reflexivity].
  destruct (adapt [PStr n; PInt s]); cbn [bind]; [|reflexivity].
  assert (Hloop : map_result forget_acc (ips_loop (query_ips e db1 n s))
                  = map_result forget_acc (ips_loop (query_ips e db2 n s))).
  { unfold ips_loop.
    rewrite <- !(ips_loop_strip _ ips_init), Hq. reflexivity. }
  remember (query_ips e db1 n s) as q1. remember (query_ips e db2 n s) as q2.
  destruct q1 as [|r1 l1], q2 as [|r2 l2]; try discriminate; [reflexivity|].
  cbv zeta.
  destruct (ips_loop (r1 :: l1)) as [a1|x1], (ips_loop (r2 :: l2)) as [a2|x2];
    cbn [map_result] in Hloop; try discriminate.
  - inversion Hloop as [[H1 H2 H3]]. cbn [bind]. rewrite H1, H2.
    destruct (guarded_div (acc_total_mutu a2) (acc_total_sks a2)); cbn [bind];
      [|reflexivity].
    unfold except_500, map_result, forget_grades. cbn. now rewrite H3.
  - inversion Hloop. reflexivity.
Qed.

(** C10, as stated, fails: a grade is not persisted verbatim whatever the
    string.  A grade holding a NUL character is refused by the driver: for a
    known student, a known course and a new (student, course, term) triple
    the answer is 500 and nothing is stored. *)
Lemma grade_with_nul_is_not_persisted :
  student_known db_two_courses (krs_nim krs_nul_grade_request) /\
  course_known db_two_courses (krs_kode_mk krs_nul_grade_request) /\
  ~ enrolled db_two_courses (krs_nim krs_nul_grade_request)
      (krs_kode_mk krs_nul_grade_request) (krs_semester krs_nul_grade_request) /\
  valid_KRS krs_nul_grade_request = true /\
  (forall admin,
     create_nilai krs_nul_grade_request admin db_two_courses
     = (Raise (HTTPException 500 "A string literal cannot contain NUL (0x00) characters."),
        db_two_courses)) /\
  ~ (forall k admin db,
       student_known db (krs_nim k) -> course_known db (krs_kode_mk k) ->
       ~ enrolled db (krs_nim k) (krs_kode_mk k) (krs_semester k) ->
       exists resp, fst (create_nilai k admin db) = Ok resp).
Proof.
  assert (Hs : student_known db_two_courses (krs_nim krs_nul_grade_request))
    by (left; reflexivity).
  assert (Hc : course_known db_two_courses (krs_kode_mk krs_nul_grade_request))
    by (left; reflexivity).
  assert (He : ~ enrolled db_two_courses (krs_nim krs_nul_grade_request)
      (krs_kode_mk krs_nul_grade_request) (krs_semester krs_nul_grade_request)).
  { intros [k0 [Hin [_ [_ Ht]]]]. simpl in Hin.
    destruct Hin as [<-|[<-|[]]]; discriminate Ht. }
  split; [exact Hs|]. split; [exact Hc|]. split; [exact He|].
  split; [reflexivity|]. split; [reflexivity|].
  intros C. destruct (C krs_nul_grade_request JNull db_two_courses Hs Hc He) as [resp H].
  discriminate H.
Qed.

Lemma wf_with_mahasiswa (db : database) (m : Mahasiswa) :
  wf db -> ~ student_known db (nim m) -> clean_Mahasiswa m = true ->
  wf (with_mahasiswa db m).
Proof.
  intros [H1 H2 H3 H4 H5 H6 H7 H8 H9 H10 H11 H12] Hnew Hc.
  constructor; cbn [with_mahasiswa mahasiswa mata_kuliah krs bobot_nilai]; auto.
  - rewrite map_app. simpl. now apply NoDup_snoc.
  - intros k Hk. unfold student_known. cbn [with_mahasiswa mahasiswa].
    rewrite map_app, in_app_iff. left. now apply H5.
  - intros x Hx. apply in_app_iff in Hx. destruct Hx as [Hx|[<-|[]]]; [now apply H10|].
    unfold clean_Mahasiswa in Hc. rewrite !andb_true_iff, !negb_true_iff in Hc. tauto.
Qed.

Lemma wf_with_mata_kuliah (db : database) (mk : MataKuliah) :
  wf db -> ~ course_known db (kode_mk mk) -> valid_MataKuliah mk = true ->
  clean_MataKuliah mk = true ->
  wf (with_mata_kuliah db mk).
Proof.
  intros [H1 H2 H3 H4 H5 H6 H7 H8 H9 H10 H11 H12] Hnew Hv Hc.
  constructor; cbn [with_mata_kuliah mahasiswa mata_kuliah krs bobot_nilai]; auto.
  - rewrite map_app. simpl. now apply NoDup_snoc.
  - intros k Hk. unfold course_known. cbn [with_mata_kuliah mata_kuliah].
    rewrite map_app, in_app_iff. left. now apply H6.
  - intros x Hx. apply in_app_iff in Hx. destruct Hx as [Hx|[<-|[]]]; [now apply H8|].
    unfold valid_MataKuliah in Hv. apply andb_prop in Hv. lia.
  - intros x Hx. apply in_app_iff in Hx. destruct Hx as [Hx|[<-|[]]]; [now apply H11|].
    unfold clean_MataKuliah in Hc. rewrite !andb_true_iff, !negb_true_iff in Hc. tauto.
Qed.

Lemma wf_with_krs_row (db : database) (k : KRS) :
  wf db -> student_known db (krs_nim k) -> course_known db (krs_kode_mk k) ->
  ~ enrolled db (krs_nim k) (krs_kode_mk k) (krs_semester k) ->
  valid_KRS k = true -> adaptable (param_of_option (krs_nilai k)) = true ->
  wf (with_krs_row db (new_krs_row db k)).
Proof.
  intros [H1 H2 H3 H4 H5 H6 H7 H8 H9 H10 H11 H12] Hs Hc Hnew Hv Hg.
  constructor; cbn [with_krs_row mahasiswa mata_kuliah krs bobot_nilai]; auto.
  - rewrite map_app. simpl. apply NoDup_snoc; [exact H4|].
    intros Hin. apply in_map_iff in Hin. destruct Hin as [k0 [E Hk0]].
    inversion E. apply Hnew. exists k0. auto.
  - intros k0 Hk0. apply in_app_iff in Hk0.
    destruct Hk0 as [Hk0|[<-|[]]]; [now apply H5|exact Hs].
  - intros k0 Hk0. apply in_app_iff in Hk0.
    destruct Hk0 as [Hk0|[<-|[]]]; [now apply H6|exact Hc].
  - intros k0 Hk0. apply in_app_iff in Hk0.
    destruct Hk0 as [Hk0|[<-|[]]]; [now apply H7|].
    unfold valid_KRS in Hv. apply andb_prop in Hv. simpl. lia.
  - intros k0 Hk0. apply in_app_iff in Hk0.
    destruct Hk0 as [Hk0|[<-|[]]]; [now apply H12|exact Hg].
Qed.

(** C10 (amended). Creating an enrollment never compares the grade with the
    weight table: the range check ignores it and, for a known student, a
    known course and a new (student, course, term) triple, every grade that
    is absent or free of NUL characters is stored and returned verbatim; a
    grade with a NUL character is refused by the driver (500, nothing
    stored).  When the stored grade is not listed in the weight table, every
    later cumulative report is the one the same enrollment without a grade
    gives (the rows being delivered in the same order), every later semester
    report is that one up to the letter grades shown in its course list, and
    the course itself carries weight 0.0 and 0.0 quality points. *)
Theorem create_nilai_any_grade (k : KRS) (admin : json) (db : database)
  (g : option string) :
  has_nul (krs_nim k) = false -> has_nul (krs_kode_mk k) = false ->
  student_known db (krs_nim k) -> course_known db (krs_kode_mk k) ->
  ~ enrolled db (krs_nim k) (krs_kode_mk k) (krs_semester k) ->
  valid_KRS (with_nilai k g) = valid_KRS k /\
  (adaptable (param_of_option g) = true ->
   exists row,
     row = {| id_krs := krs_id_seq db + 1; k_nim := krs_nim k;
              k_kode_mk := krs_kode_mk k; k_nilai := g;
              k_semester := krs_semester k |} /\
     fst (create_nilai (with_nilai k g) admin db)
       = Ok {| message := "Nilai/KRS berhasil ditambahkan"; data := row;
               created_by := admin_username admin |} /\
     krs (snd (create_nilai (with_nilai k g) admin db)) = krs db ++ [row]) /\
  (adaptable (param_of_option g) = false ->
   create_nilai (with_nilai k g) admin db
   = (Raise (HTTPException 500 (str_exc nul_refused)), db)) /\
  (forall s,
     g = Some s -> has_nul s = false -> ~ In s (map bn_nilai (bobot_nilai db)) ->
     let db_g := snd (create_nilai (with_nilai k g) admin db) in
     let db_n := snd (create_nilai (with_nilai k None) admin db) in
     let row := new_krs_row db (with_nilai k g) in
     krs db_g = krs db ++ [row] /\
     krs db_n = krs db ++ [new_krs_row db (with_nilai k None)] /\
     (forall e n, hitung_ipk e db_g n = hitung_ipk e db_n n) /\
     (forall e n t, map_result forget_grades (hitung_ips e db_g n t)
                    = map_result forget_grades (hitung_ips e db_n n t)) /\
     (wf db -> valid_KRS k = true ->
      wf db_g /\ ungraded db_g row /\
      e_nilai (entry_of (row_of db_g row)) = Some s /\
      e_bobot (entry_of (row_of db_g row)) = pos_zero /\
      e_mutu (entry_of (row_of db_g row)) = pos_zero)).
Proof.
  intros Hn Hm Hs Hc Hnew.
  assert (Hcreate : forall g', adaptable (param_of_option g') = true ->
            create_nilai (with_nilai k g') admin db =
            (Ok {| message := "Nilai/KRS berhasil ditambahkan";
                   data := new_krs_row db (with_nilai k g');
                   created_by := admin_username admin |},
             with_krs_row db (new_krs_row db (with_nilai k g')))).
  { intros g' Hg'. apply create_nilai_run; auto.
    apply clean_KRS_parts. auto. }
  split; [reflexivity|]. split; [|split].
  - intros Hg. exists (new_krs_row db (with_nilai k g)). rewrite (Hcreate g Hg).
    repeat split.
  - intros Hg.
    destruct (create_nilai_cases (with_nilai k g) admin db)
      as [[F _]|[[_ [F _]]|[[_ [_ [F _]]]|[[_ [_ [_ [F _]]]]|[[_ [_ [_ [_ [F _]]]]]
         |[[_ [_ [_ [_ [_ [_ E]]]]]]|[F _]]]]]]];
      cbn [with_nilai krs_nim krs_kode_mk krs_semester krs_nilai] in *;
      try congruence; try contradiction.
    apply clean_KRS_parts in F. cbn [with_nilai krs_nilai] in F.
    destruct F as [_ [_ F]]. congruence.
  - intros s Hg Hsn Hunl db_g db_n row. subst db_g db_n row g.
    rewrite (Hcreate (Some s)) by (cbn; now rewrite Hsn).
    rewrite (Hcreate None) by reflexivity. cbn [snd].
    set (rg := new_krs_row db (with_nilai k (Some s))).
    set (rn := new_krs_row db (with_nilai k None)).
    assert (Hj : map strip_nilai (joined db rg) = map strip_nilai (joined db rn)).
    { apply joined_same_up_to_grade; try reflexivity.
      - apply unlisted_left_join, Hunl.
      - apply absent_left_join. }
    split; [reflexivity|]. split; [reflexivity|].
    split; [|split].
    + intros e n. apply hitung_ipk_same_rows; [reflexivity|].
      rewrite !rows_ipk_snoc, !map_app. f_equal.
      change (k_nim rn) with (k_nim rg).
      destruct (String.eqb (k_nim rg) n); [exact Hj|reflexivity].
    + intros e n t. apply hitung_ips_same_rows; [reflexivity|].
      rewrite !rows_ips_snoc, !map_app. f_equal.
      change (k_nim rn) with (k_nim rg). change (k_semester rn) with (k_semester rg).
      destruct (String.eqb (k_nim rg) n && (k_semester rg =? t)); [exact Hj|reflexivity].
    + intros Hwf Hv.
      assert (Hwf' : wf (with_krs_row db rg)).
      { apply (wf_with_krs_row db (with_nilai k (Some s))); auto.
        cbn. now rewrite Hsn. }
      assert (Hu : ungraded (with_krs_row db rg) rg).
      { right. exists s. split; [reflexivity|exact Hunl]. }
      split; [exact Hwf'|]. split; [exact Hu|]. split; [reflexivity|].
      destruct (ungraded_entry (with_krs_row db rg) rg Hwf') as [A [B _]]; auto.
      cbn [with_krs_row krs]. apply in_app_iff. right. now left.
Qed.

Lemma create_nilai_any_grade_witness :
  (exists row,
     fst (create_nilai krs_request admin_user db_two_courses)
     = Ok {| message := "Nilai/KRS berhasil ditambahkan"; data := row;
             created_by := JStr "admin1" |} /\
     k_nilai row = Some "Z+"%string) /\
  (forall e n,
     hitung_ipk e (snd (create_nilai krs_request admin_user db_two_courses)) n
     = hitung_ipk e (snd (create_nilai (with_nilai krs_request None) admin_user
                            db_two_courses)) n).
Proof.
  assert (He : ~ enrolled db_two_courses (krs_nim krs_request) (krs_kode_mk krs_request)
                 (krs_semester krs_request)).
  { intros [k0 [Hin [_ [_ Ht]]]]. simpl in Hin.
    destruct Hin as [<-|[<-|[]]]; discriminate Ht. }
  destruct (create_nilai_any_grade krs_request admin_user db_two_courses
              (Some "Z+"%string) eq_refl eq_refl (or_introl eq_refl) (or_introl eq_refl) He)
    as [_ [H [_ U]]].
  split.
  - destruct (H eq_refl) as [row [Hrow [Hf _]]].
    exists row. split; [exact Hf|]. subst row. reflexivity.
  - destruct (U "Z+"%string eq_refl eq_refl) as [_ [_ [Hk _]]].
    + simpl. intros [H0|[H0|[H0|[H0|[H0|[]]]]]]; discriminate H0.
    + exact Hk.
Defined.

(** ** The three POST endpoints *)

(** Every POST endpoint takes a store that satisfies the invariant to one
    that does, whatever the request and whatever the authority answers. *)
Lemma post_preserves_wf (db : database) (a : option string) (auth : authority) :
  wf db ->
  (forall m, wf (snd (post_mahasiswa a auth m db))) /\
  (forall mk, wf (snd (post_mata_kuliah a auth mk db))) /\
  (forall k, wf (snd (post_nilai a auth k db))).
Proof.
  intros Hwf. unfold post_mahasiswa, post_mata_kuliah, post_nilai, post.
  destruct (verify_admin a auth) as [admin|e]; [|split; [|split]; intros; exact Hwf].
  split; [|split].
  - intros m. destruct (valid_Mahasiswa m); [|exact Hwf].
    destruct (create_mahasiswa_cases m admin db)
      as [[_ E]|[[_ [_ E]]|[[_ [_ [_ E]]]|[Hc [Hu E]]]]]; rewrite E; cbn [snd];
      try exact Hwf.
    now apply wf_with_mahasiswa.
  - intros mk. destruct (valid_MataKuliah mk) eqn:Hv; [|exact Hwf].
    destruct (create_mata_kuliah_cases mk admin db)
      as [[_ E]|[[_ [_ E]]|[[_ [_ [_ E]]]|[Hc [Hu E]]]]]; rewrite E; cbn [snd];
      try exact Hwf.
    now apply wf_with_mata_kuliah.
  - intros k. destruct (valid_KRS k) eqn:Hv; [|exact Hwf].
    destruct (create_nilai_cases k admin db)
      as [[_ E]|[[_ [_ E]]|[[_ [_ [_ E]]]|[[_ [_ [_ [_ E]]]]|[[_ [_ [_ [_ [_ E]]]]]
         |[[_ [_ [_ [_ [_ [_ E]]]]]]|[Hc [Hs [Hm [He E]]]]]]]]]];
      rewrite E; cbn [snd]; try exact Hwf.
    apply wf_with_krs_row; auto. now apply clean_KRS_parts in Hc.
Qed.

(** X3. A POST endpoint answers with a created record only when the gate
    returned a user and the body passed its declared ranges; the response
    then names that user's ["username"] as [created_by] and carries the
    request's own fields as data. *)
Theorem post_success_requires_admin (a : option string) (auth : authority) (db : database) :
  (forall m resp,
     fst (post_mahasiswa a auth m db) = Ok resp ->
     exists user, verify_admin a auth = Ok user /\ valid_Mahasiswa m = true /\
                  created_by resp = admin_username user /\ data resp = m) /\
  (forall mk resp,
     fst (post_mata_kuliah a auth mk db) = Ok resp ->
     exists user, verify_admin a auth = Ok user /\ valid_MataKuliah mk = true /\
                  created_by resp = admin_username user /\ data resp = mk) /\
  (forall k resp,
     fst (post_nilai a auth k db) = Ok resp ->
     exists user, verify_admin a auth = Ok user /\ valid_KRS k = true /\
                  created_by resp = admin_username user /\
                  k_nim (data resp) = krs_nim k /\
                  k_kode_mk (data resp) = krs_kode_mk k /\
                  k_nilai (data resp) = krs_nilai k /\
                  k_semester (data resp) = krs_semester k).
Proof.
  unfold post_mahasiswa, post_mata_kuliah, post_nilai, post.
  destruct (verify_admin a auth) as [user|e];
    [|repeat split; intros; discriminate].
  split; [|split].
  - intros m resp. destruct (valid_Mahasiswa m); [|discriminate].
    intros H. apply create_mahasiswa_ok in H. destruct H as [_ [_ [-> _]]].
    exists user. auto.
  - intros mk resp. destruct (valid_MataKuliah mk); [|discriminate].
    intros H. apply create_mata_kuliah_ok in H. destruct H as [_ [_ [-> _]]].
    exists user. auto.
  - intros k resp. destruct (valid_KRS k); [|discriminate].
    intros H. apply create_nilai_ok in H. destruct H as [_ [_ [_ [_ [-> _]]]]].
    exists user. simpl. auto 10.
Qed.

Lemma post_success_requires_admin_witness :
  exists user,
    verify_admin bearer admin_verdict = Ok user /\ valid_Mahasiswa siti = true /\
    admin_username user = JStr "admin1".
Proof.
  destruct (proj1 (post_success_requires_admin bearer admin_verdict db_two_courses) siti
              {| message := "Mahasiswa berhasil ditambahkan"; data := siti;
                 created_by := JStr "admin1" |} eq_refl)
    as [user [Hu [Hv [Hc _]]]].
  exists user. split; [exact Hu|]. split; [exact Hv|]. symmetry. exact Hc.
Defined.

(** X4. Creating a student: an identifier already on record (and free of
    NUL characters, as every stored identifier is) is answered 400 "NIM
    sudah terdaftar" and the store is left as it was; a new identifier with
    name and department free of NUL characters is appended to the table,
    nothing else changes, and the stored record is returned; a NUL character
    in the identifier, or for a new identifier in the name or the
    department, is answered 500 and the store is left as it was. *)
Theorem create_mahasiswa_outcomes (m : Mahasiswa) (admin : json) (db : database) :
  (has_nul (nim m) = false -> student_known db (nim m) ->
   create_mahasiswa m admin db = (Raise (HTTPException 400 "NIM sudah terdaftar"), db)) /\
  (wf db -> student_known db (nim m) ->
   create_mahasiswa m admin db = (Raise (HTTPException 400 "NIM sudah terdaftar"), db)) /\
  (clean_Mahasiswa m = true -> ~ student_known db (nim m) ->
   fst (create_mahasiswa m admin db)
     = Ok {| message := "Mahasiswa berhasil ditambahkan"; data := m;
             created_by := admin_username admin |} /\
   mahasiswa (snd (create_mahasiswa m admin db)) = mahasiswa db ++ [m] /\
   mata_kuliah (snd (create_mahasiswa m admin db)) = mata_kuliah db /\
   krs (snd (create_mahasiswa m admin db)) = krs db /\
   bobot_nilai (snd (create_mahasiswa m admin db)) = bobot_nilai db) /\
  (has_nul (nim m) = true ->
   create_mahasiswa m admin db = (Raise (HTTPException 500 (str_exc nul_refused)), db)) /\
  (clean_Mahasiswa m = false -> ~ student_known db (nim m) ->
   create_mahasiswa m admin db = (Raise (HTTPException 500 (str_exc nul_refused)), db)).
Proof.
  pose proof (known_clean db (nim m)) as Hkc.
  assert (Hcl : clean_Mahasiswa m = true -> has_nul (nim m) = false).
  { unfold clean_Mahasiswa. rewrite !andb_true_iff, !negb_true_iff. tauto. }
  destruct (create_mahasiswa_cases m admin db)
    as [[H E]|[[H [H' E]]|[[H [H' [H'' E]]]|[H [H' E]]]]]; rewrite E;
    repeat split; intros;
    try match goal with
        | Hw : wf db, Hk : student_known db _ |- _ => pose proof (Hkc Hw Hk)
        end;
    try match goal with
        | Hc : clean_Mahasiswa m = true |- _ => pose proof (Hcl Hc)
        end;
    try congruence; try contradiction.
Qed.

Lemma create_mahasiswa_outcomes_witness :
  mahasiswa (snd (create_mahasiswa siti admin_user db_two_courses)) = [budi; siti] /\
  create_mahasiswa budi admin_user db_two_courses
  = (Raise (HTTPException 400 "NIM sudah terdaftar"), db_two_courses) /\
  create_mahasiswa nul_student admin_user db_two_courses
  = (Raise (HTTPException 500 "A string literal cannot contain NUL (0x00) characters."),
     db_two_courses).
Proof.
  split; [|split].
  - destruct (create_mahasiswa_outcomes siti admin_user db_two_courses)
      as [_ [_ [H _]]].
    destruct H as [_ [H _]]; [reflexivity| |exact H].
    intros [H|[]]. discriminate H.
  - destruct (create_mahasiswa_outcomes budi admin_user db_two_courses) as [H _].
    apply H; [reflexivity|left; reflexivity].
  - destruct (create_mahasiswa_outcomes nul_student admin_user db_two_courses)
      as [_ [_ [_ [_ H]]]].
    apply H; [reflexivity|]. intros [H0|[]]. discriminate H0.
Defined.

(** X5. Creating a course: a code already on record (and free of NUL
    characters, as every stored code is) is answered 400 "Kode mata kuliah
    sudah ada" and the store is left as it was; a new code with a name free
    of NUL characters is appended to the table, nothing else changes, and
    the stored record is returned; a NUL character in the code, or for a new
    code in the name, is answered 500 and the store is left as it was. *)
Theorem create_mata_kuliah_outcomes (mk : MataKuliah) (admin : json) (db : database) :
  (has_nul (kode_mk mk) = false -> course_known db (kode_mk mk) ->
   create_mata_kuliah mk admin db
   = (Raise (HTTPException 400 "Kode mata kuliah sudah ada"), db)) /\
  (wf db -> course_known db (kode_mk mk) ->
   create_mata_kuliah mk admin db
   = (Raise (HTTPException 400 "Kode mata kuliah sudah ada"), db)) /\
  (clean_MataKuliah mk = true -> ~ course_known db (kode_mk mk) ->
   fst (create_mata_kuliah mk admin db)
     = Ok {| message := "Mata kuliah berhasil ditambahkan"; data := mk;
             created_by := admin_username admin |} /\
   mahasiswa (snd (create_mata_kuliah mk admin db)) = mahasiswa db /\
   mata_kuliah (snd (create_mata_kuliah mk admin db)) = mata_kuliah db ++ [mk] /\
   krs (snd (create_mata_kuliah mk admin db)) = krs db /\
   bobot_nilai (snd (create_mata_kuliah mk admin db)) = bobot_nilai db) /\
  (has_nul (kode_mk mk) = true ->
   create_mata_kuliah mk admin db
   = (Raise (HTTPException 500 (str_exc nul_refused)), db)) /\
  (clean_MataKuliah mk = false -> ~ course_known db (kode_mk mk) ->
   create_mata_kuliah mk admin db
   = (Raise (HTTPException 500 (str_exc nul_refused)), db)).
Proof.
  pose proof (course_clean db (kode_mk mk)) as Hkc.
  assert (Hcl : clean_MataKuliah mk = true -> has_nul (kode_mk mk) = false).
  { unfold clean_MataKuliah. rewrite !andb_true_iff, !negb_true_iff. tauto. }
  destruct (create_mata_kuliah_cases mk admin db)
    as [[H E]|[[H [H' E]]|[[H [H' [H'' E]]]|[H [H' E]]]]]; rewrite E;
    repeat split; intros;
    try match goal with
        | Hw : wf db, Hk : course_known db _ |- _ => pose proof (Hkc Hw Hk)
        end;
    try match goal with
        | Hc : clean_MataKuliah mk = true |- _ => pose proof (Hcl Hc)
        end;
    try congruence; try contradiction.
Qed.

Lemma create_mata_kuliah_outcomes_witness :
  mata_kuliah (snd (create_mata_kuliah new_course admin_user db_two_courses))
  = mata_kuliah db_two_courses ++ [new_course] /\
  create_mata_kuliah {| kode_mk := "IF101"; nama_mk := "Lain"; sks := 2 |}
    admin_user db_two_courses
  = (Raise (HTTPException 400 "Kode mata kuliah sudah ada"), db_two_courses).
Proof.
  split.
  - destruct (create_mata_kuliah_outcomes new_course admin_user db_two_courses)
      as [_ [_ [H _]]].
    destruct H as [_ [_ [H _]]]; [reflexivity| |exact H].
    intros [H|[H|[]]]; discriminate H.
  - destruct (create_mata_kuliah_outcomes
                {| kode_mk := "IF101"; nama_mk := "Lain"; sks := 2 |}
                admin_user db_two_courses) as [H _].
    apply H; [reflexivity|left; reflexivity].
Defined.

(** X6. A second create under the same key conflicts.  After an attempt to
    create a student that was answered with the created record or with the
    conflict error (that is, not refused by the driver), creating a student
    with the same identifier -- whatever the other fields and whoever asks
    -- is answered 400 and changes nothing; likewise for a course code; and
    after an enrollment was created, creating one for the same (student,
    course, term), whatever the grade, is answered 400 and changes
    nothing. *)
Theorem second_create_conflicts (admin admin' : json) (db : database) :
  (forall m m',
     nim m' = nim m ->
     ~ is_http 500 (fst (create_mahasiswa m admin db)) ->
     let db1 := snd (create_mahasiswa m admin db) in
     create_mahasiswa m' admin' db1
     = (Raise (HTTPException 400 "NIM sudah terdaftar"), db1)) /\
  (forall mk mk',
     kode_mk mk' = kode_mk mk ->
     ~ is_http 500 (fst (create_mata_kuliah mk admin db)) ->
     let db1 := snd (create_mata_kuliah mk admin db) in
     create_mata_kuliah mk' admin' db1
     = (Raise (HTTPException 400 "Kode mata kuliah sudah ada"), db1)) /\
  (forall k k' resp,
     fst (create_nilai k admin db) = Ok resp ->
     krs_nim k' = krs_nim k -> krs_kode_mk k' = krs_kode_mk k ->
     krs_semester k' = krs_semester k ->
     let db1 := snd (create_nilai k admin db) in
     create_nilai k' admin' db1 =
     (Raise (HTTPException 400
               "Mahasiswa sudah mengambil mata kuliah ini di semester yang sama"), db1)).
Proof.
  split; [|split].
  - intros m m' Hn H500 db1.
    assert (Hk : has_nul (nim m) = false /\ student_known db1 (nim m)).
    { subst db1.
      destruct (create_mahasiswa_cases m admin db)
        as [[H E]|[[H [H' E]]|[[H [H' [H'' E]]]|[H [H' E]]]]]; rewrite E in *;
        cbn [fst snd] in *.
      - exfalso. apply H500. eexists. reflexivity.
      - auto.
      - exfalso. apply H500. eexists. reflexivity.
      - split.
        + unfold clean_Mahasiswa in H. rewrite !andb_true_iff, !negb_true_iff in H. tauto.
        + unfold student_known. cbn. rewrite map_app, in_app_iff. right. now left. }
    destruct Hk as [Hc Hk]. rewrite <- Hn in Hc, Hk.
    destruct (create_mahasiswa_cases m' admin' db1)
      as [[F _]|[[_ [_ E]]|[[_ [F _]]|[_ [F _]]]]]; try congruence; contradiction.
  - intros mk mk' Hn H500 db1.
    assert (Hk : has_nul (kode_mk mk) = false /\ course_known db1 (kode_mk mk)).
    { subst db1.
      destruct (create_mata_kuliah_cases mk admin db)
        as [[H E]|[[H [H' E]]|[[H [H' [H'' E]]]|[H [H' E]]]]]; rewrite E in *;
        cbn [fst snd] in *.
      - exfalso. apply H500. eexists. reflexivity.
      - auto.
      - exfalso. apply H500. eexists. reflexivity.
      - split.
        + unfold clean_MataKuliah in H. rewrite !andb_true_iff, !negb_true_iff in H. tauto.
        + unfold course_known. cbn. rewrite map_app, in_app_iff. right. now left. }
    destruct Hk as [Hc Hk]. rewrite <- Hn in Hc, Hk.
    destruct (create_mata_kuliah_cases mk' admin' db1)
      as [[F _]|[[_ [_ E]]|[[_ [F _]]|[_ [F _]]]]]; try congruence; contradiction.
  - intros k k' resp Hok Hn Hc Hs db1. subst db1.
    destruct (create_nilai_ok k admin db resp Hok) as [Hcl [H1 [H2 [_ [_ ->]]]]].
    apply clean_KRS_parts in Hcl. destruct Hcl as [Cn [Cc _]].
    set (db1 := with_krs_row db (new_krs_row db k)).
    assert (Hs1 : student_known db1 (krs_nim k')) by (rewrite Hn; exact H1).
    assert (Hc1 : course_known db1 (krs_kode_mk k')) by (rewrite Hc; exact H2).
    assert (He1 : enrolled db1 (krs_nim k') (krs_kode_mk k') (krs_semester k')).
    { exists (new_krs_row db k). split; [|simpl; auto].
      unfold db1. cbn. apply in_app_iff. right. now left. }
    rewrite <- Hn in Cn. rewrite <- Hc in Cc.
    destruct (create_nilai_cases k' admin' db1)
      as [[F _]|[[_ [F _]]|[[_ [_ [F _]]]|[[_ [_ [_ [F _]]]]|[[_ [_ [_ [_ [_ E]]]]]
         |[[_ [_ [_ [_ [F _]]]]]|[_ [_ [_ [F _]]]]]]]]]];
      try congruence; try contradiction.
Qed.

Lemma second_create_conflicts_witness :
  create_mahasiswa {| nim := "2102"; nama := "Lain"; jurusan := "Fisika"; angkatan := 2020 |}
    admin_user (snd (create_mahasiswa siti admin_user db_two_courses))
  = (Raise (HTTPException 400 "NIM sudah terdaftar"),
     snd (create_mahasiswa siti admin_user db_two_courses)).
Proof.
  apply (proj1 (second_create_conflicts admin_user admin_user db_two_courses) siti).
  - reflexivity.
  - intros [d H]. discriminate H.
Defined.

(** X7. The declared ranges of the request bodies, for a request the gate
    admits: a cohort year within 2000-2100, a credit-weight within 1-6 and a
    term within 1-14 (bounds included) reach the handler; a cohort year or a
    credit-weight outside its range is answered 422 before the store is
    touched. *)
Theorem post_declared_ranges (a : option string) (auth : authority) (admin : json)
  (db : database) :
  verify_admin a auth = Ok admin ->
  (forall m, 2000 <= angkatan m <= 2100 ->
             post_mahasiswa a auth m db = create_mahasiswa m admin db) /\
  (forall m, angkatan m < 2000 \/ 2100 < angkatan m ->
             is_http 422 (fst (post_mahasiswa a auth m db)) /\
             snd (post_mahasiswa a auth m db) = db) /\
  (forall mk, 1 <= sks mk <= 6 ->
              post_mata_kuliah a auth mk db = create_mata_kuliah mk admin db) /\
  (forall mk, sks mk < 1 \/ 6 < sks mk ->
              is_http 422 (fst (post_mata_kuliah a auth mk db)) /\
              snd (post_mata_kuliah a auth mk db) = db) /\
  (forall k, 1 <= krs_semester k <= 14 ->
             post_nilai a auth k db = create_nilai k admin db).
Proof.
  intros Ha. unfold post_mahasiswa, post_mata_kuliah, post_nilai, post. rewrite Ha.
  split; [|split; [|split; [|split]]].
  - intros m H. unfold valid_Mahasiswa.
    assert ((2000 <=? angkatan m) = true) as -> by (apply Z.leb_le; lia).
    assert ((angkatan m <=? 2100) = true) as -> by (apply Z.leb_le; lia).
    reflexivity.
  - intros m H. assert (valid_Mahasiswa m = false) as ->.
    { unfold valid_Mahasiswa. destruct H as [H|H].
      - assert ((2000 <=? angkatan m) = false) as -> by (apply Z.leb_gt; lia).
        reflexivity.
      - assert ((angkatan m <=? 2100) = false) as -> by (apply Z.leb_gt; lia).
        apply andb_false_r. }
    split; [eexists|]; reflexivity.
  - intros mk H. unfold valid_MataKuliah.
    assert ((1 <=? sks mk) = true) as -> by (apply Z.leb_le; lia).
    assert ((sks mk <=? 6) = true) as -> by (apply Z.leb_le; lia).
    reflexivity.
  - intros mk H. assert (valid_MataKuliah mk = false) as ->.
    { unfold valid_MataKuliah. destruct H as [H|H].
      - assert ((1 <=? sks mk) = false) as -> by (apply Z.leb_gt; lia).
        reflexivity.
      - assert ((sks mk <=? 6) = false) as -> by (apply Z.leb_gt; lia).
        apply andb_false_r. }
    split; [eexists|]; reflexivity.
  - intros k H. unfold valid_KRS.
    assert ((1 <=? krs_semester k) = true) as -> by (apply Z.leb_le; lia).
    assert ((krs_semester k <=? 14) = true) as -> by (apply Z.leb_le; lia).
    reflexivity.
Qed.

Lemma post_declared_ranges_witness :
  is_http 422 (fst (post_mahasiswa bearer admin_verdict old_student db_two_courses)) /\
  snd (post_mahasiswa bearer admin_verdict old_student db_two_courses) = db_two_courses.
Proof.
  apply (proj1 (proj2 (post_declared_ranges bearer admin_verdict admin_user db_two_courses
                         eq_refl)) old_student).
  left. simpl. lia.
Defined.

(** ** Sequences of POST requests *)

Lemma extends_refl {A} (l : list A) : extends l l.
Proof. exists []. now rewrite app_nil_r. Qed.

Lemma extends_trans {A} (l1 l2 l3 : list A) :
  extends l1 l2 -> extends l2 l3 -> extends l1 l3.
Proof.
  intros [m1 ->] [m2 ->]. exists (m1 ++ m2). now rewrite app_assoc.
Qed.

Lemma extends_snoc {A} (l : list A) (x : A) : extends l (l ++ [x]).
Proof. now exists [x]. Qed.

Lemma grows_refl (db : database) : grows db db.
Proof. repeat split; apply extends_refl. Qed.

Lemma grows_trans (db1 db2 db3 : database) :
  grows db1 db2 -> grows db2 db3 -> grows db1 db3.
Proof.
  intros [A1 [B1 [C1 D1]]] [A2 [B2 [C2 D2]]].
  repeat split; try (eapply extends_trans; eassumption). congruence.
Qed.

Lemma serve_grows (db : database) (rq : post_request) : grows db (serve db rq).
Proof.
  destruct rq as [a auth m|a auth mk|a auth k]; simpl;
    unfold post_mahasiswa, post_mata_kuliah, post_nilai, post;
    destruct (verify_admin a auth) as [admin|e]; try apply grows_refl.
  - destruct (valid_Mahasiswa m); [|apply grows_refl].
    destruct (create_mahasiswa_cases m admin db)
      as [[_ E]|[[_ [_ E]]|[[_ [_ [_ E]]]|[_ [_ E]]]]]; rewrite E;
      try apply grows_refl.
    repeat split; try apply extends_refl. apply extends_snoc.
  - destruct (valid_MataKuliah mk); [|apply grows_refl].
    destruct (create_mata_kuliah_cases mk admin db)
      as [[_ E]|[[_ [_ E]]|[[_ [_ [_ E]]]|[_ [_ E]]]]]; rewrite E;
      try apply grows_refl.
    repeat split; try apply extends_refl. apply extends_snoc.
  - destruct (valid_KRS k); [|apply grows_refl].
    destruct (create_nilai_cases k admin db)
      as [[_ E]|[[_ [_ E]]|[[_ [_ [_ E]]]|[[_ [_ [_ [_ E]]]]|[[_ [_ [_ [_ [_ E]]]]]
         |[[_ [_ [_ [_ [_ [_ E]]]]]]|[_ [_ [_ [_ E]]]]]]]]]];
      rewrite E; try apply grows_refl.
    repeat split; try apply extends_refl. apply extends_snoc.
Qed.

(** X8. The POST endpoints only ever append: after any sequence of POST
    requests -- admitted or not, valid or not -- every student, course and
    enrollment row that was stored is still there, unchanged and in the same
    place, and the grade weight table is the one the store started with. *)
Theorem posts_only_append (rqs : list post_request) (db : database) :
  grows db (serve_all db rqs).
Proof.
  unfold serve_all. revert db. induction rqs as [|rq rqs IH]; intros db; simpl.
  - apply grows_refl.
  - eapply grows_trans; [apply serve_grows|apply IH].
Qed.

Lemma serve_wf (db : database) (rq : post_request) : wf db -> wf (serve db rq).
Proof.
  intros Hwf. destruct rq as [a auth m|a auth mk|a auth k]; simpl;
    destruct (post_preserves_wf db a auth Hwf) as [H1 [H2 H3]]; auto.
Qed.

(** X9. The data-model invariant is kept by every sequence of POST
    requests: unique student identifiers and course codes, at most one
    enrollment per (student, course, term), enrollments that reference a
    stored student and a stored course, terms within 1-14, credit-weights
    within 1-6 and no NUL character in a stored text.  In particular it
    holds of every store built from an empty one (with a weight table that
    is a mapping into 0.0-4.0) through the API. *)
Theorem posts_keep_invariant (rqs : list post_request) :
  (forall db, wf db -> wf (serve_all db rqs)) /\
  (forall weights,
     NoDup (map bn_nilai weights) ->
     (forall bn, In bn weights -> (0 <= bn_bobot bn <= 4)%Q) ->
     wf (serve_all (empty_store weights) rqs)).
Proof.
  assert (H : forall db, wf db -> wf (serve_all db rqs)).
  { unfold serve_all. induction rqs as [|rq rqs IH]; intros db Hwf; simpl; [exact Hwf|].
    apply IH. now apply serve_wf. }
  split; [exact H|].
  intros weights Hnd Hw. apply H.
  constructor; cbn;
    [ constructor | constructor | exact Hnd | constructor
    | intros x [] | intros x [] | intros x [] | intros x [] | exact Hw
    | intros x [] | intros x [] | intros x [] ].
Qed.

Lemma posts_keep_invariant_witness :
  wf (serve_all db_two_courses some_requests) /\
  List.length (krs (serve_all db_two_courses some_requests)) = 3%nat /\
  List.length (mahasiswa (serve_all db_two_courses some_requests)) = 2%nat.
Proof.
  split; [|split; reflexivity].
  apply (proj1 (posts_keep_invariant some_requests)).
  exact wf_db_two_courses.
Defined.

(** ** The reports, on any store *)

Lemma map_e_sks (rows : list nilai_row) :
  map e_sks (map entry_of rows) = map r_sks rows.
Proof. rewrite map_map. reflexivity. Qed.

(** X10. A semester report is consistent with its own course list, on any
    store and for every order of delivery: it echoes the student identifier
    and the term, names a stored student, lists at least one course, every
    listed quality-point value is the floating-point product weight x
    credit-weight, the total credit-weight is the sum of the listed
    credit-weights, the total quality-points are the listed values added in
    the order of the list and rounded, and the GPA is the rounded quotient
    of that unrounded sum by the credit total (0.0 when the credit total is
    not positive). *)
Theorem ips_report_consistent (e : engine) (db : database) (n : string) (s : Z)
  (r : ips_report) :
  hitung_ips e db n s = Ok r ->
  ips_nim r = n /\ ips_semester r = s /\
  (exists mhs, In mhs (mahasiswa db) /\ nim mhs = n /\ ips_nama r = nama mhs) /\
  ips_mata_kuliah r <> [] /\
  (forall x, In x (ips_mata_kuliah r) ->
             e_mutu x = fmul (e_bobot x) (float_of_Z (e_sks x))) /\
  ips_total_sks r = sumZ (map e_sks (ips_mata_kuliah r)) /\
  ips_total_mutu r = py_round2 (fsum (map e_mutu (ips_mata_kuliah r))) /\
  ips r = py_round2 (if ips_total_sks r >? 0
                     then fdiv (fsum (map e_mutu (ips_mata_kuliah r)))
                               (float_of_Z (ips_total_sks r))
                     else pos_zero).
Proof.
  intros H. destruct (hitung_ips_ok_inv e db n s r H) as [mhs [_ [Hm [Hne ->]]]].
  cbn [ips_report_of ips_nim ips_semester ips_nama ips_mata_kuliah ips_total_sks
       ips_total_mutu ips].
  rewrite map_e_sks, map_e_mutu.
  split; [reflexivity|]. split; [reflexivity|].
  split; [exists mhs; apply fetch_mahasiswa_inv in Hm; tauto|].
  split; [destruct (query_ips e db n s); [congruence|discriminate]|].
  split; [intros x Hx; now apply entry_of_mutu in Hx|].
  repeat split.
Qed.

Lemma ips_report_consistent_witness :
  exists r,
    hitung_ips in_order db_two_courses "2101" 1 = Ok r /\
    ips_total_sks r = sumZ (map e_sks (ips_mata_kuliah r)) /\
    ips_total_mutu r = py_round2 (fsum (map e_mutu (ips_mata_kuliah r))).
Proof.
  assert (H : exists r, hitung_ips in_order db_two_courses "2101" 1 = Ok r)
    by (eexists; vm_compute; reflexivity).
  destruct H as [r H]. exists r. split; [exact H|].
  destruct (ips_report_consistent in_order db_two_courses "2101"%string 1 r H)
    as [_ [_ [_ [_ [_ [H1 [H2 _]]]]]]].
  split; [exact H1|exact H2].
Defined.

(** X11. A cumulative report is consistent with its own per-term lines, on
    any store: it echoes the student identifier and the stored student's
    name, department and cohort; it has at least one per-term line; the
    lines are in strictly ascending term order (one line per term); and the
    per-term credit totals add up to the reported grand total. *)
Theorem ipk_report_consistent (e : engine) (db : database) (n : string) (c : ipk_report) :
  hitung_ipk e db n = Ok c ->
  ipk_nim c = n /\
  (exists mhs, In mhs (mahasiswa db) /\ nim mhs = n /\ ipk_nama c = nama mhs /\
               ipk_jurusan c = jurusan mhs /\ ipk_angkatan c = angkatan mhs) /\
  detail_per_semester c <> [] /\
  StronglySorted (fun a b => s_semester a < s_semester b) (detail_per_semester c) /\
  sumZ (map s_total_sks (detail_per_semester c)) = total_sks_kumulatif c.
Proof.
  intros H. destruct (hitung_ipk_ok_inv e db n c H) as [mhs [_ [Hm [Hne ->]]]].
  cbn [ipk_report_of ipk_nim ipk_nama ipk_jurusan ipk_angkatan detail_per_semester
       total_sks_kumulatif].
  set (rows := query_ipk e db n) in *.
  destruct (ipk_total_dict_ok rows) as [Hnd [Hkeys Hent]].
  split; [reflexivity|].
  split; [exists mhs; apply fetch_mahasiswa_inv in Hm; tauto|].
  split; [|split].
  - intros E. apply sort_by_nil in E.
    destruct rows as [|row rows'] eqn:Er; [congruence|].
    assert (Hin : In (r_semester row)
                     (map fst (acc_per_semester (ipk_total (row :: rows'))))).
    { apply Hkeys. now left. }
    unfold dict_values in E. apply map_eq_nil in E. apply map_eq_nil in E.
    rewrite E in Hin. exact Hin.
  - apply sorted_strict; [apply sort_by_sorted|].
    eapply Permutation_NoDup; [apply Permutation_sym, detail_semesters|exact Hnd].
  - rewrite <- ipk_total_sks, <- ipk_total_dict_total. unfold dict_total_sks.
    erewrite sumZ_perm; [|apply Permutation_map, sort_by_perm].
    unfold dict_values. rewrite !map_map. reflexivity.
Qed.

Lemma ipk_report_consistent_witness :
  exists c,
    hitung_ipk reversed db_two_terms "2101" = Ok c /\
    sumZ (map s_total_sks (detail_per_semester c)) = total_sks_kumulatif c.
Proof.
  assert (H : exists c, hitung_ipk reversed db_two_terms "2101" = Ok c)
    by (eexists; vm_compute; reflexivity).
  destruct H as [c H]. exists c. split; [exact H|].
  exact (proj2 (proj2 (proj2 (proj2
           (ipk_report_consistent reversed db_two_terms "2101"%string c H))))).
Defined.

(** ** Why a report is refused *)

(** X13. The answers of the report handlers tell their cause apart, on any
    store.  For a student identifier free of NUL characters the detail is
    "Mahasiswa tidak ditemukan" exactly when the identifier is not on
    record, and for a stored student the only errors either handler can
    raise are the 404 that names the student (and, for the semester report,
    the term) as having no grade data, and the 500 of a credit total too
    large for a float.  An identifier with a NUL character is answered 500
    with the driver's message. *)
Theorem not_found_reason (e : engine) (db : database) (n : string) :
  (has_nul n = false ->
   (forall s, hitung_ips e db n s = Raise (HTTPException 404 "Mahasiswa tidak ditemukan")
              <-> ~ student_known db n) /\
   (hitung_ipk e db n = Raise (HTTPException 404 "Mahasiswa tidak ditemukan")
    <-> ~ student_known db n)) /\
  (has_nul n = false -> student_known db n ->
   (forall s x, hitung_ips e db n s = Raise x ->
      x = HTTPException 404 ("Tidak ada data nilai untuk mahasiswa " ++ n
                               ++ " di semester " ++ str_Z s) \/
      x = HTTPException 500 "int too large to convert to float") /\
   (forall x, hitung_ipk e db n = Raise x ->
      x = HTTPException 404 ("Tidak ada data nilai untuk mahasiswa " ++ n) \/
      x = HTTPException 500 "int too large to convert to float")) /\
  (has_nul n = true ->
   (forall s, hitung_ips e db n s
              = Raise (HTTPException 500
                         "A string literal cannot contain NUL (0x00) characters.")) /\
   hitung_ipk e db n
   = Raise (HTTPException 500 "A string literal cannot contain NUL (0x00) characters.")).
Proof.
  split; [|split].
  - intros Hn. split.
    + intros s.
      destruct (hitung_ips_cases e db n s)
        as [[H _]|[[_ [Hu E]]|[[_ [Hk [Hr E]]]|[_ [Hk [Hr [[r E]|E]]]]]]];
        [congruence| | | |]; rewrite E; split; intros H; auto; try contradiction;
        discriminate H.
    + destruct (hitung_ipk_cases e db n)
        as [[H _]|[[_ [Hu E]]|[[_ [Hk [Hr E]]]|[_ [Hk [Hr [[r E]|E]]]]]]];
        [congruence| | | |]; rewrite E; split; intros H; auto; try contradiction;
        discriminate H.
  - intros Hn Hk. split.
    + intros s x.
      destruct (hitung_ips_cases e db n s)
        as [[H _]|[[_ [Hu E]]|[[_ [_ [Hr E]]]|[_ [_ [Hr [[r E]|E]]]]]]];
        [congruence|contradiction| | |]; rewrite E; intros H; inversion H; auto.
    + intros x.
      destruct (hitung_ipk_cases e db n)
        as [[H _]|[[_ [Hu E]]|[[_ [_ [Hr E]]]|[_ [_ [Hr [[r E]|E]]]]]]];
        [congruence|contradiction| | |]; rewrite E; intros H; inversion H; auto.
  - intros Hn. split; [intros s; now apply hitung_ips_nul|now apply hitung_ipk_nul].
Qed.

Lemma not_found_reason_witness :
  hitung_ipk in_order db_two_courses "2199"
  = Raise (HTTPException 404 "Mahasiswa tidak ditemukan") /\
  hitung_ipk in_order db_two_courses nul_nim
  = Raise (HTTPException 500 "A string literal cannot contain NUL (0x00) characters.").
Proof.
  split.
  - destruct (not_found_reason in_order db_two_courses "2199"%string) as [H _].
    apply (H eq_refl). intros [H0|[]]. discriminate H0.
  - destruct (not_found_reason in_order db_two_courses nul_nim) as [_ [_ H]].
    apply (H eq_refl).
Defined.

(** ** Reports and later writes *)

Lemma hitung_ips_same_query (e : engine) (db1 db2 : database) (n : string) (s : Z) :
  select_mahasiswa db1 n = select_mahasiswa db2 n ->
  rows_ips db1 n s = rows_ips db2 n s ->
  hitung_ips e db1 n s = hitung_ips e db2 n s.
Proof.
  intros H1 H2. unfold hitung_ips, hitung_ips_try, query_ips. rewrite H1, H2. reflexivity.
Qed.

Lemma hitung_ipk_same_query (e : engine) (db1 db2 : database) (n : string) :
  select_mahasiswa db1 n = select_mahasiswa db2 n ->
  rows_ipk db1 n = rows_ipk db2 n ->
  hitung_ipk e db1 n = hitung_ipk e db2 n.
Proof.
  intros H1 H2. unfold hitung_ipk, hitung_ipk_try, query_ipk. rewrite H1, H2. reflexivity.
Qed.

Lemma select_mahasiswa_with_other (db : database) (m : Mahasiswa) (n : string) :
  nim m <> n -> select_mahasiswa (with_mahasiswa db m) n = select_mahasiswa db n.
Proof.
  intros H. unfold select_mahasiswa. cbn [with_mahasiswa mahasiswa].
  rewrite filter_app. simpl.
  assert (String.eqb (nim m) n = false) as -> by now apply String.eqb_neq.
  apply app_nil_r.
Qed.

Lemma create_nilai_store (k : KRS) (admin : json) (db : database) :
  snd (create_nilai k admin db) = db \/
  snd (create_nilai k admin db) = with_krs_row db (new_krs_row db k).
Proof.
  destruct (fst (create_nilai k admin db)) as [resp|x] eqn:E.
  - right. now apply create_nilai_ok in E.
  - left. now apply create_nilai_rollback in E.
Qed.

Lemma create_mahasiswa_store (m : Mahasiswa) (admin : json) (db : database) :
  snd (create_mahasiswa m admin db) = db \/
  snd (create_mahasiswa m admin db) = with_mahasiswa db m.
Proof.
  destruct (fst (create_mahasiswa m admin db)) as [resp|x] eqn:E.
  - right. now apply create_mahasiswa_ok in E.
  - left. now apply create_mahasiswa_rollback in E.
Qed.

Lemma create_mata_kuliah_store (mk : MataKuliah) (admin : json) (db : database) :
  snd (create_mata_kuliah mk admin db) = db \/
  snd (create_mata_kuliah mk admin db) = with_mata_kuliah db mk.
Proof.
  destruct (fst (create_mata_kuliah mk admin db)) as [resp|x] eqn:E.
  - right. now apply create_mata_kuliah_ok in E.
  - left. now apply create_mata_kuliah_rollback in E.
Qed.

(** X14. Writes that concern someone else leave a report as it is, on any
    store: for every order in which the rows may be delivered, the semester
    report (or error) computed after creating an enrollment for another
    student or another term is the one computed before, the cumulative
    report computed after creating an enrollment for another student is the
    one computed before, and creating another student changes neither -- so
    the same answers are possible before and after. *)
Theorem reports_unaffected_by_other_writes (e : engine) (db : database) (admin : json)
  (n : string) :
  (forall k s,
     krs_nim k <> n \/ krs_semester k <> s ->
     hitung_ips e (snd (create_nilai k admin db)) n s = hitung_ips e db n s) /\
  (forall k,
     krs_nim k <> n ->
     hitung_ipk e (snd (create_nilai k admin db)) n = hitung_ipk e db n) /\
  (forall m,
     nim m <> n ->
     (forall s, hitung_ips e (snd (create_mahasiswa m admin db)) n s = hitung_ips e db n s) /\
     hitung_ipk e (snd (create_mahasiswa m admin db)) n = hitung_ipk e db n).
Proof.
  split; [|split].
  - intros k s Hk.
    destruct (create_nilai_store k admin db) as [->| ->]; [reflexivity|].
    apply hitung_ips_same_query; [reflexivity|].
    rewrite rows_ips_snoc. cbn [new_krs_row k_nim k_semester].
    assert ((String.eqb (krs_nim k) n && (krs_semester k =? s)) = false) as ->.
    { destruct Hk as [Hk|Hk].
      - apply String.eqb_neq in Hk. now rewrite Hk.
      - apply Z.eqb_neq in Hk. rewrite Hk. apply andb_false_r. }
    apply app_nil_r.
  - intros k Hk.
    destruct (create_nilai_store k admin db) as [->| ->]; [reflexivity|].
    apply hitung_ipk_same_query; [reflexivity|].
    rewrite rows_ipk_snoc. cbn [new_krs_row k_nim].
    assert (String.eqb (krs_nim k) n = false) as -> by now apply String.eqb_neq.
    apply app_nil_r.
  - intros m Hm.
    destruct (create_mahasiswa_store m admin db) as [->| ->]; [split; reflexivity|].
    split; [intros s; apply hitung_ips_same_query|apply hitung_ipk_same_query];
      try reflexivity; now apply select_mahasiswa_with_other.
Qed.

Lemma reports_unaffected_by_other_writes_witness :
  hitung_ips reversed (snd (create_nilai krs_request admin_user db_two_courses)) "2101" 1
  = hitung_ips reversed db_two_courses "2101" 1.
Proof.
  apply (proj1 (reports_unaffected_by_other_writes reversed db_two_courses admin_user
                  "2101"%string) krs_request 1).
  right. discriminate.
Defined.

(** ** The cumulative report against the semester reports *)

Lemma for_each_ok_inv {A B} (step : A -> B -> result A) (P : B -> Prop)
  (l : list B) (a a' : A) :
  (forall a x a', step a x = Ok a' -> P x) ->
  for_each step l a = Ok a' -> forall x, In x l -> P x.
Proof.
  intros Hstep. revert a. induction l as [|y l IH]; intros a H x Hx; [destruct Hx|].
  cbn [for_each] in H.
  destruct (step a y) as [a1|ex] eqn:E; cbn [bind] in H; [|discriminate].
  destruct Hx as [<-|Hx]; [now apply (Hstep a y a1)|].
  now apply (IH a1).
Qed.

Lemma float_of_int_converts (z : Z) (f : float) : float_of_int z = Ok f -> converts z.
Proof.
  intros H. unfold converts. rewrite H. f_equal. now apply float_of_int_total.
Qed.

Lemma ips_step_converts (a : ips_acc) (row : nilai_row) (a' : ips_acc) :
  ips_step a row = Ok a' -> converts (r_sks row).
Proof.
  unfold ips_step. destruct (float_of_int (r_sks row)) as [f|x] eqn:E; [|discriminate].
  intros _. now apply float_of_int_converts in E.
Qed.

Lemma ipk_step_converts (a : ipk_acc) (row : nilai_row) (a' : ipk_acc) :
  ipk_step a row = Ok a' -> converts (r_sks row).
Proof.
  unfold ipk_step. destruct (float_of_int (r_sks row)) as [f|x] eqn:E; [|discriminate].
  intros _. now apply float_of_int_converts in E.
Qed.

Lemma guarded_div_converts (x : float) (n : Z) (v : float) :
  guarded_div x n = Ok v -> n <= 0 \/ converts n.
Proof.
  unfold guarded_div, truediv.
  destruct (n >? 0) eqn:E; [|intros _; left; rewrite Z.gtb_ltb in E; apply Z.ltb_ge in E; lia].
  destruct (float_of_int n) as [f|ex] eqn:Ef; [|discriminate].
  intros _. right. now apply float_of_int_converts in Ef.
Qed.

Lemma finish_all_converts (d d' : per_semester_dict) :
  finish_all d = Ok d' ->
  forall k x, In (k, x) d -> s_total_sks x <= 0 \/ converts (s_total_sks x).
Proof.
  revert d'. induction d as [|[k0 x0] d IH]; intros d' H k x Hin; [destruct Hin|].
  cbn [finish_all] in H.
  destruct (sem_finish x0) as [x0'|ex] eqn:E0; cbn [bind] in H; [|discriminate].
  destruct (finish_all d) as [d''|ex] eqn:Ed; cbn [bind] in H; [|discriminate].
  destruct Hin as [Hin|Hin].
  - inversion Hin; subst. unfold sem_finish in E0.
    destruct (guarded_div (s_total_mutu x) (s_total_sks x)) as [v|ex] eqn:Eg;
      [|discriminate].
    now apply guarded_div_converts in Eg.
  - now apply (IH d'' eq_refl k x).
Qed.

(** What a returned cumulative report tells about the conversions made on
    the way. *)
Lemma hitung_ipk_ok_converts (e : engine) (db : database) (n : string) (c : ipk_report) :
  hitung_ipk e db n = Ok c ->
  (forall row, In row (query_ipk e db n) -> converts (r_sks row)) /\
  (forall k x, In (k, x) (acc_per_semester (ipk_total (query_ipk e db n))) ->
     s_total_sks x <= 0 \/ converts (s_total_sks x)).
Proof.
  intros H. destruct (hitung_ipk_ok_inv e db n c H) as [mhs [Hn [Hm [Hne _]]]].
  unfold hitung_ipk, hitung_ipk_try in H. rewrite (adapt_nim n Hn), Hm in H.
  cbn [bind] in H.
  destruct (query_ipk e db n) as [|row rows] eqn:Eq; [congruence|].
  destruct (ipk_loop (row :: rows)) as [a|x] eqn:El; cbn [bind] in H;
    [|destruct x; discriminate H].
  destruct (finish_all (acc_per_semester a)) as [d|x] eqn:Ef; cbn [bind] in H;
    [|destruct x; discriminate H].
  split.
  - unfold ipk_loop in El.
    apply (for_each_ok_inv ipk_step (fun row => converts (r_sks row)) _ _ _
             ipk_step_converts El).
  - apply ipk_loop_total in El. subst a.
    now apply (finish_all_converts _ d).
Qed.

Lemma joined_semester (db : database) (k : krs_row) (row : nilai_row) :
  In row (joined db k) -> r_semester row = k_semester k.
Proof. intros H. now apply joined_in in H. Qed.

Lemma sem_rows_joined (db : database) (s : Z) (ks : list krs_row) :
  sem_rows s (flat_map (joined db) ks)
  = flat_map (joined db) (filter (fun k => k_semester k =? s) ks).
Proof.
  unfold sem_rows. induction ks as [|k ks IH]; simpl; [reflexivity|].
  rewrite filter_app, IH. destruct (k_semester k =? s) eqn:E; simpl.
  - f_equal. apply filter_all.
    intros row Hrow. apply joined_semester in Hrow. now rewrite Hrow.
  - assert (filter (fun r => r_semester r =? s) (joined db k) = []) as ->; [|reflexivity].
    apply filter_nil_iff. intros row Hrow. apply joined_semester in Hrow. now rewrite Hrow.
Qed.

Lemma sem_rows_rows_ipk (db : database) (n : string) (s : Z) :
  sem_rows s (rows_ipk db n) = rows_ips db n s.
Proof.
  unfold rows_ipk, rows_ips. rewrite sem_rows_joined, filter_filter_andb. reflexivity.
Qed.

(** The rows of one term within the cumulative query are the rows of the
    semester query, in the order in which the cumulative query delivers
    them. *)
Lemma sem_rows_query (e : engine) (db : database) (n : string) (s : Z) :
  sem_rows s (query_ipk e db n) = sem_rows s (arrange e (rows_ipk db n)) /\
  Permutation (sem_rows s (query_ipk e db n)) (rows_ips db n s).
Proof.
  assert (E : sem_rows s (query_ipk e db n) = sem_rows s (arrange e (rows_ipk db n))).
  { unfold sem_rows, query_ipk. apply filter_sort_by. }
  split; [exact E|]. rewrite E, <- sem_rows_rows_ipk.
  unfold sem_rows. apply filter_perm, arrange_perm.
Qed.

(** X15. The per-term lines of a cumulative report agree with the semester
    reports, on any store: for every line of the cumulative report of a
    student, the semester report of that student and term exists -- under
    every order of delivery -- and carries the same total credit-weight; it
    carries the same total quality-points and the same GPA when the
    semester query delivers the term's rows in the order in which the
    cumulative query delivered them (floating-point addition depends on the
    order).  Conversely every term with a semester report has a line. *)
Theorem cumulative_lines_match_semester_reports (e e' : engine) (db : database)
  (n : string) (c : ipk_report) :
  hitung_ipk e db n = Ok c ->
  (forall x, In x (detail_per_semester c) ->
     exists r, hitung_ips e' db n (s_semester x) = Ok r /\
               ips_total_sks r = s_total_sks x /\
               (query_ips e' db n (s_semester x)
                = sem_rows (s_semester x) (query_ipk e db n) ->
                ips_total_mutu r = s_total_mutu x /\ ips r = s_ips x)) /\
  (forall s r, hitung_ips e' db n s = Ok r ->
               In s (map s_semester (detail_per_semester c))).
Proof.
  intros H.
  destruct (hitung_ipk_ok_converts e db n c H) as [Hconv Hterm].
  destruct (hitung_ipk_ok_inv e db n c H) as [mhs [Hn [Hm [Hne ->]]]].
  split.
  - intros x Hx.
    destruct (ipk_report_detail n mhs (query_ipk e db n) x Hx) as [Hsks [Hmutu Hips]].
    assert (Hs : In (s_semester x) (map r_semester (query_ipk e db n))).
    { apply (ipk_report_terms n mhs). now apply in_map. }
    set (s := s_semester x) in *.
    destruct (sem_rows_query e db n s) as [_ Hperm].
    assert (Hperm' : Permutation (query_ips e' db n s) (sem_rows s (query_ipk e db n))).
    { unfold query_ips. eapply perm_trans; [apply arrange_perm|].
      now apply Permutation_sym. }
    assert (Hrows : query_ips e' db n s <> []).
    { intros E. rewrite E in Hperm'. apply Permutation_nil in Hperm'.
      apply in_map_iff in Hs. destruct Hs as [row [Hrs Hrow]].
      assert (Hin' : In row (sem_rows s (query_ipk e db n))).
      { apply filter_In. split; [exact Hrow|]. now apply Z.eqb_eq. }
      rewrite Hperm' in Hin'. exact Hin'. }
    assert (Hk : student_known db n).
    { apply fetch_mahasiswa_inv in Hm. destruct Hm as [Hin <-]. now apply in_map. }
    destruct (fetch_mahasiswa_known e' db n Hk) as [mhs' Hm'].
    assert (Htot : sumZ (map r_sks (query_ips e' db n s)) = s_total_sks x).
    { rewrite Hsks. apply sumZ_perm, Permutation_map, Hperm'. }
    assert (Hrun : hitung_ips e' db n s
                   = Ok (ips_report_of n s mhs' (query_ips e' db n s))).
    { apply hitung_ips_run; auto.
      - intros row Hrow. apply Hconv.
        apply (Permutation_in _ Hperm') in Hrow. now apply filter_In in Hrow.
      - rewrite Htot.
        destruct (ipk_total_dict_ok (query_ipk e db n)) as [_ [Hkeys Hent]].
        cbn [ipk_report_of detail_per_semester] in Hx.
        rewrite in_sort_by in Hx. apply in_map_iff in Hx.
        destruct Hx as [x0 [Ex Hx0]]. unfold dict_values in Hx0.
        apply in_map_iff in Hx0. destruct Hx0 as [[k x1] [E Hin]]. simpl in E.
        subst x1. rewrite <- Ex. cbn [sem_finished s_total_sks].
        now apply (Hterm k x0). }
    eexists. split; [exact Hrun|].
    cbn [ips_report_of ips_total_sks ips_total_mutu ips].
    split; [exact Htot|].
    intros Eo. rewrite Hmutu, Hips, Eo. split; reflexivity.
  - intros s r Hr.
    destruct (hitung_ips_ok_inv e' db n s r Hr) as [_ [_ [_ [Hrows _]]]].
    apply (ipk_report_terms n mhs).
    destruct (query_ips e' db n s) as [|row rows] eqn:Eq; [congruence|].
    assert (Hin : In row (rows_ips db n s)).
    { apply (in_arrange e'). unfold query_ips in Eq. rewrite Eq. now left. }
    destruct (sem_rows_query e db n s) as [_ Hperm].
    apply (Permutation_in _ (Permutation_sym Hperm)) in Hin.
    apply filter_In in Hin. destruct Hin as [Hin Hs]. apply Z.eqb_eq in Hs.
    rewrite <- Hs. now apply in_map.
Qed.

Lemma cumulative_lines_match_semester_reports_witness :
  exists c,
    hitung_ipk in_order db_two_terms "2101" = Ok c /\
    forall x, In x (detail_per_semester c) ->
      exists r, hitung_ips reversed db_two_terms "2101" (s_semester x) = Ok r /\
                ips_total_sks r = s_total_sks x.
Proof.
  assert (H : exists c, hitung_ipk in_order db_two_terms "2101" = Ok c)
    by (eexists; vm_compute; reflexivity).
  destruct H as [c H]. exists c. split; [exact H|].
  intros x Hx.
  destruct (proj1 (cumulative_lines_match_semester_reports in_order reversed
                     db_two_terms "2101"%string c H) x Hx) as [r [Hr [Hs _]]].
  exists r. split; [exact Hr|exact Hs].
Defined.

(** ** An enrollment, once created, is reported *)

Lemma term_enrollments_snoc (db : database) (k : KRS) :
  term_enrollments (with_krs_row db (new_krs_row db k)) (krs_nim k) (krs_semester k)
  = term_enrollments db (krs_nim k) (krs_semester k) ++ [new_krs_row db k].
Proof.
  unfold term_enrollments. cbn [with_krs_row krs]. rewrite filter_app. f_equal.
  cbn [filter new_krs_row k_nim k_semester].
  now rewrite String.eqb_refl, Z.eqb_refl.
Qed.

Lemma all_enrollments_snoc (db : database) (k : KRS) :
  all_enrollments (with_krs_row db (new_krs_row db k)) (krs_nim k)
  = all_enrollments db (krs_nim k) ++ [new_krs_row db k].
Proof.
  unfold all_enrollments. cbn [with_krs_row krs]. rewrite filter_app. f_equal.
  cbn [filter new_krs_row k_nim]. now rewrite String.eqb_refl.
Qed.

Lemma report_entries_perm (e : engine) (db : database) (ks : list krs_row) :
  Permutation (map entry_of (map (row_of db) (arrange e ks)))
              (map (fun k0 => entry_of (row_of db k0)) ks).
Proof.
  rewrite map_map. apply Permutation_map, arrange_perm.
Qed.

(** X16. On a store that satisfies the data-model invariant, a created
    enrollment appears in the reports at once (the student's credit total
    staying below 2^53): under every order of delivery the semester report
    of its student and term exists, its course list is, up to order, the
    list of the term's earlier enrollments and the new course, shown with
    the grade as given, the course's credit-weight and the grade's weight
    from the table (0.0 when absent or not listed); the total credit-weight
    is the earlier total plus that credit-weight; and the cumulative report
    of the student exists. *)
Theorem created_enrollment_is_reported (e : engine) (k : KRS) (admin : json)
  (db : database) (resp : created krs_row) :
  wf db -> valid_KRS k = true -> fst (create_nilai k admin db) = Ok resp ->
  let db' := snd (create_nilai k admin db) in
  let new_entry := entry_of (row_of db (data resp)) in
  spec_total_credit db' (all_enrollments db' (krs_nim k)) < 2 ^ 53 ->
  (exists r,
     hitung_ips e db' (krs_nim k) (krs_semester k) = Ok r /\
     Permutation (ips_mata_kuliah r)
       (map (fun k0 => entry_of (row_of db k0))
            (term_enrollments db (krs_nim k) (krs_semester k)) ++ [new_entry]) /\
     e_kode_mk new_entry = krs_kode_mk k /\ e_nilai new_entry = krs_nilai k /\
     e_sks new_entry = spec_credit db (krs_kode_mk k) /\
     e_bobot new_entry = spec_weight db (krs_nilai k) /\
     ips_total_sks r
     = spec_total_credit db (term_enrollments db (krs_nim k) (krs_semester k))
       + spec_credit db (krs_kode_mk k) /\
     (forall e0 r0,
        hitung_ips e0 db (krs_nim k) (krs_semester k) = Ok r0 ->
        Permutation (ips_mata_kuliah r) (ips_mata_kuliah r0 ++ [new_entry]) /\
        ips_total_sks r = ips_total_sks r0 + spec_credit db (krs_kode_mk k)) /\
     (forall e0,
        is_http 404 (hitung_ips e0 db (krs_nim k) (krs_semester k)) ->
        ips_mata_kuliah r = [new_entry])) /\
  (exists c, hitung_ipk e db' (krs_nim k) = Ok c).
Proof.
  intros Hwf Hv Hok db' new_entry. subst db' new_entry.
  destruct (create_nilai_ok k admin db resp Hok) as [Hcl [Hs [Hc [Hnew [-> ->]]]]].
  cbn [data].
  set (row := new_krs_row db k).
  set (db' := with_krs_row db row).
  set (n := krs_nim k). set (s := krs_semester k).
  intros Hb.
  assert (Hwf' : wf db').
  { apply wf_with_krs_row; auto. now apply clean_KRS_parts in Hcl. }
  assert (Hs' : student_known db' n) by exact Hs.
  assert (Et : term_enrollments db' n s = term_enrollments db n s ++ [row])
    by apply term_enrollments_snoc.
  assert (Ea : all_enrollments db' n = all_enrollments db n ++ [row])
    by apply all_enrollments_snoc.
  assert (Hne : term_enrollments db' n s <> []).
  { rewrite Et. intros E. now apply app_eq_nil in E. }
  assert (Hne' : all_enrollments db' n <> []).
  { rewrite Ea. intros E. now apply app_eq_nil in E. }
  assert (Hbt : spec_total_credit db' (term_enrollments db' n s) < 2 ^ 53)
    by now apply term_bound.
  assert (Hcredit : spec_total_credit db' (term_enrollments db' n s)
                    = spec_total_credit db (term_enrollments db n s)
                      + spec_credit db (krs_kode_mk k)).
  { rewrite Et. unfold spec_total_credit. rewrite map_app, sumZ_app.
    change (spec_credit db') with (spec_credit db). simpl. lia. }
  assert (Hlist : forall r,
            Permutation (ips_mata_kuliah r)
              (map (fun k0 => entry_of (row_of db' k0)) (term_enrollments db' n s)) ->
            Permutation (ips_mata_kuliah r)
              (map (fun k0 => entry_of (row_of db k0)) (term_enrollments db n s)
               ++ [entry_of (row_of db row)])).
  { intros r Hp. rewrite Et, map_app in Hp. exact Hp. }
  split.
  - destruct (hitung_ips_spec e db' n s Hwf' Hs' Hne Hbt) as [mhs [_ [_ Hr]]].
    destruct (ips_report_of_spec e db' n s mhs Hwf' Hne) as [H0 [H1 _]].
    eexists. split; [exact Hr|].
    assert (Hp : Permutation
              (ips_mata_kuliah (ips_report_of n s mhs
                                  (map (row_of db') (delivered_ips e db' n s))))
              (map (fun k0 => entry_of (row_of db k0)) (term_enrollments db n s)
               ++ [entry_of (row_of db row)])).
    { apply Hlist. rewrite H0. apply report_entries_perm. }
    split; [exact Hp|].
    split; [reflexivity|]. split; [reflexivity|]. split; [reflexivity|].
    split; [apply (bobot_of_row_of db row)|].
    split; [rewrite H1; exact Hcredit|].
    split.
    + intros e0 r0 Hr0.
      destruct (hitung_ips_ok_inv e0 db n s r0 Hr0) as [mhs0 [_ [_ [_ ->]]]].
      rewrite (query_ips_spec e0 db n s Hwf).
      split.
      * eapply perm_trans; [exact Hp|].
        cbn [ips_report_of ips_mata_kuliah].
        apply Permutation_app_tail, Permutation_sym, report_entries_perm.
      * rewrite H1, Hcredit. cbn [ips_report_of ips_total_sks].
        rewrite rows_total_sks.
        now rewrite (spec_total_credit_perm db _ _ (delivered_ips_perm e0 db n s)).
    + intros e0 H404.
      assert (E : term_enrollments db n s = []).
      { destruct (hitung_ips_cases e0 db n s)
          as [[_ E]|[[_ [Hu _]]|[[_ [_ [Hr0 _]]]|[_ [_ [_ [[r0 E]|E]]]]]]].
        - rewrite E in H404. destruct H404 as [d Hd]. discriminate Hd.
        - contradiction.
        - now apply (rows_ips_nil db n s Hwf).
        - rewrite E in H404. destruct H404 as [d Hd]. discriminate Hd.
        - rewrite E in H404. destruct H404 as [d Hd]. discriminate Hd. }
      rewrite E in Hp. simpl in Hp. apply Permutation_sym in Hp.
      now apply Permutation_length_1_inv in Hp.
  - destruct (hitung_ipk_spec e db' n Hwf' Hs' Hne' Hb) as [mhs [_ [_ Hc']]].
    eexists. exact Hc'.
Qed.

Lemma created_enrollment_is_reported_witness :
  exists r,
    hitung_ips reversed (snd (create_nilai krs_request admin_user db_two_courses))
      "2101" 2 = Ok r /\
    ips_total_sks r = 0 + 3 /\
    exists c,
      hitung_ipk reversed (snd (create_nilai krs_request admin_user db_two_courses))
        "2101" = Ok c.
Proof.
  destruct (created_enrollment_is_reported reversed krs_request admin_user db_two_courses
              {| message := "Nilai/KRS berhasil ditambahkan";
                 data := new_krs_row db_two_courses krs_request;
                 created_by := JStr "admin1" |}
              wf_db_two_courses eq_refl eq_refl eq_refl)
    as [[r [Hr [_ [_ [_ [_ [_ [Ht _]]]]]]]] Hc].
  exists r. split; [exact Hr|]. split; [exact Ht|exact Hc].
Defined.

(** ** The listing handlers *)

(** X17. The student and course listings, under any collation and any order
    of delivery: each lists exactly the stored rows (a rearrangement of the
    table, nothing dropped and nothing repeated); a student or course that
    was just created is in the next listing; and whatever a create request
    did, everything listed before is still listed. *)
Theorem listings_show_the_tables (e : engine) (collate : string -> string -> comparison)
  (db : database) :
  (exists l, get_mahasiswas e collate db = Ok l /\ Permutation l (mahasiswa db)) /\
  (exists l, get_mata_kuliah e collate db = Ok l /\ Permutation l (mata_kuliah db)) /\
  (forall m admin resp l',
     fst (create_mahasiswa m admin db) = Ok resp ->
     get_mahasiswas e collate (snd (create_mahasiswa m admin db)) = Ok l' ->
     In m l') /\
  (forall mk admin resp l',
     fst (create_mata_kuliah mk admin db) = Ok resp ->
     get_mata_kuliah e collate (snd (create_mata_kuliah mk admin db)) = Ok l' ->
     In mk l') /\
  (forall e0 m admin l l' x,
     get_mahasiswas e0 collate db = Ok l ->
     get_mahasiswas e collate (snd (create_mahasiswa m admin db)) = Ok l' ->
     In x l -> In x l') /\
  (forall e0 mk admin l l' x,
     get_mata_kuliah e0 collate db = Ok l ->
     get_mata_kuliah e collate (snd (create_mata_kuliah mk admin db)) = Ok l' ->
     In x l -> In x l').
Proof.
  unfold get_mahasiswas, get_mata_kuliah, except_all_500.
  split.
  { eexists. split; [reflexivity|].
    eapply perm_trans; [apply sort_le_perm|apply arrange_perm]. }
  split.
  { eexists. split; [reflexivity|].
    eapply perm_trans; [apply sort_le_perm|apply arrange_perm]. }
  split; [|split; [|split]].
  - intros m admin resp l' Hok Hl. inversion Hl; subst l'.
    apply in_sort_le, in_arrange.
    apply create_mahasiswa_ok in Hok. destruct Hok as [_ [_ [_ ->]]].
    cbn. apply in_app_iff. right. now left.
  - intros mk admin resp l' Hok Hl. inversion Hl; subst l'.
    apply in_sort_le, in_arrange.
    apply create_mata_kuliah_ok in Hok. destruct Hok as [_ [_ [_ ->]]].
    cbn. apply in_app_iff. right. now left.
  - intros e0 m admin l l' x Hl Hl' Hx. inversion Hl; subst l. inversion Hl'; subst l'.
    apply in_sort_le, in_arrange in Hx. apply in_sort_le, in_arrange.
    destruct (create_mahasiswa_store m admin db) as [->| ->]; [exact Hx|].
    cbn. apply in_app_iff. now left.
  - intros e0 mk admin l l' x Hl Hl' Hx. inversion Hl; subst l. inversion Hl'; subst l'.
    apply in_sort_le, in_arrange in Hx. apply in_sort_le, in_arrange.
    destruct (create_mata_kuliah_store mk admin db) as [->| ->]; [exact Hx|].
    cbn. apply in_app_iff. now left.
Qed.

Lemma listings_show_the_tables_witness :
  exists l',
    get_mahasiswas reversed String.compare
      (snd (create_mahasiswa siti admin_user db_two_courses)) = Ok l' /\
    In siti l'.
Proof.
  assert (H : exists l', get_mahasiswas reversed String.compare
                (snd (create_mahasiswa siti admin_user db_two_courses)) = Ok l')
    by (eexists; reflexivity).
  destruct H as [l' H]. exists l'. split; [exact H|].
  destruct (listings_show_the_tables reversed String.compare db_two_courses)
    as [_ [_ [Hm _]]].
  apply (Hm siti admin_user
            {| message := "Mahasiswa berhasil ditambahkan"; data := siti;
               created_by := JStr "admin1" |} l' eq_refl H).
Defined.

Lemma joined_nilai_in (db : database) (k : krs_row) (row : krs_join_row) :
  In row (joined_nilai db k) ->
  j_id_krs row = id_krs k /\ j_nim row = k_nim k /\ j_kode_mk row = k_kode_mk k /\
  j_nilai row = k_nilai k /\ j_semester row = k_semester k /\
  student_known db (k_nim k) /\ course_known db (k_kode_mk k) /\
  In (j_bobot row) (left_join_bobot db (k_nilai k)).
Proof.
  unfold joined_nilai. rewrite in_flat_map. intros [m [Hm H]].
  apply in_flat_map in H. destruct H as [mk [Hmk H]].
  apply in_map_iff in H. destruct H as [b [<- Hb]]. cbn.
  unfold join_mahasiswa in Hm. apply filter_In in Hm. destruct Hm as [Hm Em].
  unfold join_mata_kuliah in Hmk. apply filter_In in Hmk. destruct Hmk as [Hmk Emk].
  apply String.eqb_eq in Em, Emk.
  repeat split; auto.
  - unfold student_known. rewrite Em. now apply in_map.
  - unfold course_known. rewrite Emk. now apply in_map.
Qed.

Lemma get_nilai_run (e : engine) (collate : string -> string -> comparison)
  (db : database) (n : option string) (s : option Z) :
  forallb adaptable (nilai_params n s) = true ->
  get_nilai e collate db n s = Ok (map nilai_record_of (query_nilai e collate db n s)).
Proof.
  intros H. unfold get_nilai, adapt. rewrite H. reflexivity.
Qed.

Lemma get_nilai_refused (e : engine) (collate : string -> string -> comparison)
  (db : database) (n : option string) (s : option Z) :
  forallb adaptable (nilai_params n s) = false ->
  get_nilai e collate db n s = Raise (HTTPException 500 (str_exc nul_refused)).
Proof.
  intros H. unfold get_nilai, adapt. rewrite H. reflexivity.
Qed.

Lemma get_nilai_ok_inv (e : engine) (collate : string -> string -> comparison)
  (db : database) (n : option string) (s : option Z) (recs : list nilai_record) :
  get_nilai e collate db n s = Ok recs ->
  recs = map nilai_record_of (query_nilai e collate db n s).
Proof.
  destruct (forallb adaptable (nilai_params n s)) eqn:E.
  - rewrite (get_nilai_run e collate db n s E). intros H. now inversion H.
  - rewrite (get_nilai_refused e collate db n s E). discriminate.
Qed.

Lemma in_query_nilai (e : engine) (collate : string -> string -> comparison)
  (db : database) (n : option string) (s : option Z) (row : krs_join_row) :
  In row (query_nilai e collate db n s) <-> In row (rows_nilai db n s).
Proof. unfold query_nilai. rewrite in_sort_le. apply in_arrange. Qed.

Lemma get_nilai_in (e : engine) (collate : string -> string -> comparison)
  (db : database) (n : option string) (s : option Z) (recs : list nilai_record)
  (x : nilai_record) :
  get_nilai e collate db n s = Ok recs -> In x recs ->
  exists k row,
    In k (krs db) /\ nim_condition n k = true /\ semester_condition s k = true /\
    In row (joined_nilai db k) /\ x = nilai_record_of row.
Proof.
  intros H Hx. apply get_nilai_ok_inv in H. subst recs.
  apply in_map_iff in Hx. destruct Hx as [row [<- Hrow]].
  apply in_query_nilai in Hrow. unfold rows_nilai in Hrow.
  apply in_flat_map in Hrow. destruct Hrow as [k [Hk Hrow]].
  apply filter_In in Hk. destruct Hk as [Hk Hc]. apply andb_prop in Hc.
  exists k, row. tauto.
Qed.

(** X18. The enrollment listing and its optional filters, on any store,
    under any collation and any order of delivery.  An empty student filter
    and a term filter of 0 are ignored: the listing is the one without that
    filter.  A non-empty student filter keeps only that student's records
    and a non-zero term filter only that term's.  Every record listed
    belongs to a stored enrollment with a stored student and a stored
    course, and a record whose grade is absent or not in the weight table
    carries weight 0.0. *)
Theorem get_nilai_filters (e : engine) (collate : string -> string -> comparison)
  (db : database) :
  (forall s, get_nilai e collate db (Some ""%string) s = get_nilai e collate db None s) /\
  (forall n, get_nilai e collate db n (Some 0) = get_nilai e collate db n None) /\
  (forall n s recs x,
     get_nilai e collate db n s = Ok recs -> In x recs ->
     (forall n0, n = Some n0 -> n0 <> ""%string -> n_nim x = n0) /\
     (forall s0, s = Some s0 -> s0 <> 0 -> n_semester x = s0) /\
     (exists k, In k (krs db) /\ id_krs k = n_id_krs x /\ k_nim k = n_nim x /\
                k_kode_mk k = n_kode_mk x /\ k_nilai k = n_nilai x /\
                k_semester k = n_semester x) /\
     student_known db (n_nim x) /\ course_known db (n_kode_mk x) /\
     (n_nilai x = None -> n_bobot x = pos_zero) /\
     (forall g, n_nilai x = Some g -> ~ In g (map bn_nilai (bobot_nilai db)) ->
                n_bobot x = pos_zero)).
Proof.
  split; [reflexivity|]. split; [reflexivity|].
  intros n s recs x H Hx.
  destruct (get_nilai_in e collate db n s recs x H Hx)
    as [k [row [Hk [Hn [Hs [Hrow ->]]]]]].
  destruct (joined_nilai_in db k row Hrow) as [E1 [E2 [E3 [E4 [E5 [Hsk [Hck Hb]]]]]]].
  cbn [nilai_record_of n_id_krs n_nim n_kode_mk n_nilai n_semester n_bobot].
  rewrite E1, E2, E3, E4, E5.
  split; [|split; [|split; [|split; [|split; [|split]]]]]; auto.
  - intros n0 -> Hne. simpl in Hn. apply String.eqb_neq in Hne. rewrite Hne in Hn.
    now apply String.eqb_eq in Hn.
  - intros s0 -> Hne. simpl in Hs. apply Z.eqb_neq in Hne. rewrite Hne in Hs.
    now apply Z.eqb_eq in Hs.
  - exists k. auto 10.
  - intros Hg. rewrite Hg, absent_left_join in Hb. destruct Hb as [<-|[]]. reflexivity.
  - intros g Hg Hun. rewrite Hg, (unlisted_left_join db g Hun) in Hb.
    destruct Hb as [<-|[]]. reflexivity.
Qed.

Lemma get_nilai_filters_witness :
  exists recs,
    get_nilai in_order String.compare db_pending (Some "2101"%string) (Some 1) = Ok recs /\
    forall x, In x recs -> n_nim x = "2101"%string /\ n_semester x = 1.
Proof.
  assert (H : exists recs,
             get_nilai in_order String.compare db_pending (Some "2101"%string) (Some 1)
             = Ok recs) by (eexists; reflexivity).
  destruct H as [recs H]. exists recs. split; [exact H|].
  intros x Hx.
  destruct (proj2 (proj2 (get_nilai_filters in_order String.compare db_pending))
              (Some "2101"%string) (Some 1) recs x H Hx) as [Hn [Hs _]].
  split; [apply Hn; [reflexivity|discriminate]|apply Hs; [reflexivity|discriminate]].
Defined.

Lemma joined_nilai_listed (db : database) (k : krs_row) :
  wf db -> In k (krs db) ->
  map nilai_record_of (joined_nilai db k) = [listed db k].
Proof.
  intros Hwf Hk. unfold joined_nilai, join_mahasiswa, join_mata_kuliah.
  rewrite (filter_unique nim (k_nim k) _ (wf_nim_unique db Hwf)).
  rewrite (filter_unique kode_mk (k_kode_mk k) _ (wf_kode_unique db Hwf)).
  destruct (find_known nim _ _ (wf_krs_student db Hwf k Hk)) as [m [Hm [_ Em]]].
  destruct (find_known kode_mk _ _ (wf_krs_course db Hwf k Hk)) as [mk [Hmk [_ Emk]]].
  rewrite (left_join_bobot_unique db _ (wf_nilai_unique db Hwf)).
  unfold listed, spec_nama, spec_nama_mk, spec_credit, row_of. cbn [r_bobot].
  rewrite Hm, Hmk. simpl. rewrite Emk. reflexivity.
Qed.

Lemma flat_map_joined_nilai (db : database) (ks : list krs_row) :
  wf db -> (forall k, In k ks -> In k (krs db)) ->
  map nilai_record_of (flat_map (joined_nilai db) ks) = map (listed db) ks.
Proof.
  intros Hwf. induction ks as [|k ks IH]; intros Hin; simpl; [reflexivity|].
  rewrite map_app, joined_nilai_listed; auto.
  - simpl. f_equal. apply IH. intros; apply Hin; now right.
  - apply Hin. now left.
Qed.

Lemma get_nilai_spec (e : engine) (collate : string -> string -> comparison)
  (db : database) (n : option string) (s : option Z) :
  wf db -> forallb adaptable (nilai_params n s) = true ->
  exists recs,
    get_nilai e collate db n s = Ok recs /\
    Permutation recs
      (map (listed db)
         (filter (fun k => nim_condition n k && semester_condition s k) (krs db))).
Proof.
  intros Hwf Ha. rewrite (get_nilai_run e collate db n s Ha).
  eexists. split; [reflexivity|].
  unfold query_nilai.
  eapply perm_trans; [apply Permutation_map, sort_le_perm|].
  eapply perm_trans; [apply Permutation_map, arrange_perm|].
  unfold rows_nilai.
  rewrite flat_map_joined_nilai; [apply Permutation_refl|exact Hwf|].
  intros k Hk. apply filter_In in Hk. tauto.
Qed.

(** X19. On a store that satisfies the data-model invariant, and for a
    student filter the driver accepts (absent, empty, or free of NUL
    characters), the enrollment listing shows exactly one record per
    enrollment that passes the filters -- a rearrangement of those
    enrollments, each with its identifier, student, course, grade and term,
    the stored names, the course's credit-weight and the weight of its grade
    (0.0 when absent or not listed).  A student filter with a NUL character
    is answered 500. *)
Theorem get_nilai_one_record_per_enrollment (e : engine)
  (collate : string -> string -> comparison)
  (db : database) (n : option string) (s : option Z) :
  wf db ->
  (forallb adaptable (nilai_params n s) = true ->
   exists recs,
     get_nilai e collate db n s = Ok recs /\
     Permutation recs
       (map (listed db)
          (filter (fun k => nim_condition n k && semester_condition s k) (krs db)))) /\
  (forall k, n_bobot (listed db k) = spec_weight db (k_nilai k)) /\
  (forall n0, n = Some n0 -> has_nul n0 = true ->
     get_nilai e collate db n s
     = Raise (HTTPException 500 "A string literal cannot contain NUL (0x00) characters.")).
Proof.
  intros Hwf. split; [|split].
  - now apply get_nilai_spec.
  - intros k. apply bobot_of_row_of.
  - intros n0 -> Hn. apply get_nilai_refused. unfold nilai_params.
    destruct (String.eqb n0 "") eqn:E.
    + apply String.eqb_eq in E. subst n0. discriminate Hn.
    + cbn. now rewrite Hn.
Qed.

Lemma get_nilai_one_record_per_enrollment_witness :
  exists recs,
    get_nilai reversed String.compare db_pending None None = Ok recs /\
    Permutation recs [listed db_pending krs_graded; listed db_pending krs_pending].
Proof.
  exact (proj1 (get_nilai_one_record_per_enrollment reversed String.compare db_pending
                  None None wf_db_pending) eq_refl).
Defined.

(** X20. The enrollment listing agrees with the semester report.  On a
    store that satisfies the data-model invariant, for a stored student and
    a non-zero term: the listing filtered by that student and term is empty
    exactly when the semester report is refused with 404, and otherwise its
    records show, up to order, the same courses with the same names,
    credit-weights, grades and weights as the report's course list. *)
Theorem listing_matches_semester_report (e e' : engine)
  (collate : string -> string -> comparison)
  (db : database) (n : string) (s : Z) :
  wf db -> student_known db n -> n <> ""%string -> s <> 0 ->
  exists recs,
    get_nilai e collate db (Some n) (Some s) = Ok recs /\
    (recs = [] <-> is_http 404 (hitung_ips e' db n s)) /\
    (forall r, hitung_ips e' db n s = Ok r ->
               Permutation (map listing_columns recs)
                           (map report_columns (ips_mata_kuliah r))).
Proof.
  intros Hwf Hk Hn Hs.
  assert (Hc : has_nul n = false) by now apply known_clean with (db := db).
  assert (Ha : forallb adaptable (nilai_params (Some n) (Some s)) = true).
  { unfold nilai_params. apply String.eqb_neq in Hn. apply Z.eqb_neq in Hs.
    rewrite Hn, Hs. cbn. now rewrite Hc. }
  destruct (get_nilai_spec e collate db (Some n) (Some s) Hwf Ha) as [recs [Hrecs Hperm]].
  assert (Ef : filter (fun k => nim_condition (Some n) k && semester_condition (Some s) k)
                 (krs db) = term_enrollments db n s).
  { unfold term_enrollments. apply filter_ext. intros k. simpl.
    apply String.eqb_neq in Hn. apply Z.eqb_neq in Hs. now rewrite Hn, Hs. }
  rewrite Ef in Hperm.
  pose proof (rows_ips_nil db n s Hwf) as Ni.
  exists recs. split; [exact Hrecs|]. split.
  - split.
    + intros ->. apply Permutation_nil in Hperm. apply map_eq_nil in Hperm.
      destruct (fetch_mahasiswa_known e' db n Hk) as [mhs Hf].
      rewrite (hitung_ips_no_rows e' db n s mhs Hc Hf); [eexists; reflexivity|].
      now apply Ni.
    + intros [d Hd].
      destruct (hitung_ips_cases e' db n s)
        as [[F _]|[[_ [Hu _]]|[[_ [_ [Hr0 _]]]|[_ [_ [_ [[r0 E]|E]]]]]]];
        try congruence; try contradiction.
      apply Ni in Hr0. rewrite Hr0 in Hperm.
      now apply Permutation_sym, Permutation_nil in Hperm.
  - intros r Hr.
    destruct (hitung_ips_ok_inv e' db n s r Hr) as [mhs [_ [_ [_ ->]]]].
    rewrite (query_ips_spec e' db n s Hwf).
    cbn [ips_report_of ips_mata_kuliah].
    eapply perm_trans; [apply Permutation_map, Hperm|].
    rewrite !map_map.
    eapply perm_trans;
      [|apply Permutation_map, Permutation_sym, (delivered_ips_perm e' db n s)].
    apply Permutation_refl.
Qed.

Lemma listing_matches_semester_report_witness :
  exists recs,
    get_nilai in_order String.compare db_two_courses (Some "2101"%string) (Some 1)
    = Ok recs /\
    forall r, hitung_ips reversed db_two_courses "2101" 1 = Ok r ->
              Permutation (map listing_columns recs)
                          (map report_columns (ips_mata_kuliah r)).
Proof.
  destruct (listing_matches_semester_report in_order reversed String.compare
              db_two_courses "2101"%string 1 wf_db_two_courses)
    as [recs [H [_ Hp]]].
  - left. reflexivity.
  - discriminate.
  - discriminate.
  - exists recs. split; [exact H|exact Hp].
Defined.

Lemma known_has_row {A} (key : A -> string) (c : string) (l : list A) :
  In c (map key l) -> exists x, In x (filter (fun x => String.eqb c (key x)) l).
Proof.
  intros H. apply in_map_iff in H. destruct H as [x [E Hx]].
  exists x. apply filter_In. split; [exact Hx|]. subst c. apply String.eqb_refl.
Qed.

(** X21. A created enrollment is listed at once, on any store, under any
    collation and any order of delivery: the enrollment listing filtered by
    its student and term contains a record with the identifier the create
    response returned and the course, grade and term of the request. *)
Theorem created_enrollment_is_listed (e : engine)
  (collate : string -> string -> comparison)
  (k : KRS) (admin : json) (db : database) (resp : created krs_row) :
  fst (create_nilai k admin db) = Ok resp ->
  exists recs x,
    get_nilai e collate (snd (create_nilai k admin db))
      (Some (krs_nim k)) (Some (krs_semester k)) = Ok recs /\
    In x recs /\
    n_id_krs x = id_krs (data resp) /\ n_nim x = krs_nim k /\
    n_kode_mk x = krs_kode_mk k /\ n_nilai x = krs_nilai k /\
    n_semester x = krs_semester k.
Proof.
  intros Hok.
  destruct (create_nilai_ok k admin db resp Hok) as [Hcl [Hs [Hc [_ [-> ->]]]]].
  cbn [data].
  apply clean_KRS_parts in Hcl. destruct Hcl as [Hn _].
  set (row := new_krs_row db k).
  destruct (known_has_row nim (krs_nim k) (mahasiswa db) Hs) as [m Hm].
  destruct (known_has_row kode_mk (krs_kode_mk k) (mata_kuliah db) Hc) as [mk Hmk].
  destruct (left_join_bobot_inhabited db (krs_nilai k)) as [b Hb].
  rewrite get_nilai_run.
  2:{ unfold nilai_params.
      destruct (String.eqb (krs_nim k) ""), (krs_semester k =? 0); cbn;
        try reflexivity; now rewrite Hn. }
  eexists.
  exists (nilai_record_of
            {| j_id_krs := id_krs row; j_nim := k_nim row; j_nama := nama m;
               j_kode_mk := kode_mk mk; j_nama_mk := nama_mk mk; j_sks := sks mk;
               j_nilai := k_nilai row; j_semester := k_semester row; j_bobot := b |}).
  split; [reflexivity|]. split.
  - apply in_map. apply in_query_nilai. unfold rows_nilai.
    apply in_flat_map. exists row. split.
    + apply filter_In. split.
      * cbn. apply in_app_iff. right. now left.
      * simpl. rewrite String.eqb_refl, Z.eqb_refl.
        destruct (String.eqb (krs_nim k) ""), (krs_semester k =? 0); reflexivity.
    + unfold joined_nilai. apply in_flat_map. exists m. split; [exact Hm|].
      apply in_flat_map. exists mk. split; [exact Hmk|].
      apply in_map_iff. exists b. split; [reflexivity|exact Hb].
  - cbn. repeat split; try reflexivity.
    apply filter_In in Hmk. destruct Hmk as [_ Hmk]. apply String.eqb_eq in Hmk. auto.
Qed.

Lemma created_enrollment_is_listed_witness :
  exists recs x,
    get_nilai reversed String.compare
      (snd (create_nilai krs_request admin_user db_two_courses))
      (Some "2101"%string) (Some 2) = Ok recs /\
    In x recs /\ n_id_krs x = 3 /\ n_nilai x = Some "Z+"%string.
Proof.
  destruct (created_enrollment_is_listed reversed String.compare krs_request admin_user
              db_two_courses
              {| message := "Nilai/KRS berhasil ditambahkan";
                 data := new_krs_row db_two_courses krs_request;
                 created_by := JStr "admin1" |} eq_refl)
    as [recs [x [H [Hx [Hid [_ [_ [Hg _]]]]]]]].
  exists recs, x. split; [exact H|]. split; [exact Hx|]. split; [exact Hid|exact Hg].
Defined.
